(** * Teacher scheduler: the assignment grid engine

    A shallow embedding of the grid logic of the teacher scheduler
    (row visibility, column labels, drag-and-drop relocation, header
    aggregation, teacher metrics) together with the properties its
    specification states about it.

    JavaScript numbers that the data model keeps integral (loads, student
    counts, capacities) are embedded as [Z]; arrays are lists; the
    [Record<string, _>] and [Map] objects are finite maps keyed by strings.

    The additions and subtractions of the code are those of [Z] as long as
    their operands and results stay within [Number.MAX_SAFE_INTEGER]; beyond
    it the code rounds, and the order of the addends matters.  The
    properties that compare the totals of two runs over rearranged rows
    therefore assume page data within that range, and state that every
    running total stays in it. *)

From Stdlib Require Import ZArith QArith String Ascii List.
From stdpp Require Import base option list gmap strings.

Local Open Scope string_scope.
Local Open Scope list_scope.
Local Open Scope Z_scope.

(** ** Data model ([types/scheduler.ts]) *)

Inductive Division : Type := MS | HS.

#[global] Instance Division_eq_dec : EqDecision Division.
Proof. solve_decision. Defined.

Module Assignment.
Record t : Type := mk {
  courseId : string;
  courseName : string;
  courseGroup : string;
  load : Z;
  isCPT : bool;
  students : option Z;
  color : option string
}.
End Assignment.

Module Teacher.
Record t : Type := mk {
  id : string;
  name : string;
  division : Division;
  otherRole : option string;
  maxLoad : Z;
  preps : Z;
  students : Z;
  assignments : list Assignment.t;
  totalLoad : option Z;
  availablePeriods : option Z
}.
End Teacher.

Module CourseColumnMetadata.
Record t : Type := mk {
  columnId : string;
  totalSections : Z;
  periodsPerCycle : Z;
  remainingPeriod : Z;
  studentsPerSection : Z
}.
End CourseColumnMetadata.

Module CourseGroup.
(** [columns] is declared mandatory, but every reader of it goes through
    [group?.columns || group?.courses || []]; it is optional here so that
    the fallback chain is kept. *)
Record t : Type := mk {
  id : string;
  name : option string;
  label : string;
  color : string;
  order : Z;
  courses : option (list string);
  columns : option (list string);
  isSystem : option bool;
  columnMetadata : option (list CourseColumnMetadata.t)
}.
End CourseGroup.

Module PersistedSchedulerState.
Record t : Type := mk {
  collapsedCourseGroups : list string;
  collapsedDivisions : list Division;
  sortBy : option string;
  prepsThreshold : Z;
  lastAccessed : string
}.
End PersistedSchedulerState.

Module TeacherMetrics.
Record t : Type := mk {
  totalLoad : Z;
  availablePeriods : Z;
  totalStudents : Z
}.
End TeacherMetrics.

(** ** JavaScript array and string primitives used by the code *)

(** [arr.includes(x)] *)
Definition includes {A} `{EqDecision A} (l : list A) (x : A) : bool :=
  existsb (fun y => bool_decide (y = x)) l.

(** [arr.find(p)] *)
Fixpoint find {A} (p : A -> bool) (l : list A) : option A :=
  match l with
  | [] => None
  | x :: l' => if p x then Some x else find p l'
  end.

(** [x || 0] on an optional number *)
Definition orZero (x : option Z) : Z :=
  match x with
  | Some v => v
  | None => 0
  end.

(** [s.startsWith(p)] *)
Fixpoint startsWith (s p : string) {struct p} : bool :=
  match p, s with
  | EmptyString, _ => true
  | String c p', String d s' => if bool_decide (c = d) then startsWith s' p' else false
  | String _ _, EmptyString => false
  end.

(** [s.substring(n)] *)
Fixpoint substringFrom (s : string) (n : nat) {struct n} : string :=
  match n, s with
  | O, _ => s
  | S n', String _ s' => substringFrom s' n'
  | S _, EmptyString => EmptyString
  end.

Definition underscore : ascii := "_"%char.
Definition space : ascii := " "%char.

(** [s.replace(/_/g, ' ')] *)
Fixpoint replaceUnderscores (s : string) : string :=
  match s with
  | EmptyString => EmptyString
  | String c s' =>
      String (if bool_decide (c = underscore) then space else c) (replaceUnderscores s')
  end.

(** [s.includes('_')] *)
Fixpoint includesUnderscore (s : string) : bool :=
  match s with
  | EmptyString => false
  | String c s' => if bool_decide (c = underscore) then true else includesUnderscore s'
  end.

(** [s.split('_')]: the pieces between underscores, empty pieces included;
    the result always has at least one element. *)
Fixpoint splitUnderscore (s : string) : list string :=
  match s with
  | EmptyString => [EmptyString]
  | String c s' =>
      if bool_decide (c = underscore) then EmptyString :: splitUnderscore s'
      else match splitUnderscore s' with
           | [] => [String c EmptyString]
           | p :: ps => String c p :: ps
           end
  end.

(** [parts.join('')] *)
Definition joinEmpty (parts : list string) : string :=
  fold_right String.append EmptyString parts.

(** [parts.slice(1, -1)] *)
Definition sliceMiddle {A} (parts : list A) : list A :=
  removelast (tail parts).

(** A template literal prints a missing array element as [undefined]. *)
Definition printPart (p : option string) : string :=
  match p with
  | Some s => s
  | None => "undefined"
  end.

(** ** Column labels ([utils/courseNameParser]) *)

Definition parseCourseNameFromColumnId (columnId groupId : string) : string :=
  let prefix := groupId +:+ "_" in
  if startsWith columnId prefix then
    let nameWithoutGroup := substringFrom columnId (String.length prefix) in
    replaceUnderscores nameWithoutGroup
  else if negb (includesUnderscore columnId) then
    columnId
  else
    let parts := tail (splitUnderscore columnId) in
    match parts with
    | [p] => p
    | _ =>
        let base := head parts in
        let suffix := last parts in
        let middle := sliceMiddle parts in
        if (0 <? List.length middle)%nat then
          printPart base +:+ "(" +:+ joinEmpty middle +:+ ")" +:+ printPart suffix
        else
          printPart base +:+ printPart suffix
    end.

(** ** Persisted view state ([hooks/usePersistedSchedulerState.ts])

    The state updaters passed to [setState] are functions of the previous
    state; [now] stands for [new Date().toISOString()]. *)

Definition toggleCourseGroup (now groupId : string)
    (prev : PersistedSchedulerState.t) : PersistedSchedulerState.t :=
  let isCollapsed := includes (PersistedSchedulerState.collapsedCourseGroups prev) groupId in
  {| PersistedSchedulerState.collapsedCourseGroups :=
       if isCollapsed
       then List.filter (fun id => negb (bool_decide (id = groupId)))
                        (PersistedSchedulerState.collapsedCourseGroups prev)
       else PersistedSchedulerState.collapsedCourseGroups prev ++ [groupId];
     PersistedSchedulerState.collapsedDivisions := PersistedSchedulerState.collapsedDivisions prev;
     PersistedSchedulerState.sortBy := PersistedSchedulerState.sortBy prev;
     PersistedSchedulerState.prepsThreshold := PersistedSchedulerState.prepsThreshold prev;
     PersistedSchedulerState.lastAccessed := now |}.

Definition toggleDivision (now : string) (division : Division)
    (prev : PersistedSchedulerState.t) : PersistedSchedulerState.t :=
  let isCollapsed := includes (PersistedSchedulerState.collapsedDivisions prev) division in
  {| PersistedSchedulerState.collapsedCourseGroups := PersistedSchedulerState.collapsedCourseGroups prev;
     PersistedSchedulerState.collapsedDivisions :=
       if isCollapsed
       then List.filter (fun d => negb (bool_decide (d = division)))
                        (PersistedSchedulerState.collapsedDivisions prev)
       else PersistedSchedulerState.collapsedDivisions prev ++ [division];
     PersistedSchedulerState.sortBy := PersistedSchedulerState.sortBy prev;
     PersistedSchedulerState.prepsThreshold := PersistedSchedulerState.prepsThreshold prev;
     PersistedSchedulerState.lastAccessed := now |}.

(** ** Row visibility ([SchedulerGrid], [visibleTeachers]) *)

Definition visibleTeachers (teachers : list Teacher.t)
    (collapsedDivisions : list Division) : list Teacher.t :=
  List.filter (fun teacher => negb (includes collapsedDivisions (Teacher.division teacher)))
              teachers.

(** ** Teacher metrics ([lib/calculations]) *)

Definition calculateTeacherMetrics (teacher : Teacher.t) : TeacherMetrics.t :=
  let totalLoad :=
    fold_left (fun sum a => sum + Assignment.load a)
              (List.filter (fun a => negb (Assignment.isCPT a)) (Teacher.assignments teacher)) 0 in
  let availablePeriods := Teacher.maxLoad teacher - totalLoad in
  let totalStudents :=
    fold_left (fun sum a => sum + orZero (Assignment.students a))
              (Teacher.assignments teacher) 0 in
  {| TeacherMetrics.totalLoad := totalLoad;
     TeacherMetrics.availablePeriods := availablePeriods;
     TeacherMetrics.totalStudents := totalStudents |}.

Definition enhanceTeacherWithMetrics (teacher : Teacher.t) : Teacher.t :=
  let metrics := calculateTeacherMetrics teacher in
  let preps := Z.of_nat (List.length (Teacher.assignments teacher)) in
  {| Teacher.id := Teacher.id teacher;
     Teacher.name := Teacher.name teacher;
     Teacher.division := Teacher.division teacher;
     Teacher.otherRole := Teacher.otherRole teacher;
     Teacher.maxLoad := Teacher.maxLoad teacher;
     Teacher.preps := preps;
     Teacher.students := TeacherMetrics.totalStudents metrics;
     Teacher.assignments := Teacher.assignments teacher;
     Teacher.totalLoad := Some (TeacherMetrics.totalLoad metrics);
     Teacher.availablePeriods := Some (TeacherMetrics.availablePeriods metrics) |}.

(** [{ ...teacher, assignments: newAssignments }] *)
Definition withAssignments (teacher : Teacher.t) (newAssignments : list Assignment.t) : Teacher.t :=
  {| Teacher.id := Teacher.id teacher;
     Teacher.name := Teacher.name teacher;
     Teacher.division := Teacher.division teacher;
     Teacher.otherRole := Teacher.otherRole teacher;
     Teacher.maxLoad := Teacher.maxLoad teacher;
     Teacher.preps := Teacher.preps teacher;
     Teacher.students := Teacher.students teacher;
     Teacher.assignments := newAssignments;
     Teacher.totalLoad := Teacher.totalLoad teacher;
     Teacher.availablePeriods := Teacher.availablePeriods teacher |}.

(** ** Header aggregation ([hooks/useSummaryCalculations.ts]) *)

Module CourseTotals.
(** [periodsPerStudent] is the quotient of two integral numbers; it is kept
    as the exact fraction. *)
Record t : Type := mk {
  students : Z;
  load : Z;
  remaining : Z;
  periodsPerStudent : Q;
  studentCount : Z
}.
End CourseTotals.

Module SummaryTotals.
Record t : Type := mk {
  totalTeachers : Z;
  totalMaxLoad : Z;
  totalAvailable : Z;
  totalPreps : Z;
  totalStudents : Z;
  courseTotals : gmap string CourseTotals.t
}.
End SummaryTotals.

(** [group?.columns || group?.courses || []] (an array, even empty, is truthy) *)
Definition columnList (group : CourseGroup.t) : list string :=
  match CourseGroup.columns group with
  | Some cols => cols
  | None =>
      match CourseGroup.courses group with
      | Some cs => cs
      | None => []
      end
  end.

(** The predicate handed to [teacher.assignments.find] by the grid cells and
    by the aggregation. *)
Definition inCell (courseName groupId : string) (a : Assignment.t) : bool :=
  bool_decide (Assignment.courseName a = courseName)
  && bool_decide (Assignment.courseGroup a = groupId).

(** The three counters of the inner loop. *)
Record Counters : Type := mkCounters {
  totalStudents : Z;
  totalLoad : Z;
  studentCount : Z
}.

(** Body of [visibleTeachers.forEach(teacher => ...)]. *)
Definition countTeacher (courseName groupId : string) (acc : Counters)
    (teacher : Teacher.t) : Counters :=
  match find (inCell courseName groupId) (Teacher.assignments teacher) with
  | Some assignment =>
      {| totalStudents := totalStudents acc + orZero (Assignment.students assignment);
         totalLoad := totalLoad acc + Assignment.load assignment;
         studentCount :=
           match Assignment.students assignment with
           | Some n => if (negb (n =? 0)) && (0 <? n) then studentCount acc + 1
                       else studentCount acc
           | None => studentCount acc
           end |}
  | None => acc
  end.

(** Body of [columnList.forEach(columnId => ...)]: the key and the totals
    stored under it. *)
Definition columnTotals (visible : list Teacher.t) (group : CourseGroup.t)
    (columnId : string) : string * CourseTotals.t :=
  let courseName := parseCourseNameFromColumnId columnId (CourseGroup.id group) in
  let acc := fold_left (countTeacher courseName (CourseGroup.id group)) visible
                       (mkCounters 0 0 0) in
  let metadata :=
    match CourseGroup.columnMetadata group with
    | Some ms => find (fun m => bool_decide (CourseColumnMetadata.columnId m = columnId)) ms
    | None => None
    end in
  let capacity :=
    match metadata with
    | Some m => CourseColumnMetadata.periodsPerCycle m
    | None => 0
    end in
  let remaining := if 0 <? capacity then capacity - totalLoad acc else 0 in
  let periodsPerStudent :=
    if 0 <? totalStudents acc
    then Qmake (totalLoad acc) (Z.to_pos (totalStudents acc))
    else 0%Q in
  (CourseGroup.id group +:+ "-" +:+ courseName,
   {| CourseTotals.students := totalStudents acc;
      CourseTotals.load := totalLoad acc;
      CourseTotals.remaining := remaining;
      CourseTotals.periodsPerStudent := periodsPerStudent;
      CourseTotals.studentCount := studentCount acc |}).

(** The two nested [forEach] loops filling [courseTotals]; a later column
    with the same key overwrites the earlier entry. *)
Definition fillGroup (visible : list Teacher.t)
    (courseTotals : gmap string CourseTotals.t) (group : CourseGroup.t)
    : gmap string CourseTotals.t :=
  fold_left (fun totals columnId =>
               let kv := columnTotals visible group columnId in
               <[ kv.1 := kv.2 ]> totals)
            (columnList group) courseTotals.

Definition useSummaryCalculations (visible : list Teacher.t)
    (courseGroups : list CourseGroup.t) (collapsedCourseGroups : list string)
    : SummaryTotals.t :=
  let visibleCourseGroups :=
    List.filter (fun g => negb (includes collapsedCourseGroups (CourseGroup.id g)))
                courseGroups in
  let courseTotals := fold_left (fillGroup visible) visibleCourseGroups ∅ in
  {| SummaryTotals.totalTeachers := Z.of_nat (List.length visible);
     SummaryTotals.totalMaxLoad :=
       fold_left (fun sum t => sum + Teacher.maxLoad t) visible 0;
     SummaryTotals.totalAvailable :=
       fold_left (fun sum t => sum + orZero (Teacher.availablePeriods t)) visible 0;
     SummaryTotals.totalPreps :=
       fold_left (fun sum t => sum + Teacher.preps t) visible 0;
     SummaryTotals.totalStudents :=
       fold_left (fun sum t => sum + Teacher.students t) visible 0;
     SummaryTotals.courseTotals := courseTotals |}.

(** ** Grid cells ([AssignmentCell]) and the drag-and-drop handler *)

(** [data] of the draggable registered by a cell *)
Record DragData : Type := mkDragData {
  drag_assignment : Assignment.t;
  drag_teacherId : string;
  drag_courseGroup : string
}.

(** [data] of the droppable registered by a cell *)
Record DropData : Type := mkDropData {
  drop_teacherId : string;
  drop_courseGroup : string;
  drop_courseName : string
}.

Record Active : Type := mkActive { active_id : string; active_data : DragData }.
Record Over : Type := mkOver { over_id : string; over_data : DropData }.

(** [DragEndEvent]: [over] is null when the pointer is released outside
    every droppable. *)
Record DragEndEvent : Type := mkDragEndEvent {
  active : Active;
  over : option Over
}.

(** The props of a rendered cell; the grid passes as [assignment] the first
    assignment of the row's teacher found in the cell, or null. *)
Record AssignmentCellProps : Type := mkCell {
  cell_teacherId : string;
  cell_assignment : option Assignment.t;
  cell_courseGroup : CourseGroup.t;
  cell_courseName : string
}.

Definition cellId (props : AssignmentCellProps) : string :=
  cell_teacherId props +:+ "-" +:+ CourseGroup.id (cell_courseGroup props)
    +:+ "-" +:+ cell_courseName props.

(** [useDraggable]: disabled when the cell holds no assignment. *)
Definition draggableOf (props : AssignmentCellProps) : option Active :=
  match cell_assignment props with
  | Some assignment =>
      Some {| active_id := "drag-" +:+ cellId props;
              active_data :=
                {| drag_assignment := assignment;
                   drag_teacherId := cell_teacherId props;
                   drag_courseGroup := CourseGroup.id (cell_courseGroup props) |} |}
  | None => None
  end.

(** [useDroppable] *)
Definition droppableOf (props : AssignmentCellProps) : Over :=
  {| over_id := "drop-" +:+ cellId props;
     over_data :=
       {| drop_teacherId := cell_teacherId props;
          drop_courseGroup := CourseGroup.id (cell_courseGroup props);
          drop_courseName := cell_courseName props |} |}.

(** The cell rendered by a course column for one row. *)
Definition renderCell (teacher : Teacher.t) (group : CourseGroup.t)
    (columnId : string) : AssignmentCellProps :=
  let courseName := parseCourseNameFromColumnId columnId (CourseGroup.id group) in
  {| cell_teacherId := Teacher.id teacher;
     cell_assignment :=
       find (inCell courseName (CourseGroup.id group)) (Teacher.assignments teacher);
     cell_courseGroup := group;
     cell_courseName := courseName |}.

(** What [handleDragEnd] does besides clearing the drag overlay: nothing,
    an error toast, or one call of [onAssignmentUpdate]. *)
Inductive DragOutcome : Type :=
| NoAction
| ToastError (message description : string)
| OnAssignmentUpdate (teacherId : string) (assignments : list Assignment.t)
    (additionalUpdates : option (list (string * list Assignment.t))).

(** [{ ...assignment, courseName }] *)
Definition withCourseName (a : Assignment.t) (courseName : string) : Assignment.t :=
  {| Assignment.courseId := Assignment.courseId a;
     Assignment.courseName := courseName;
     Assignment.courseGroup := Assignment.courseGroup a;
     Assignment.load := Assignment.load a;
     Assignment.isCPT := Assignment.isCPT a;
     Assignment.students := Assignment.students a;
     Assignment.color := Assignment.color a |}.

Definition findTeacher (teachers : list Teacher.t) (teacherId : string) : option Teacher.t :=
  find (fun t => bool_decide (Teacher.id t = teacherId)) teachers.

Definition handleDragEnd (teachers : list Teacher.t) (event : DragEndEvent) : DragOutcome :=
  match over event with
  | None => NoAction
  | Some over =>
      if bool_decide (active_id (active event) = over_id over) then NoAction
      else
        let dragData := active_data (active event) in
        let dropData := over_data over in
        if negb (bool_decide (drag_courseGroup dragData = drop_courseGroup dropData)) then
          ToastError "Invalid drop" "Cannot drop assignment to a different course group"
        else
          match findTeacher teachers (drag_teacherId dragData),
                findTeacher teachers (drop_teacherId dropData) with
          | Some sourceTeacher, Some targetTeacher =>
              if bool_decide (drag_teacherId dragData = drop_teacherId dropData)
                 && bool_decide (Assignment.courseName (drag_assignment dragData)
                                 = drop_courseName dropData)
              then NoAction
              else
                let updatedSourceAssignments :=
                  List.filter
                    (fun a => negb (bool_decide (Assignment.courseId a
                                      = Assignment.courseId (drag_assignment dragData))))
                    (Teacher.assignments sourceTeacher) in
                if bool_decide (drag_teacherId dragData = drop_teacherId dropData) then
                  let updatedAssignment :=
                    withCourseName (drag_assignment dragData) (drop_courseName dropData) in
                  OnAssignmentUpdate (Teacher.id sourceTeacher)
                    (updatedSourceAssignments ++ [updatedAssignment]) None
                else
                  let updatedTargetAssignments :=
                    Teacher.assignments targetTeacher
                    ++ [withCourseName (drag_assignment dragData) (drop_courseName dropData)] in
                  OnAssignmentUpdate (Teacher.id sourceTeacher) updatedSourceAssignments
                    (Some [(Teacher.id targetTeacher, updatedTargetAssignments)])
          | _, _ => NoAction
          end
  end.

(** ** Applying an update to the page data ([app/page.tsx]) *)

(** The optimistic update of [handleAssignmentUpdate], on loaded page data
    ([data] is not null): the new value of [data.teachers]. *)
Definition handleAssignmentUpdate (teachers : list Teacher.t) (teacherId : string)
    (assignments : list Assignment.t)
    (additionalUpdates : option (list (string * list Assignment.t))) : list Teacher.t :=
  let updates0 : gmap string (list Assignment.t) := <[ teacherId := assignments ]> ∅ in
  let updates :=
    match additionalUpdates with
    | Some us => fold_left (fun m (update : string * list Assignment.t) =>
                              <[ update.1 := update.2 ]> m) us updates0
    | None => updates0
    end in
  List.map (fun teacher =>
              match updates !! Teacher.id teacher with
              | Some newAssignments =>
                  enhanceTeacherWithMetrics (withAssignments teacher newAssignments)
              | None => teacher
              end) teachers.

(** The page after a drag: the teachers are replaced only when the handler
    called [onAssignmentUpdate]. *)
Definition teachersAfterDrag (teachers : list Teacher.t) (event : DragEndEvent) : list Teacher.t :=
  match handleDragEnd teachers event with
  | OnAssignmentUpdate teacherId assignments additionalUpdates =>
      handleAssignmentUpdate teachers teacherId assignments additionalUpdates
  | _ => teachers
  end.

(** The event delivered when the assignment shown in cell [source] is dragged
    and released over cell [destination]; an empty cell cannot be dragged. *)
Definition dropEvent (source destination : AssignmentCellProps) : option DragEndEvent :=
  match draggableOf source with
  | Some dragged => Some {| active := dragged; over := Some (droppableOf destination) |}
  | None => None
  end.

(** ** Further teacher calculations ([lib/calculations]) *)

(** [canTakeMoreLoad(teacher, additionalLoad = 0)] *)
Definition canTakeMoreLoad (teacher : Teacher.t) (additionalLoad : Z) : bool :=
  let metrics := calculateTeacherMetrics teacher in
  TeacherMetrics.totalLoad metrics + additionalLoad <=? Teacher.maxLoad teacher.

Definition calculateCourseGroupTotal (teachers : list Teacher.t) (courseGroup : string) : Z :=
  fold_left
    (fun total teacher =>
       let groupAssignments :=
         List.filter (fun a => bool_decide (Assignment.courseGroup a = courseGroup))
                     (Teacher.assignments teacher) in
       total + fold_left (fun sum a => sum + orZero (Assignment.students a)) groupAssignments 0)
    teachers 0.

Definition calculateCourseGroupLoad (teachers : list Teacher.t) (courseGroup : string) : Z :=
  fold_left
    (fun total teacher =>
       let groupAssignments :=
         List.filter (fun a => bool_decide (Assignment.courseGroup a = courseGroup))
                     (Teacher.assignments teacher) in
       total + fold_left (fun sum a => sum + Assignment.load a) groupAssignments 0)
    teachers 0.

(** A JavaScript [Map] with string keys: the entries in insertion order.
    [set] on a present key replaces the value in place, on an absent key it
    adds the entry at the end. *)
Definition mapGet {V} (m : list (string * V)) (key : string) : option V :=
  snd <$> find (fun kv : string * V => bool_decide (kv.1 = key)) m.

Fixpoint mapSet {V} (m : list (string * V)) (key : string) (value : V) : list (string * V) :=
  match m with
  | [] => [(key, value)]
  | (k, v) :: m' =>
      if bool_decide (k = key) then (key, value) :: m' else (k, v) :: mapSet m' key value
  end.

Definition getAssignmentsByCourseGroup (assignments : list Assignment.t)
    : list (string * list Assignment.t) :=
  fold_left
    (fun grouped assignment =>
       let existing :=
         match mapGet grouped (Assignment.courseGroup assignment) with
         | Some l => l
         | None => []
         end in
       mapSet grouped (Assignment.courseGroup assignment) (existing ++ [assignment]))
    assignments [].

Module DivisionTotals.
Record t : Type := mk {
  teachers : Z;
  totalLoad : Z;
  totalStudents : Z
}.
End DivisionTotals.


(** ** The other updates of the page data ([app/page.tsx])

    Each handler awaits the API and then replaces [data.teachers]; the
    functions below are these replacements, given what the API answered. *)

(** [fetchSchedulerData]: the teachers kept from the API's list. *)
Definition fetchSchedulerData (fetched : list Teacher.t) : list Teacher.t :=
  firstn 10 (List.map enhanceTeacherWithMetrics fetched).

Definition handleCreateTeacher (newTeacher : Teacher.t) (prev : list Teacher.t)
    : list Teacher.t :=
  enhanceTeacherWithMetrics newTeacher :: prev.

Definition handleUpdateTeacher (editingTeacher updated : Teacher.t) (prev : list Teacher.t)
    : list Teacher.t :=
  List.map (fun t => if bool_decide (Teacher.id t = Teacher.id editingTeacher)
                     then enhanceTeacherWithMetrics updated else t) prev.

Definition handleDeleteTeacher (deletingTeacher : Teacher.t) (prev : list Teacher.t)
    : list Teacher.t :=
  List.filter (fun t => negb (bool_decide (Teacher.id t = Teacher.id deletingTeacher))) prev.

(** ** The assignments editor ([teachers/AssignmentsEditor.tsx]) *)

Module Course.
Record t : Type := mk {
  id : string;
  label : string;
  group : string;
  isCPT : bool
}.
End Course.

(** [arr.filter((_, i) => keep(i))], the elements numbered from [start]. *)
Fixpoint filterIndex {A} (keep : nat -> bool) (start : nat) (l : list A) : list A :=
  match l with
  | [] => []
  | x :: l' =>
      if keep start then x :: filterIndex keep (S start) l'
      else filterIndex keep (S start) l'
  end.

Definition handleAddCourse (course : Course.t) (assignments : list Assignment.t)
    : list Assignment.t :=
  assignments
  ++ [{| Assignment.courseId := Course.id course;
         Assignment.courseName := Course.label course;
         Assignment.courseGroup := Course.group course;
         Assignment.load := 0;
         Assignment.isCPT := Course.isCPT course;
         Assignment.students := Some 0;
         Assignment.color := None |}].

Definition handleDeleteAssignment (index : nat) (assignments : list Assignment.t)
    : list Assignment.t :=
  filterIndex (fun i => negb (i =? index)%nat) 0 assignments.

(** The total shown in the editor's header. *)
Definition editorTotalLoad (assignments : list Assignment.t) : Z :=
  fold_left (fun sum a => sum + Assignment.load a)
            (List.filter (fun a => negb (Assignment.isCPT a)) assignments) 0.

(** ** Course columns and the header rows
    ([SchedulerGrid], [header/SummaryMetricsRows], [header/TotalsRow]) *)

(** [s.replace(pattern, '')] with a string pattern: the first occurrence of
    the pattern, if any, is removed. *)
Fixpoint removeFirst (pattern s : string) : string :=
  if startsWith s pattern then substringFrom s (String.length pattern)
  else match s with
       | EmptyString => EmptyString
       | String c s' => String c (removeFirst pattern s')
       end.

(** What the header rows read of a column definition; the identifier of a
    header is the identifier of its column. *)
Record ColumnDef : Type := mkColumnDef {
  column_id : string;
  column_header : string;
  column_courseGroup : option CourseGroup.t;
  column_isNumberOfCPTs : bool
}.

(** One element of [courseColumns]. *)
Definition courseColumn (group : CourseGroup.t) (columnId : string) : ColumnDef :=
  let courseName := parseCourseNameFromColumnId columnId (CourseGroup.id group) in
  let displayName :=
    if bool_decide (CourseGroup.id group = "OTHER_SUBJECTS")
    then courseName +:+ " (OS)" else courseName in
  {| column_id := "course-" +:+ CourseGroup.id group +:+ "-" +:+ columnId;
     column_header := displayName;
     column_courseGroup := Some group;
     column_isNumberOfCPTs := false |}.

Definition courseColumns (courseGroups : list CourseGroup.t)
    (collapsedCourseGroups : list string) : list ColumnDef :=
  let filteredGroups :=
    List.filter (fun group => negb (includes collapsedCourseGroups (CourseGroup.id group)))
                courseGroups in
  flat_map (fun group => List.map (courseColumn group) (columnList group)) filteredGroups.

(** The entry of [courseTotals] that the header rows read for a header. *)
Definition headerTotals (courseGroup : CourseGroup.t) (header : ColumnDef)
    (summaryTotals : SummaryTotals.t) : option CourseTotals.t :=
  let courseName := column_header header in
  let displayName := removeFirst " (OS)" courseName in
  SummaryTotals.courseTotals summaryTotals
    !! (CourseGroup.id courseGroup +:+ "-" +:+ displayName).

(** The metadata that the header rows read for a header. *)
Definition headerMetadata (courseGroup : CourseGroup.t) (header : ColumnDef)
    : option CourseColumnMetadata.t :=
  let columnId :=
    removeFirst ("course-" +:+ CourseGroup.id courseGroup +:+ "-") (column_id header) in
  match CourseGroup.columnMetadata courseGroup with
  | Some ms => find (fun m => bool_decide (CourseColumnMetadata.columnId m = columnId)) ms
  | None => None
  end.

(** The [getValue] functions of [METRICS]; [None] is [null]. *)
Definition metricTotalStudents (header : ColumnDef) (summaryTotals : SummaryTotals.t)
    : option Z :=
  match column_courseGroup header with
  | None => None
  | Some courseGroup =>
      Some (orZero (CourseTotals.students <$> headerTotals courseGroup header summaryTotals))
  end.

Definition metricTotalSection (header : ColumnDef) : option Z :=
  match column_courseGroup header with
  | None => None
  | Some courseGroup =>
      Some (orZero (CourseColumnMetadata.totalSections <$> headerMetadata courseGroup header))
  end.

Definition metricTotalPeriod (header : ColumnDef) (summaryTotals : SummaryTotals.t)
    : option Z :=
  match column_courseGroup header with
  | None => None
  | Some courseGroup =>
      Some (orZero (CourseTotals.load <$> headerTotals courseGroup header summaryTotals))
  end.

Definition metricRemainingPeriod (header : ColumnDef) (summaryTotals : SummaryTotals.t)
    : option Z :=
  match column_courseGroup header with
  | None => None
  | Some courseGroup =>
      Some (orZero (CourseTotals.remaining <$> headerTotals courseGroup header summaryTotals))
  end.

Definition metricPeriodsPerCycle (header : ColumnDef) : option Z :=
  match column_courseGroup header with
  | None => None
  | Some courseGroup =>
      Some (orZero (CourseColumnMetadata.periodsPerCycle
                      <$> headerMetadata courseGroup header))
  end.

Definition metricStudentsPerCycle (header : ColumnDef) : option Z :=
  match column_courseGroup header with
  | None => None
  | Some courseGroup =>
      Some (orZero (CourseColumnMetadata.studentsPerSection
                      <$> headerMetadata courseGroup header))
  end.

(** The count shown by the Number of CPTs column for a row, and the test
    that colours it, with [state.prepsThreshold || 3]. *)
Definition cptCount (teacher : Teacher.t) : Z :=
  Z.of_nat (List.length (List.filter Assignment.isCPT (Teacher.assignments teacher))).

Definition isOverThreshold (state : PersistedSchedulerState.t) (teacher : Teacher.t) : bool :=
  let threshold :=
    if PersistedSchedulerState.prepsThreshold state =? 0 then 3
    else PersistedSchedulerState.prepsThreshold state in
  threshold <? cptCount teacher.

(** The total of the Number of CPTs column in the totals row. *)
Definition totalCPTCount (visible : list Teacher.t) : Z :=
  fold_left (fun sum t => sum + cptCount t) visible 0.

(** ** The key-value store of the API ([lib/kv]) and the course deletion
    route ([api/catalog/courses/[id]])

    The store holds one JSON value per key; a key that was never set reads
    as null.  The operations are sequential reads and writes of the store,
    written in a state-passing style. *)

Module Store.
Record t : Type := mk {
  teachers : option (list Teacher.t);
  groups : option (list CourseGroup.t);
  courses : option (list Course.t);
  divisions : option (list Division)
}.
End Store.

Definition KV (A : Type) : Type := Store.t -> A * Store.t.

Definition ret {A} (x : A) : KV A := fun store => (x, store).

Definition bind {A B} (c : KV A) (k : A -> KV B) : KV B :=
  fun store => let (x, store') := c store in k x store'.

Notation "x <- c ;; k" := (bind c (fun x => k))
  (at level 100, c at level 99, right associativity).

Definition setTeachers (teachers : list Teacher.t) : KV unit :=
  fun store =>
    (tt, {| Store.teachers := Some teachers;
            Store.groups := Store.groups store;
            Store.courses := Store.courses store;
            Store.divisions := Store.divisions store |}).

Definition setCourses (courses : list Course.t) : KV unit :=
  fun store =>
    (tt, {| Store.teachers := Store.teachers store;
            Store.groups := Store.groups store;
            Store.courses := Some courses;
            Store.divisions := Store.divisions store |}).

Definition setCourseGroups (groups : list CourseGroup.t) : KV unit :=
  fun store =>
    (tt, {| Store.teachers := Store.teachers store;
            Store.groups := Some groups;
            Store.courses := Store.courses store;
            Store.divisions := Store.divisions store |}).

Definition getAllTeachers : KV (list Teacher.t) :=
  fun store => (default [] (Store.teachers store), store).

Definition getAllCourses : KV (list Course.t) :=
  fun store => (default [] (Store.courses store), store).

Definition getAllCourseGroups : KV (list CourseGroup.t) :=
  fun store => (default [] (Store.groups store), store).

Definition getTeacher (id : string) : KV (option Teacher.t) :=
  teachers <- getAllTeachers ;;
  ret (find (fun t => bool_decide (Teacher.id t = id)) teachers).

Definition createTeacher (teacher : Teacher.t) : KV Teacher.t :=
  teachers <- getAllTeachers ;;
  _ <- setTeachers (teachers ++ [teacher]) ;;
  ret teacher.

Definition deleteTeacher (id : string) : KV bool :=
  teachers <- getAllTeachers ;;
  let filtered := List.filter (fun t => negb (bool_decide (Teacher.id t = id))) teachers in
  if (List.length filtered =? List.length teachers)%nat then ret false
  else
    _ <- setTeachers filtered ;;
    ret true.

Definition getCourse (id : string) : KV (option Course.t) :=
  courses <- getAllCourses ;;
  ret (find (fun c => bool_decide (Course.id c = id)) courses).

Definition createCourse (course : Course.t) : KV Course.t :=
  courses <- getAllCourses ;;
  _ <- setCourses (courses ++ [course]) ;;
  ret course.

Definition deleteCourse (id : string) (force : bool) : KV bool :=
  courses <- getAllCourses ;;
  let filtered := List.filter (fun c => negb (bool_decide (Course.id c = id))) courses in
  if (List.length filtered =? List.length courses)%nat then ret false
  else
    _ <- setCourses filtered ;;
    _ <- (if force then
            teachers <- getAllTeachers ;;
            let updatedTeachers :=
              List.map
                (fun teacher =>
                   withAssignments teacher
                     (List.filter (fun a => negb (bool_decide (Assignment.courseId a = id)))
                                  (Teacher.assignments teacher)))
                teachers in
            setTeachers updatedTeachers
          else ret tt) ;;
    ret true.

Definition deleteCourseGroup (id : string) (cascade : bool) : KV bool :=
  groups <- getAllCourseGroups ;;
  let filtered := List.filter (fun g => negb (bool_decide (CourseGroup.id g = id))) groups in
  if (List.length filtered =? List.length groups)%nat then ret false
  else
    _ <- setCourseGroups filtered ;;
    _ <- (if cascade then
            courses <- getAllCourses ;;
            let filteredCourses :=
              List.filter (fun c => negb (bool_decide (Course.group c = id))) courses in
            setCourses filteredCourses
          else ret tt) ;;
    ret true.

(** The answers of the [DELETE] handler of a course (the answer 500, given
    when the store itself fails, does not arise here). *)
Inductive DeleteCourseResponse : Type :=
| DeleteSuccess
| DeleteConflict (teacherCount : Z) (references : list (string * string))
| DeleteNotFound.

Definition DELETE_course (id : string) (force : bool) : KV DeleteCourseResponse :=
  teachers <- getAllTeachers ;;
  let teachersWithCourse :=
    List.filter
      (fun t => existsb (fun a => bool_decide (Assignment.courseId a = id))
                        (Teacher.assignments t))
      teachers in
  if (0 <? List.length teachersWithCourse)%nat && negb force then
    ret (DeleteConflict (Z.of_nat (List.length teachersWithCourse))
           (List.map (fun t => (Teacher.id t, Teacher.name t)) teachersWithCourse))
  else
    deleted <- deleteCourse id force ;;
    if negb deleted then ret DeleteNotFound else ret DeleteSuccess.

(** ** Identifier slugs ([lib/validations/catalog-schema], [generateSlug])

    A character stands for a code unit below 256. *)

Definition inRange (low high : nat) (c : ascii) : bool :=
  (low <=? nat_of_ascii c)%nat && (nat_of_ascii c <=? high)%nat.

(** [toLowerCase]: the upper-case letters, A to Z and the accented ones of
    Latin-1, are moved to their lower-case counterparts. *)
Definition toLowerChar (c : ascii) : ascii :=
  if inRange 65 90 c || inRange 192 214 c || inRange 216 222 c
  then ascii_of_nat (nat_of_ascii c + 32) else c.

Fixpoint toLowerCase (s : string) : string :=
  match s with
  | EmptyString => EmptyString
  | String c s' => String (toLowerChar c) (toLowerCase s')
  end.

(** The class [[a-z0-9]]. *)
Definition isSlugChar (c : ascii) : bool := inRange 97 122 c || inRange 48 57 c.

Definition dash : ascii := "-"%char.

(** [s.replace(/[^a-z0-9]+/g, '-')]: every maximal run of characters outside
    the class becomes one hyphen; [inRun] tells that the hyphen of the
    current run is already written. *)
Fixpoint dashRuns (inRun : bool) (s : string) : string :=
  match s with
  | EmptyString => EmptyString
  | String c s' =>
      if isSlugChar c then String c (dashRuns false s')
      else if inRun then dashRuns true s'
           else String dash (dashRuns true s')
  end.

(** [s.replace(/^-+|-+$/g, '')]: the hyphens at the start and the hyphens
    at the end are removed. *)
Fixpoint stripLeadingDashes (s : string) : string :=
  match s with
  | EmptyString => EmptyString
  | String c s' => if bool_decide (c = dash) then stripLeadingDashes s' else s
  end.

Fixpoint stripTrailingDashes (s : string) : string :=
  match s with
  | EmptyString => EmptyString
  | String c s' =>
      match stripTrailingDashes s' with
      | EmptyString => if bool_decide (c = dash) then EmptyString else String c EmptyString
      | rest => String c rest
      end
  end.

(** [s.substring(0, n)] *)
Fixpoint substringTo (n : nat) (s : string) : string :=
  match n, s with
  | O, _ => EmptyString
  | S _, EmptyString => EmptyString
  | S n', String c s' => String c (substringTo n' s')
  end.

Definition generateSlug (text : string) : string :=
  substringTo 50
    (stripTrailingDashes (stripLeadingDashes (dashRuns false (toLowerCase text)))).

(** ** Column identifiers of the generated data ([scripts], data generator)

    [`${group.id}_${courseName.replace(/[^a-zA-Z0-9]/g, '_')}`] *)

Definition isAlnum (c : ascii) : bool :=
  inRange 97 122 c || inRange 65 90 c || inRange 48 57 c.

Fixpoint replaceNonAlnum (s : string) : string :=
  match s with
  | EmptyString => EmptyString
  | String c s' => String (if isAlnum c then c else underscore) (replaceNonAlnum s')
  end.

Definition generatedColumnId (groupId courseName : string) : string :=
  groupId +:+ "_" +:+ replaceNonAlnum courseName.

(** ** Notions used to state the properties *)

Definition sumZ (l : list Z) : Z := fold_right Z.add 0 l.

(** The source list without the assignments of the dragged course, as the
    handler computes it. *)
Definition withoutCourse (moved : Assignment.t) (l : list Assignment.t) : list Assignment.t :=
  List.filter
    (fun a => negb (bool_decide (Assignment.courseId a = Assignment.courseId moved))) l.

(** The assignments of a list that share the course id of the dragged one. *)
Definition sharingCourse (moved : Assignment.t) (l : list Assignment.t) : list Assignment.t :=
  List.filter (fun a => bool_decide (Assignment.courseId a = Assignment.courseId moved)) l.

(** The capacity of every teacher replaced by an arbitrary figure. *)
Definition withMaxLoad (capacity : Teacher.t -> Z) (teacher : Teacher.t) : Teacher.t :=
  {| Teacher.id := Teacher.id teacher;
     Teacher.name := Teacher.name teacher;
     Teacher.division := Teacher.division teacher;
     Teacher.otherRole := Teacher.otherRole teacher;
     Teacher.maxLoad := capacity teacher;
     Teacher.preps := Teacher.preps teacher;
     Teacher.students := Teacher.students teacher;
     Teacher.assignments := Teacher.assignments teacher;
     Teacher.totalLoad := Teacher.totalLoad teacher;
     Teacher.availablePeriods := Teacher.availablePeriods teacher |}.

(** The contract of the visibility filter in the specification's words:
    rows are scanned in order, a row whose division is collapsed is left
    out, every other row is kept. *)
Inductive VisibleRowsSpec (collapsed : list Division)
  : list Teacher.t -> list Teacher.t -> Prop :=
| visible_rows_nil : VisibleRowsSpec collapsed [] []
| visible_rows_keep t rows rows' :
    Teacher.division t ∉ collapsed ->
    VisibleRowsSpec collapsed rows rows' ->
    VisibleRowsSpec collapsed (t :: rows) (t :: rows')
| visible_rows_drop t rows rows' :
    Teacher.division t ∈ collapsed ->
    VisibleRowsSpec collapsed rows rows' ->
    VisibleRowsSpec collapsed (t :: rows) rows'.

(** The remaining capacity that [enhanceTeacherWithMetrics] stores for a
    teacher. *)
Definition remainingCapacity (teacher : Teacher.t) : Z :=
  TeacherMetrics.availablePeriods (calculateTeacherMetrics teacher).

(** The consumed load of a teacher: the loads of the assignments that are
    not common planning time. *)
Definition consumedLoad (teacher : Teacher.t) : Z :=
  TeacherMetrics.totalLoad (calculateTeacherMetrics teacher).

(** The columns of the groups that are not collapsed, in group order then
    column order: the columns that the grid renders and over which the
    aggregation iterates. *)
Definition visibleColumns (courseGroups : list CourseGroup.t)
    (collapsedCourseGroups : list string) : list (CourseGroup.t * string) :=
  flat_map (fun g => List.map (fun columnId => (g, columnId)) (columnList g))
           (List.filter (fun g => negb (includes collapsedCourseGroups (CourseGroup.id g)))
                        courseGroups).

(** The key under which the totals of a column are stored. *)
Definition columnKey (group : CourseGroup.t) (columnId : string) : string :=
  CourseGroup.id group +:+ "-"
    +:+ parseCourseNameFromColumnId columnId (CourseGroup.id group).

(** The catalog periods-per-cycle figure of a column, when the group carries
    metadata for it. *)
Definition catalogPeriodsPerCycle (group : CourseGroup.t) (columnId : string) : option Z :=
  match CourseGroup.columnMetadata group with
  | Some ms =>
      CourseColumnMetadata.periodsPerCycle
        <$> find (fun m => bool_decide (CourseColumnMetadata.columnId m = columnId)) ms
  | None => None
  end.

(** The assignment that a row shows in a cell: the first one of its list
    that carries the cell's course name and group. *)
Definition shownIn (courseName groupId : string) (l : list Assignment.t)
    : option Assignment.t :=
  find (inCell courseName groupId) l.

(** Load and students that the shown assignment of a row brings to a cell. *)
Definition shownLoad (courseName groupId : string) (l : list Assignment.t) : Z :=
  match shownIn courseName groupId l with
  | Some a => Assignment.load a
  | None => 0
  end.

Definition shownStudents (courseName groupId : string) (l : list Assignment.t) : Z :=
  match shownIn courseName groupId l with
  | Some a => orZero (Assignment.students a)
  | None => 0
  end.



(** The per-column load sum computed by the aggregation over some rows. *)
Definition loadSum (rows : list Teacher.t) (group : CourseGroup.t) (columnId : string) : Z :=
  CourseTotals.load (columnTotals rows group columnId).2.

(** The assignments of a group, as an optional list: no entry for none. *)
Definition groupEntry (courseGroup : string) (l : list Assignment.t)
    : option (list Assignment.t) :=
  match List.filter (fun a => bool_decide (Assignment.courseGroup a = courseGroup)) l with
  | [] => None
  | found => Some found
  end.

(** Whether a pattern occurs somewhere in a string. *)
Fixpoint occursIn (pattern s : string) : bool :=
  startsWith s pattern
  || match s with
     | EmptyString => false
     | String _ s' => occursIn pattern s'
     end.

(** Every character of a string passes a test. *)
Fixpoint allChars (test : ascii -> bool) (s : string) : bool :=
  match s with
  | EmptyString => true
  | String c s' => test c && allChars test s'
  end.

(** A string does not begin with a hyphen. *)
Definition noLeadingDash (s : string) : bool :=
  match s with
  | String c _ => negb (bool_decide (c = dash))
  | EmptyString => true
  end.

(** No two hyphens of a string are adjacent. *)
Fixpoint noDoubleDash (s : string) : bool :=
  match s with
  | EmptyString => true
  | String c s' => (negb (bool_decide (c = dash)) || noLeadingDash s') && noDoubleDash s'
  end.

(** A course name with a space in place of every character that is neither
    a letter nor a digit. *)
Fixpoint spaceNonAlnum (s : string) : string :=
  match s with
  | EmptyString => EmptyString
  | String c s' => String (if isAlnum c then c else space) (spaceNonAlnum s')
  end.

(** The per-column student sum computed by the aggregation over some rows. *)
Definition studentSum (rows : list Teacher.t) (group : CourseGroup.t) (columnId : string)
    : Z :=
  CourseTotals.students (columnTotals rows group columnId).2.

(** The largest whole number below which the arithmetic of JavaScript
    numbers is exact: [Number.MAX_SAFE_INTEGER], that is 2^53 - 1. *)
Definition MAX_SAFE_INTEGER : Z := 2 ^ 53 - 1.

(** The load of all the assignments of a row, common planning time
    included. *)
Definition assignedLoad (teacher : Teacher.t) : Z :=
  sumZ (List.map Assignment.load (Teacher.assignments teacher)).

(** Page data whose loads are not negative and add up, over all rows, to at
    most [MAX_SAFE_INTEGER]: whatever loads of such data the code adds, in
    whatever order, no running total leaves the range in which its additions
    are exact. *)
Definition loadsWithinSafeRange (teachers : list Teacher.t) : Prop :=
  Forall (fun t => Forall (fun a => 0 <= Assignment.load a) (Teacher.assignments t)) teachers
  /\ sumZ (List.map assignedLoad teachers) <= MAX_SAFE_INTEGER.

(** Page data whose capacities and loads are not negative and add up, all
    together, to at most [MAX_SAFE_INTEGER]: the same for the sums and
    differences of capacities and loads. *)
Definition capacitiesWithinSafeRange (teachers : list Teacher.t) : Prop :=
  Forall (fun t => 0 <= Teacher.maxLoad t) teachers
  /\ Forall (fun t => Forall (fun a => 0 <= Assignment.load a) (Teacher.assignments t)) teachers
  /\ sumZ (List.map Teacher.maxLoad teachers) + sumZ (List.map assignedLoad teachers)
     <= MAX_SAFE_INTEGER.

(** ** A small grid used to instantiate the properties *)

Module Scenario.

Definition group (groupId : string) (columns : list string)
    (metadata : option (list CourseColumnMetadata.t)) : CourseGroup.t :=
  {| CourseGroup.id := groupId;
     CourseGroup.name := None;
     CourseGroup.label := groupId;
     CourseGroup.color := "#93c5fd";
     CourseGroup.order := 1;
     CourseGroup.courses := None;
     CourseGroup.columns := Some columns;
     CourseGroup.isSystem := None;
     CourseGroup.columnMetadata := metadata |}.

Definition ccw6 : CourseGroup.t := group "CCW6" ["CCW6_A"; "CCW6_B"] None.
Definition ccw7 : CourseGroup.t := group "CCW7" ["CCW7_A"] None.

Definition assignment (courseId courseName courseGroup : string) (load : Z)
    : Assignment.t :=
  {| Assignment.courseId := courseId;
     Assignment.courseName := courseName;
     Assignment.courseGroup := courseGroup;
     Assignment.load := load;
     Assignment.isCPT := false;
     Assignment.students := Some 20;
     Assignment.color := None |}.

Definition teacher (teacherId : string) (division : Division) (maxLoad : Z)
    (assignments : list Assignment.t) : Teacher.t :=
  enhanceTeacherWithMetrics
    {| Teacher.id := teacherId;
       Teacher.name := teacherId;
       Teacher.division := division;
       Teacher.otherRole := None;
       Teacher.maxLoad := maxLoad;
       Teacher.preps := 0;
       Teacher.students := 0;
       Teacher.assignments := assignments;
       Teacher.totalLoad := None;
       Teacher.availablePeriods := None |}.

(** Teacher A holds the single assignment ["CCW6_A"]; teacher B holds
    nothing. *)
Definition ccw6_A : Assignment.t := assignment "CCW6_A" "A" "CCW6" 6.
Definition teacherA : Teacher.t := teacher "A" MS 18 [ccw6_A].
Definition teacherB : Teacher.t := teacher "B" HS 4 [].
Definition pair : list Teacher.t := [teacherA; teacherB].

(** A's assignment released over B's cell of the same column. *)
Definition sameColumnDrop : DragEndEvent :=
  {| active :=
       {| active_id := "drag-A-CCW6-A";
          active_data := {| drag_assignment := ccw6_A;
                            drag_teacherId := "A";
                            drag_courseGroup := "CCW6" |} |};
     over :=
       Some {| over_id := "drop-B-CCW6-A";
               over_data := {| drop_teacherId := "B";
                               drop_courseGroup := "CCW6";
                               drop_courseName := "A" |} |} |}.

(** A's assignment released over B's cell of column B of the same group. *)
Definition otherColumnDrop : DragEndEvent :=
  {| active := active sameColumnDrop;
     over :=
       Some {| over_id := "drop-B-CCW6-B";
               over_data := {| drop_teacherId := "B";
                               drop_courseGroup := "CCW6";
                               drop_courseName := "B" |} |} |}.

(** Teacher E, listed under B's identifier, already shows an assignment in
    column A. *)
Definition ccw6_E : Assignment.t := assignment "CCW6_E" "A" "CCW6" 3.
Definition teacherE : Teacher.t := teacher "B" HS 18 [ccw6_E].

(** A's assignment released over B's cell in group CCW7. *)
Definition crossGroupDrop : DragEndEvent :=
  {| active := active sameColumnDrop;
     over :=
       Some {| over_id := "drop-B-CCW7-A";
               over_data := {| drop_teacherId := "B";
                               drop_courseGroup := "CCW7";
                               drop_courseName := "A" |} |} |}.

(** A's assignment released over A's own cell of column B of the group. *)
Definition sameTeacherDrop : DragEndEvent :=
  {| active := active sameColumnDrop;
     over :=
       Some {| over_id := "drop-A-CCW6-B";
               over_data := {| drop_teacherId := "A";
                               drop_courseGroup := "CCW6";
                               drop_courseName := "B" |} |} |}.

(** The same group with catalog figures: none of substance for column A
    (zero periods per cycle), nine periods per cycle for column B. *)
Definition metadata (columnId : string) (periodsPerCycle : Z) : CourseColumnMetadata.t :=
  {| CourseColumnMetadata.columnId := columnId;
     CourseColumnMetadata.totalSections := 1;
     CourseColumnMetadata.periodsPerCycle := periodsPerCycle;
     CourseColumnMetadata.remainingPeriod := 0;
     CourseColumnMetadata.studentsPerSection := 20 |}.

Definition ccw6_catalog : CourseGroup.t :=
  group "CCW6" ["CCW6_A"; "CCW6_B"] (Some [metadata "CCW6_A" 0; metadata "CCW6_B" 9]).

(** Teacher D was given the course ["CCW6_A"] twice, with loads 3 and 4. *)
Definition teacherD : Teacher.t :=
  teacher "D" MS 18 [assignment "CCW6_A" "A" "CCW6" 3; assignment "CCW6_A" "A" "CCW6" 4].

(** The assignment that teacher D shows in column A, released over D's own
    cell of column B. *)
Definition relabelDrop : DragEndEvent :=
  {| active :=
       {| active_id := "drag-D-CCW6-A";
          active_data := {| drag_assignment := assignment "CCW6_A" "A" "CCW6" 3;
                            drag_teacherId := "D";
                            drag_courseGroup := "CCW6" |} |};
     over :=
       Some {| over_id := "drop-D-CCW6-B";
               over_data := {| drop_teacherId := "D";
                               drop_courseGroup := "CCW6";
                               drop_courseName := "B" |} |} |}.

(** The same assignment released over teacher B's cell of column A. *)
Definition sharedCourseDrop : DragEndEvent :=
  {| active := active relabelDrop;
     over :=
       Some {| over_id := "drop-B-CCW6-A";
               over_data := {| drop_teacherId := "B";
                               drop_courseGroup := "CCW6";
                               drop_courseName := "A" |} |} |}.

(** A view state with the high school rows collapsed. *)
Definition viewState : PersistedSchedulerState.t :=
  {| PersistedSchedulerState.collapsedCourseGroups := [];
     PersistedSchedulerState.collapsedDivisions := [HS];
     PersistedSchedulerState.sortBy := None;
     PersistedSchedulerState.prepsThreshold := 3;
     PersistedSchedulerState.lastAccessed := "2025-01-01T00:00:00.000Z" |}.

(** The catch-all group, with one column and catalog figures for it, and a
    teacher holding that course. *)
Definition otherSubjects : CourseGroup.t :=
  group "OTHER_SUBJECTS" ["OTHER_SUBJECTS_TOK"] (Some [metadata "OTHER_SUBJECTS_TOK" 9]).
Definition teacherT : Teacher.t :=
  teacher "T" HS 18 [assignment "OTHER_SUBJECTS_TOK" "TOK" "OTHER_SUBJECTS" 4].

(** A store holding the pair of teachers, the group CCW6 and its two
    courses. *)
Definition course (courseId label groupId : string) : Course.t :=
  {| Course.id := courseId; Course.label := label; Course.group := groupId;
     Course.isCPT := false |}.

Definition store : Store.t :=
  {| Store.teachers := Some pair;
     Store.groups := Some [ccw6];
     Store.courses := Some [course "CCW6_A" "A" "CCW6"; course "CCW6_B" "B" "CCW6"];
     Store.divisions := Some [MS; HS] |}.

End Scenario.

(** * Properties *)

(** ** Array primitives *)

Lemma includes_true {A} `{EqDecision A} (l : list A) (x : A) :
  includes l x = true <-> x ∈ l.
Proof.
  unfold includes. induction l as [|y l IH]; simpl.
  - split; [discriminate | intros H'; inversion H'].
  - rewrite orb_true_iff, IH, bool_decide_eq_true, elem_of_cons.
    split; intros [Hx|Hx]; auto.
Qed.

Lemma includes_false {A} `{EqDecision A} (l : list A) (x : A) :
  includes l x = false <-> x ∉ l.
Proof.
  rewrite <- includes_true. destruct (includes l x); split; congruence.
Qed.

Lemma includes_app {A} `{EqDecision A} (l1 l2 : list A) (x : A) :
  includes (l1 ++ l2) x = includes l1 x || includes l2 x.
Proof. unfold includes. apply existsb_app. Qed.

Lemma filter_ne_not_included {A} `{EqDecision A} (l : list A) (x : A) :
  includes l x = false ->
  List.filter (fun y => negb (bool_decide (y = x))) l = l.
Proof.
  unfold includes. induction l as [|y l IH]; simpl; [reflexivity|].
  intros Hx. apply orb_false_iff in Hx as [Hy Hl].
  rewrite Hy. simpl. f_equal. auto.
Qed.

Lemma find_app {A} (p : A -> bool) (l1 l2 : list A) :
  find p (l1 ++ l2) = match find p l1 with Some x => Some x | None => find p l2 end.
Proof.
  induction l1 as [|x l1 IH]; simpl; [reflexivity|].
  destruct (p x); auto.
Qed.

Lemma find_some {A} (p : A -> bool) (l : list A) (x : A) :
  find p l = Some x -> x ∈ l /\ p x = true.
Proof.
  induction l as [|y l IH]; simpl; [discriminate|].
  destruct (p y) eqn:Hy.
  - intros [= <-]. split; [left | assumption].
  - intros Hf. destruct (IH Hf). split; [right|]; assumption.
Qed.

Lemma find_none {A} (p : A -> bool) (l : list A) :
  find p l = None <-> (forall x, x ∈ l -> p x = false).
Proof.
  induction l as [|y l IH]; simpl.
  - split; [intros _ x Hx; inversion Hx | reflexivity].
  - destruct (p y) eqn:Hy.
    + split; [discriminate|]. intros Hall. rewrite (Hall y) in Hy by left. discriminate.
    + rewrite IH. split.
      * intros Hall x Hx. apply elem_of_cons in Hx as [->|Hx]; auto.
      * intros Hall x Hx. apply Hall. right. assumption.
Qed.

(** ** C3: the documented examples of the column-label parser *)

(** C3.  On the two inputs that the parser's documentation and the
    specification list as examples, the parser returns: for column
    ["CCW6_CCW_E_6"] of group ["CCW6"] the label ["CCW E 6"] (the group prefix
    is present, so the remainder has its underscores turned into spaces; the
    parenthesised form ["CCW(E)6"] is produced only by the fallback branch,
    on a column id that lacks the group prefix), and for column
    ["OTHER_SUBJECTS_TOK"] of group ["OTHER_SUBJECTS"] the label ["TOK"]. *)
Theorem parseCourseName_documented_examples :
  parseCourseNameFromColumnId "CCW6_CCW_E_6" "CCW6" = "CCW E 6"
  /\ parseCourseNameFromColumnId "CCW6_CCW_E_6" "CCW6" <> "CCW(E)6"
  /\ parseCourseNameFromColumnId "OTHER_SUBJECTS_TOK" "OTHER_SUBJECTS" = "TOK".
Proof. repeat split; vm_compute; congruence. Qed.

(** More generally, a column id made of the group id, an underscore and a
    remainder is always labelled by the remainder with spaces for
    underscores. *)
Lemma parseCourseName_prefixed (groupId rest : string) :
  parseCourseNameFromColumnId (groupId +:+ "_" +:+ rest) groupId = replaceUnderscores rest.
Proof.
  unfold parseCourseNameFromColumnId.
  assert (Hstarts : startsWith (groupId +:+ "_" +:+ rest) (groupId +:+ "_") = true).
  { induction groupId as [|c g IH]; simpl; [reflexivity|].
    by rewrite bool_decide_eq_true_2. }
  rewrite Hstarts. f_equal. clear Hstarts.
  induction groupId as [|c g IH]; simpl; [reflexivity | exact IH].
Qed.

(** The parenthesised label is what the fallback branch computes when the
    column id does not start with the group id. *)
Example parseCourseName_fallback_example :
  parseCourseNameFromColumnId "CCW6_CCW_E_6" "MS_CCW" = "CCW(E)6".
Proof. reflexivity. Qed.

(** ** C8: visible rows *)

Lemma visibleTeachers_cons t teachers collapsed :
  visibleTeachers (t :: teachers) collapsed =
  if includes collapsed (Teacher.division t) then visibleTeachers teachers collapsed
  else t :: visibleTeachers teachers collapsed.
Proof. unfold visibleTeachers. simpl. destruct (includes _ _); reflexivity. Qed.

Lemma visibleTeachers_meets_spec teachers collapsed :
  VisibleRowsSpec collapsed teachers (visibleTeachers teachers collapsed).
Proof.
  induction teachers as [|t teachers IH].
  - constructor.
  - rewrite visibleTeachers_cons.
    destruct (includes collapsed (Teacher.division t)) eqn:Hd.
    + apply visible_rows_drop; [by apply includes_true | exact IH].
    + apply visible_rows_keep; [by apply includes_false | exact IH].
Qed.

Lemma VisibleRowsSpec_functional collapsed teachers rows' :
  VisibleRowsSpec collapsed teachers rows' ->
  rows' = visibleTeachers teachers collapsed.
Proof.
  induction 1 as [|t rows rows' Hd _ IH|t rows rows' Hd _ IH];
    [reflexivity| |]; rewrite visibleTeachers_cons.
  - apply includes_false in Hd. rewrite Hd. by f_equal.
  - apply includes_true in Hd. by rewrite Hd.
Qed.

Lemma visibleTeachers_sublist teachers collapsed :
  sublist (visibleTeachers teachers collapsed) teachers.
Proof.
  induction teachers as [|t teachers IH]; [constructor|].
  rewrite visibleTeachers_cons. destruct (includes _ _); by constructor.
Qed.

Lemma elem_of_visibleTeachers t teachers collapsed :
  t ∈ visibleTeachers teachers collapsed <->
  t ∈ teachers /\ Teacher.division t ∉ collapsed.
Proof.
  unfold visibleTeachers.
  rewrite list_elem_of_In, filter_In, negb_true_iff, includes_false.
  rewrite (list_elem_of_In teachers t). tauto.
Qed.

(** C8.  [visibleTeachers] returns exactly the rows whose division is not
    collapsed, in their input order: it satisfies the specification's
    contract, which determines its result uniquely; the result is an
    order-preserving selection (a sublist) of the input whose members are the
    input rows with a non-collapsed division, and every order-preserving
    selection of non-collapsed rows is contained in it.  The input list is a
    value that the filter only reads. *)
Theorem visibleTeachers_correct (teachers : list Teacher.t) (collapsed : list Division) :
  VisibleRowsSpec collapsed teachers (visibleTeachers teachers collapsed)
  /\ (forall rows', VisibleRowsSpec collapsed teachers rows' ->
                    rows' = visibleTeachers teachers collapsed)
  /\ sublist (visibleTeachers teachers collapsed) teachers
  /\ (forall t, t ∈ visibleTeachers teachers collapsed <->
                t ∈ teachers /\ Teacher.division t ∉ collapsed)
  /\ (forall rows', sublist rows' teachers ->
                    Forall (fun t => Teacher.division t ∉ collapsed) rows' ->
                    sublist rows' (visibleTeachers teachers collapsed)).
Proof.
  split; [apply visibleTeachers_meets_spec|].
  split; [apply VisibleRowsSpec_functional|].
  split; [apply visibleTeachers_sublist|].
  split; [intros t; apply elem_of_visibleTeachers|].
  intros rows' Hsub. induction Hsub as [|t l1 l2 Hsub IH|t l1 l2 Hsub IH]; intros Hall.
  - constructor.
  - rewrite visibleTeachers_cons. inversion Hall as [|? ? Ht Hrest]; subst.
    apply includes_false in Ht. rewrite Ht. constructor. by apply IH.
  - rewrite visibleTeachers_cons. destruct (includes _ _); [|constructor]; by apply IH.
Qed.

(** ** C9: collapsing and expanding a division *)

(** C9.  When a division is not collapsed, toggling it collapses it, and
    toggling it a second time restores the list of collapsed divisions exactly
    (whatever the two timestamps are); hence the visible rows of an unchanged
    row list are the same before and after the two toggles. *)
Theorem toggleDivision_round_trip (now1 now2 : string) (division : Division)
    (state : PersistedSchedulerState.t) (teachers : list Teacher.t) :
  includes (PersistedSchedulerState.collapsedDivisions state) division = false ->
  let collapsed := toggleDivision now1 division state in
  let expanded := toggleDivision now2 division collapsed in
  includes (PersistedSchedulerState.collapsedDivisions collapsed) division = true
  /\ PersistedSchedulerState.collapsedDivisions expanded
     = PersistedSchedulerState.collapsedDivisions state
  /\ visibleTeachers teachers (PersistedSchedulerState.collapsedDivisions expanded)
     = visibleTeachers teachers (PersistedSchedulerState.collapsedDivisions state).
Proof.
  intros Hnot collapsed expanded. subst collapsed expanded.
  assert (Hin : includes (PersistedSchedulerState.collapsedDivisions
                            (toggleDivision now1 division state)) division = true).
  { unfold toggleDivision. simpl. rewrite Hnot, includes_app. simpl.
    rewrite bool_decide_eq_true_2 by reflexivity. apply orb_true_iff. right. reflexivity. }
  assert (Heq : PersistedSchedulerState.collapsedDivisions
                  (toggleDivision now2 division (toggleDivision now1 division state))
                = PersistedSchedulerState.collapsedDivisions state).
  { unfold toggleDivision at 1. cbn [PersistedSchedulerState.collapsedDivisions].
    rewrite Hin. unfold toggleDivision. simpl. rewrite Hnot.
    rewrite List.filter_app. simpl.
    rewrite bool_decide_eq_true_2 by reflexivity. simpl.
    rewrite app_nil_r. by apply filter_ne_not_included. }
  split; [exact Hin|]. split; [exact Heq|]. by rewrite Heq.
Qed.

Lemma toggleDivision_round_trip_witness :
  PersistedSchedulerState.collapsedDivisions
    (toggleDivision "2025-01-01T00:00:02.000Z" MS
       (toggleDivision "2025-01-01T00:00:01.000Z" MS Scenario.viewState))
  = [HS]
  /\ visibleTeachers Scenario.pair
       (PersistedSchedulerState.collapsedDivisions
          (toggleDivision "2025-01-01T00:00:02.000Z" MS
             (toggleDivision "2025-01-01T00:00:01.000Z" MS Scenario.viewState)))
     = [Scenario.teacherA].
Proof.
  destruct (toggleDivision_round_trip "2025-01-01T00:00:01.000Z" "2025-01-01T00:00:02.000Z"
              MS Scenario.viewState Scenario.pair) as (_ & Hlist & Hrows).
  - reflexivity.
  - split; [exact Hlist | exact Hrows].
Defined.

(** ** The drag-and-drop handler *)

Lemma sumZ_app l1 l2 : sumZ (l1 ++ l2) = sumZ l1 + sumZ l2.
Proof. unfold sumZ. induction l1 as [|x l1 IH]; simpl; lia. Qed.

Lemma fold_left_add {A} (f : A -> Z) (l : list A) (acc : Z) :
  fold_left (fun sum a => sum + f a) l acc = acc + sumZ (List.map f l).
Proof.
  revert acc. induction l as [|x l IH]; intros acc; simpl; [lia|].
  rewrite IH. lia.
Qed.

Lemma withoutCourse_length moved l :
  (List.length (withoutCourse moved l) + List.length (sharingCourse moved l)
   = List.length l)%nat.
Proof.
  unfold withoutCourse, sharingCourse. induction l as [|a l IH]; simpl; [reflexivity|].
  destruct (bool_decide _); simpl; lia.
Qed.

Lemma elem_of_withoutCourse moved l a :
  a ∈ withoutCourse moved l <->
  a ∈ l /\ Assignment.courseId a <> Assignment.courseId moved.
Proof.
  unfold withoutCourse.
  rewrite list_elem_of_In, filter_In, negb_true_iff, bool_decide_eq_false.
  rewrite (list_elem_of_In l a). tauto.
Qed.

Lemma withoutCourse_sublist moved l : sublist (withoutCourse moved l) l.
Proof.
  unfold withoutCourse. induction l as [|a l IH]; simpl; [constructor|].
  destruct (negb _); by constructor.
Qed.

Lemma findTeacher_withMaxLoad capacity teachers teacherId :
  findTeacher (List.map (withMaxLoad capacity) teachers) teacherId
  = withMaxLoad capacity <$> findTeacher teachers teacherId.
Proof.
  unfold findTeacher. induction teachers as [|t teachers IH]; simpl; [reflexivity|].
  destruct (bool_decide (Teacher.id t = teacherId)); [reflexivity | exact IH].
Qed.

(** The handler never reads a capacity: its outcome is the same whatever
    the teachers' [maxLoad] are. *)
Lemma handleDragEnd_withMaxLoad capacity teachers event :
  handleDragEnd (List.map (withMaxLoad capacity) teachers) event
  = handleDragEnd teachers event.
Proof.
  unfold handleDragEnd. destruct (over event) as [o|]; [|reflexivity].
  destruct (bool_decide (active_id (active event) = over_id o)); [reflexivity|].
  destruct (negb _); [reflexivity|].
  rewrite !findTeacher_withMaxLoad.
  destruct (findTeacher teachers (drag_teacherId _)) as [src|]; [|reflexivity].
  destruct (findTeacher teachers (drop_teacherId _)) as [tgt|]; reflexivity.
Qed.

Lemma consumedLoad_app (teacher : Teacher.t) (added : list Assignment.t) :
  TeacherMetrics.totalLoad
    (calculateTeacherMetrics (withAssignments teacher (Teacher.assignments teacher ++ added)))
  = TeacherMetrics.totalLoad (calculateTeacherMetrics teacher)
    + sumZ (List.map Assignment.load
              (List.filter (fun a => negb (Assignment.isCPT a)) added)).
Proof.
  unfold calculateTeacherMetrics. simpl.
  rewrite List.filter_app, !fold_left_add, List.map_app, sumZ_app. lia.
Qed.

Section Relocation.

(** A drop of a dragged assignment onto a cell, seen by the handler with
    both teachers present in the page data. *)
Variables (teachers : list Teacher.t) (event : DragEndEvent) (target : Over).
Variables (sourceTeacher targetTeacher : Teacher.t).

Let dragData := active_data (active event).
Let dropData := over_data target.
Let moved := drag_assignment dragData.

Hypothesis over_target : over event = Some target.
Hypothesis distinct_ids : active_id (active event) <> over_id target.
Hypothesis source_found :
  findTeacher teachers (drag_teacherId dragData) = Some sourceTeacher.
Hypothesis target_found :
  findTeacher teachers (drop_teacherId dropData) = Some targetTeacher.

(** The group check comes first: the teachers are not even looked up. *)
Lemma handleDragEnd_other_group :
  drag_courseGroup dragData <> drop_courseGroup dropData ->
  handleDragEnd teachers event
  = ToastError "Invalid drop" "Cannot drop assignment to a different course group".
Proof using over_target distinct_ids.
  intros Hgroup. unfold handleDragEnd. rewrite over_target.
  rewrite bool_decide_eq_false_2 by exact distinct_ids.
  fold dragData dropData.
  by rewrite (bool_decide_eq_false_2 _ Hgroup).
Qed.

Hypothesis same_group : drag_courseGroup dragData = drop_courseGroup dropData.

Lemma handleDragEnd_same_cell :
  drag_teacherId dragData = drop_teacherId dropData ->
  Assignment.courseName moved = drop_courseName dropData ->
  handleDragEnd teachers event = NoAction.
Proof using over_target distinct_ids source_found target_found same_group.
  intros Hteacher Hname. unfold handleDragEnd. rewrite over_target.
  rewrite bool_decide_eq_false_2 by exact distinct_ids.
  fold dragData dropData. rewrite (bool_decide_eq_true_2 _ same_group). simpl.
  rewrite source_found, target_found. fold moved.
  by rewrite (bool_decide_eq_true_2 _ Hteacher), (bool_decide_eq_true_2 _ Hname).
Qed.

Hypothesis other_cell :
  ~ (drag_teacherId dragData = drop_teacherId dropData
     /\ Assignment.courseName moved = drop_courseName dropData).

Lemma handleDragEnd_same_teacher :
  drag_teacherId dragData = drop_teacherId dropData ->
  handleDragEnd teachers event
  = OnAssignmentUpdate (Teacher.id sourceTeacher)
      (withoutCourse moved (Teacher.assignments sourceTeacher)
       ++ [withCourseName moved (drop_courseName dropData)])
      None.
Proof using over_target distinct_ids source_found target_found same_group other_cell.
  intros Hteacher. unfold handleDragEnd. rewrite over_target.
  rewrite bool_decide_eq_false_2 by exact distinct_ids.
  fold dragData dropData. rewrite (bool_decide_eq_true_2 _ same_group). simpl.
  rewrite source_found, target_found. fold moved.
  rewrite (bool_decide_eq_true_2 _ Hteacher). simpl.
  rewrite bool_decide_eq_false_2; [reflexivity|].
  intros Hname. apply other_cell. by split.
Qed.

Lemma handleDragEnd_other_teacher :
  drag_teacherId dragData <> drop_teacherId dropData ->
  handleDragEnd teachers event
  = OnAssignmentUpdate (Teacher.id sourceTeacher)
      (withoutCourse moved (Teacher.assignments sourceTeacher))
      (Some [(Teacher.id targetTeacher,
              Teacher.assignments targetTeacher
              ++ [withCourseName moved (drop_courseName dropData)])]).
Proof using over_target distinct_ids source_found target_found same_group.
  intros Hteacher. unfold handleDragEnd. rewrite over_target.
  rewrite bool_decide_eq_false_2 by exact distinct_ids.
  fold dragData dropData. rewrite (bool_decide_eq_true_2 _ same_group). simpl.
  rewrite source_found, target_found. fold moved.
  by rewrite (bool_decide_eq_false_2 _ Hteacher).
Qed.

End Relocation.

(** The scenario events are the ones the rendered cells produce. *)
Example sameColumnDrop_rendered :
  dropEvent (renderCell Scenario.teacherA Scenario.ccw6 "CCW6_A")
            (renderCell Scenario.teacherB Scenario.ccw6 "CCW6_A")
  = Some Scenario.sameColumnDrop.
Proof. reflexivity. Qed.

Example crossGroupDrop_rendered :
  dropEvent (renderCell Scenario.teacherA Scenario.ccw6 "CCW6_A")
            (renderCell Scenario.teacherB Scenario.ccw7 "CCW7_A")
  = Some Scenario.crossGroupDrop.
Proof. reflexivity. Qed.

Example sameTeacherDrop_rendered :
  dropEvent (renderCell Scenario.teacherA Scenario.ccw6 "CCW6_A")
            (renderCell Scenario.teacherA Scenario.ccw6 "CCW6_B")
  = Some Scenario.sameTeacherDrop.
Proof. reflexivity. Qed.

(** A rendered cell is dragged with the group of the assignment it shows,
    and the identifiers of a draggable and of a droppable never coincide. *)
Lemma rendered_drag_well_formed teacher group columnId dragged :
  draggableOf (renderCell teacher group columnId) = Some dragged ->
  drag_teacherId (active_data dragged) = Teacher.id teacher
  /\ drag_assignment (active_data dragged) ∈ Teacher.assignments teacher
  /\ drag_courseGroup (active_data dragged)
     = Assignment.courseGroup (drag_assignment (active_data dragged))
  /\ forall destination, active_id dragged <> over_id (droppableOf destination).
Proof.
  unfold draggableOf, renderCell. simpl.
  destruct (find _ _) as [a|] eqn:Hfind; [|discriminate].
  intros [= <-]. simpl. apply find_some in Hfind as [Hin Hcell].
  unfold inCell in Hcell. apply andb_true_iff in Hcell as [_ Hgroup].
  apply bool_decide_eq_true in Hgroup.
  repeat split; [assumption | congruence | intros destination; discriminate].
Qed.

(** Every row of the page data is found again by its identifier (the row
    found is the first one carrying it). *)
Lemma findTeacher_of_row teachers teacher :
  teacher ∈ teachers -> is_Some (findTeacher teachers (Teacher.id teacher)).
Proof.
  intros Hin. destruct (findTeacher teachers (Teacher.id teacher)) as [t|] eqn:Hfind;
    [by eexists|].
  unfold findTeacher in Hfind. rewrite find_none in Hfind.
  specialize (Hfind teacher Hin). by rewrite bool_decide_eq_true_2 in Hfind.
Qed.

(** ** C2: drops across course groups *)

(** C2.  Whenever an assignment is released over a cell whose course group
    differs from the group of the dragged assignment, the handler stops with
    the error toast "Invalid drop" and calls no update, so the page keeps
    its teachers (and their assignment lists) as they were. *)
Theorem cross_group_drop_rejected (teachers : list Teacher.t) (event : DragEndEvent)
    (target : Over) :
  over event = Some target ->
  active_id (active event) <> over_id target ->
  drag_courseGroup (active_data (active event))
  = Assignment.courseGroup (drag_assignment (active_data (active event))) ->
  drop_courseGroup (over_data target)
  <> Assignment.courseGroup (drag_assignment (active_data (active event))) ->
  handleDragEnd teachers event
  = ToastError "Invalid drop" "Cannot drop assignment to a different course group"
  /\ teachersAfterDrag teachers event = teachers.
Proof.
  intros Hover Hids Hwf Hgroup.
  assert (Hout : handleDragEnd teachers event
                 = ToastError "Invalid drop"
                     "Cannot drop assignment to a different course group").
  { apply (handleDragEnd_other_group teachers event target Hover Hids). congruence. }
  split; [exact Hout|]. unfold teachersAfterDrag. by rewrite Hout.
Qed.

(** The specification's example: source ["CCW6_A"] of group ["CCW6"],
    destination group ["CCW7"]. *)
Lemma cross_group_drop_rejected_witness :
  handleDragEnd Scenario.pair Scenario.crossGroupDrop
  = ToastError "Invalid drop" "Cannot drop assignment to a different course group"
  /\ teachersAfterDrag Scenario.pair Scenario.crossGroupDrop = Scenario.pair.
Proof.
  apply (cross_group_drop_rejected Scenario.pair Scenario.crossGroupDrop
           {| over_id := "drop-B-CCW7-A";
              over_data := {| drop_teacherId := "B";
                              drop_courseGroup := "CCW7";
                              drop_courseName := "A" |} |}).
  - reflexivity.
  - vm_compute. discriminate.
  - reflexivity.
  - vm_compute. discriminate.
Defined.

(** ** C5: capacity is not checked *)

(** C5.  A drop that passes the identical-cell and same-group checks is
    accepted whatever the capacities are: replacing every [maxLoad] by an
    arbitrary figure leaves the outcome of the handler unchanged, and that
    outcome is an update.  For a move to another teacher, the remaining capacity
    computed for the returned destination record is the plain difference
    between the capacity and the load consumed after the move, so it is
    negative as soon as the capacity is smaller than that load. *)
Theorem relocation_ignores_capacity (teachers : list Teacher.t) (event : DragEndEvent)
    (target : Over) (sourceTeacher targetTeacher : Teacher.t)
    (capacity : Teacher.t -> Z) :
  let dragData := active_data (active event) in
  let dropData := over_data target in
  let moved := drag_assignment dragData in
  let counted := if Assignment.isCPT moved then 0 else Assignment.load moved in
  over event = Some target ->
  active_id (active event) <> over_id target ->
  findTeacher teachers (drag_teacherId dragData) = Some sourceTeacher ->
  findTeacher teachers (drop_teacherId dropData) = Some targetTeacher ->
  drag_courseGroup dragData = drop_courseGroup dropData ->
  ~ (drag_teacherId dragData = drop_teacherId dropData
     /\ Assignment.courseName moved = drop_courseName dropData) ->
  handleDragEnd (List.map (withMaxLoad capacity) teachers) event
  = handleDragEnd teachers event
  /\ (exists teacherId assignments additionalUpdates,
        handleDragEnd (List.map (withMaxLoad capacity) teachers) event
        = OnAssignmentUpdate teacherId assignments additionalUpdates)
  /\ (drag_teacherId dragData <> drop_teacherId dropData ->
      exists newSource newTarget,
        handleDragEnd (List.map (withMaxLoad capacity) teachers) event
        = OnAssignmentUpdate (Teacher.id sourceTeacher) newSource
            (Some [(Teacher.id targetTeacher, newTarget)])
        /\ remainingCapacity (withAssignments (withMaxLoad capacity targetTeacher) newTarget)
           = capacity targetTeacher - (consumedLoad targetTeacher + counted)
        /\ (capacity targetTeacher < consumedLoad targetTeacher + counted ->
            remainingCapacity (withAssignments (withMaxLoad capacity targetTeacher) newTarget)
            < 0)).
Proof.
  intros dragData dropData moved counted Hover Hids Hsrc Htgt Hgroup Hcell.
  rewrite handleDragEnd_withMaxLoad.
  split; [reflexivity|]. split.
  - destruct (decide (drag_teacherId dragData = drop_teacherId dropData)) as [Heq|Hne].
    + rewrite (handleDragEnd_same_teacher teachers event target sourceTeacher targetTeacher)
        by assumption.
      eauto.
    + rewrite (handleDragEnd_other_teacher teachers event target sourceTeacher targetTeacher)
        by assumption.
      eauto.
  - intros Hne.
    rewrite (handleDragEnd_other_teacher teachers event target sourceTeacher targetTeacher)
      by assumption.
    eexists _, _. split; [reflexivity|].
    assert (Hrem : remainingCapacity
                     (withAssignments (withMaxLoad capacity targetTeacher)
                        (Teacher.assignments targetTeacher
                         ++ [withCourseName (drag_assignment (active_data (active event)))
                               (drop_courseName (over_data target))]))
                   = capacity targetTeacher - (consumedLoad targetTeacher + counted)).
    { unfold remainingCapacity, consumedLoad, calculateTeacherMetrics. simpl.
      rewrite List.filter_app, !fold_left_add, List.map_app, sumZ_app. simpl.
      subst counted moved dragData.
      destruct (Assignment.isCPT _); simpl; lia. }
    split; [exact Hrem|]. intros Hlt. rewrite Hrem. lia.
Qed.

(** In the scenario teacher B has capacity 4 and receives a load of 6. *)
Lemma relocation_ignores_capacity_witness :
  handleDragEnd (List.map (withMaxLoad (fun _ => 0)) Scenario.pair) Scenario.sameColumnDrop
  = handleDragEnd Scenario.pair Scenario.sameColumnDrop
  /\ remainingCapacity
       (withAssignments Scenario.teacherB [Scenario.ccw6_A]) = -2.
Proof.
  pose proof (relocation_ignores_capacity Scenario.pair Scenario.sameColumnDrop
                {| over_id := "drop-B-CCW6-A";
                   over_data := {| drop_teacherId := "B";
                                   drop_courseGroup := "CCW6";
                                   drop_courseName := "A" |} |}
                Scenario.teacherA Scenario.teacherB (fun _ => 0)) as H.
  simpl in H.
  destruct H as [H _];
    [reflexivity | vm_compute; discriminate | reflexivity | reflexivity | reflexivity
    | vm_compute; intros [? _]; discriminate |].
  split; [exact H | reflexivity].
Defined.

(** ** C10: what a move between two teachers returns *)

(** C10.  For an accepted drop onto another teacher, the handler returns for
    the source the original list without every assignment that shares the
    course id of the dragged one (the others stay, in their order), and for
    the destination its list with exactly one assignment appended (the
    dragged one, relabelled); with [n] assignments of the source sharing that
    course id, the two lists together hold [n - 1] assignments fewer than
    before. *)
Theorem relocation_removes_every_shared_course (teachers : list Teacher.t)
    (event : DragEndEvent) (target : Over) (sourceTeacher targetTeacher : Teacher.t) :
  let dragData := active_data (active event) in
  let dropData := over_data target in
  let moved := drag_assignment dragData in
  let n := List.length (sharingCourse moved (Teacher.assignments sourceTeacher)) in
  over event = Some target ->
  active_id (active event) <> over_id target ->
  findTeacher teachers (drag_teacherId dragData) = Some sourceTeacher ->
  findTeacher teachers (drop_teacherId dropData) = Some targetTeacher ->
  drag_courseGroup dragData = drop_courseGroup dropData ->
  drag_teacherId dragData <> drop_teacherId dropData ->
  exists newSource newTarget,
    handleDragEnd teachers event
    = OnAssignmentUpdate (Teacher.id sourceTeacher) newSource
        (Some [(Teacher.id targetTeacher, newTarget)])
    /\ (forall a, a ∈ newSource <->
                  a ∈ Teacher.assignments sourceTeacher
                  /\ Assignment.courseId a <> Assignment.courseId moved)
    /\ sublist newSource (Teacher.assignments sourceTeacher)
    /\ newTarget = Teacher.assignments targetTeacher
                   ++ [withCourseName moved (drop_courseName dropData)]
    /\ (List.length newSource + n = List.length (Teacher.assignments sourceTeacher))%nat
    /\ (List.length newSource + List.length newTarget + n
        = List.length (Teacher.assignments sourceTeacher)
          + List.length (Teacher.assignments targetTeacher) + 1)%nat
    /\ ((1 < n)%nat ->
        (List.length newSource + List.length newTarget
         = List.length (Teacher.assignments sourceTeacher)
           + List.length (Teacher.assignments targetTeacher) - (n - 1))%nat).
Proof.
  intros dragData dropData moved n Hover Hids Hsrc Htgt Hgroup Hne.
  rewrite (handleDragEnd_other_teacher teachers event target sourceTeacher targetTeacher)
    by assumption.
  eexists _, _. split; [reflexivity|]. fold dragData dropData moved.
  pose proof (withoutCourse_length moved (Teacher.assignments sourceTeacher)) as Hlen.
  fold n in Hlen.
  split; [intros a; apply elem_of_withoutCourse|].
  split; [apply withoutCourse_sublist|].
  split; [reflexivity|].
  rewrite length_app. simpl. repeat split; lia.
Qed.

(** Teacher D's shared course dropped on teacher B: both of D's assignments
    of the course go, one arrives at B. *)
Lemma relocation_removes_every_shared_course_witness :
  handleDragEnd [Scenario.teacherD; Scenario.teacherB] Scenario.sharedCourseDrop
  = OnAssignmentUpdate "D" []
      (Some [("B", [Scenario.assignment "CCW6_A" "A" "CCW6" 3])])
  /\ List.length (sharingCourse (Scenario.assignment "CCW6_A" "A" "CCW6" 3)
                    (Teacher.assignments Scenario.teacherD)) = 2%nat.
Proof.
  destruct (relocation_removes_every_shared_course
              [Scenario.teacherD; Scenario.teacherB] Scenario.sharedCourseDrop
              {| over_id := "drop-B-CCW6-A";
                 over_data := {| drop_teacherId := "B";
                                 drop_courseGroup := "CCW6";
                                 drop_courseName := "A" |} |}
              Scenario.teacherD Scenario.teacherB)
    as (newSource & newTarget & Hout & _ & _ & Htarget & Hlen & _).
  - reflexivity.
  - vm_compute. discriminate.
  - reflexivity.
  - reflexivity.
  - reflexivity.
  - vm_compute. discriminate.
  - split; [|reflexivity]. rewrite Hout, Htarget.
    destruct newSource as [|a rest]; [reflexivity|].
    vm_compute in Hlen. discriminate.
Defined.

(** ** The header aggregation *)

Lemma fold_countTeacher courseName groupId (rows : list Teacher.t) (acc : Counters) :
  let final := fold_left (countTeacher courseName groupId) rows acc in
  totalLoad final
  = totalLoad acc
    + sumZ (List.map (fun t => shownLoad courseName groupId (Teacher.assignments t)) rows)
  /\ totalStudents final
     = totalStudents acc
       + sumZ (List.map (fun t => shownStudents courseName groupId (Teacher.assignments t))
                        rows).
Proof.
  revert acc. induction rows as [|t rows IH]; intros acc; simpl; [lia|].
  destruct (IH (countTeacher courseName groupId acc t)) as [Hload Hstudents].
  rewrite Hload, Hstudents. unfold countTeacher, shownLoad, shownStudents, shownIn.
  destruct (find _ _); simpl; lia.
Qed.

Lemma loadSum_shown rows group columnId :
  loadSum rows group columnId
  = sumZ (List.map
            (fun t => shownLoad (parseCourseNameFromColumnId columnId (CourseGroup.id group))
                                (CourseGroup.id group) (Teacher.assignments t))
            rows).
Proof.
  unfold loadSum, columnTotals. simpl.
  destruct (fold_countTeacher (parseCourseNameFromColumnId columnId (CourseGroup.id group))
              (CourseGroup.id group) rows (mkCounters 0 0 0)) as [Hload _].
  simpl in Hload. rewrite Hload. lia.
Qed.

Lemma columnTotals_key rows group columnId :
  (columnTotals rows group columnId).1 = columnKey group columnId.
Proof. reflexivity. Qed.

(** The map is filled column by column over [visibleColumns]. *)
Lemma courseTotals_fold rows courseGroups collapsed :
  SummaryTotals.courseTotals (useSummaryCalculations rows courseGroups collapsed)
  = fold_left (fun totals (gc : CourseGroup.t * string) =>
                 <[ columnKey gc.1 gc.2 := (columnTotals rows gc.1 gc.2).2 ]> totals)
              (visibleColumns courseGroups collapsed) ∅.
Proof.
  unfold useSummaryCalculations, visibleColumns. simpl.
  generalize (∅ : gmap string CourseTotals.t).
  induction (List.filter _ courseGroups) as [|g gs IH]; intros m; simpl; [reflexivity|].
  rewrite fold_left_app, IH. f_equal.
  unfold fillGroup. generalize (columnList g). intros cols. revert m.
  induction cols as [|c cols IHc]; intros m; simpl; [reflexivity|].
  by rewrite IHc.
Qed.

(** The entry found under a key is the one written by the last column
    carrying that key. *)
Lemma fold_insert_last {V} (key : CourseGroup.t * string -> string)
    (value : CourseGroup.t * string -> V) pre gc post (m : gmap string V) :
  Forall (fun gc' => key gc' <> key gc) post ->
  fold_left (fun totals gc' => <[ key gc' := value gc' ]> totals) (pre ++ gc :: post) m
    !! key gc = Some (value gc).
Proof.
  intros Hpost. rewrite fold_left_app. simpl.
  generalize (fold_left (fun totals gc' => <[ key gc' := value gc' ]> totals) pre m).
  intros m'. assert (Hm : <[ key gc := value gc ]> m' !! key gc = Some (value gc))
    by apply lookup_insert_eq.
  revert Hm. generalize (<[ key gc := value gc ]> m'). clear m'.
  induction Hpost as [|gc' post Hne _ IH]; intros m' Hm; simpl; [exact Hm|].
  apply IH. by rewrite lookup_insert_ne.
Qed.

Lemma courseTotals_lookup rows courseGroups collapsed pre group columnId post :
  visibleColumns courseGroups collapsed = pre ++ (group, columnId) :: post ->
  Forall (fun gc => columnKey gc.1 gc.2 <> columnKey group columnId) post ->
  SummaryTotals.courseTotals (useSummaryCalculations rows courseGroups collapsed)
    !! columnKey group columnId
  = Some (columnTotals rows group columnId).2.
Proof.
  intros Hcols Hpost. rewrite courseTotals_fold, Hcols.
  apply (fold_insert_last (fun gc => columnKey gc.1 gc.2)
           (fun gc => (columnTotals rows gc.1 gc.2).2) pre (group, columnId) post).
  exact Hpost.
Qed.



(** ** C4: what a column's totals accumulate *)




(** ** C7: the remaining figure of a column *)

(** C7, as stated, fails.  Column A of the group carries a catalog figure of
    zero periods per cycle and teacher A brings a load of 6 to it; the stored
    remaining figure is 0, not [0 - 6]. *)
Lemma remaining_zero_figure_counterexample :
  catalogPeriodsPerCycle Scenario.ccw6_catalog "CCW6_A" = Some 0
  /\ CourseTotals.load
       <$> (SummaryTotals.courseTotals
              (useSummaryCalculations Scenario.pair [Scenario.ccw6_catalog] [])
            !! columnKey Scenario.ccw6_catalog "CCW6_A") = Some 6
  /\ CourseTotals.remaining
       <$> (SummaryTotals.courseTotals
              (useSummaryCalculations Scenario.pair [Scenario.ccw6_catalog] [])
            !! columnKey Scenario.ccw6_catalog "CCW6_A") = Some 0
  /\ 0 <> 0 - 6.
Proof. repeat split; vm_compute; congruence. Qed.

(** C7, amended.  For a visible column whose key is not reused by a later
    visible column, the stored remaining figure is the catalog
    periods-per-cycle figure minus the column's load sum when a figure is
    present and positive; it is 0 when the figure is zero or negative, and 0
    when no figure is present. *)
Theorem remaining_from_positive_figure (rows : list Teacher.t)
    (courseGroups : list CourseGroup.t) (collapsed : list string)
    (pre post : list (CourseGroup.t * string)) (group : CourseGroup.t) (columnId : string) :
  visibleColumns courseGroups collapsed = pre ++ (group, columnId) :: post ->
  Forall (fun gc => columnKey gc.1 gc.2 <> columnKey group columnId) post ->
  exists totals,
    SummaryTotals.courseTotals (useSummaryCalculations rows courseGroups collapsed)
      !! columnKey group columnId = Some totals
    /\ CourseTotals.load totals = loadSum rows group columnId
    /\ (forall figure, catalogPeriodsPerCycle group columnId = Some figure ->
                       0 < figure ->
                       CourseTotals.remaining totals = figure - loadSum rows group columnId)
    /\ (forall figure, catalogPeriodsPerCycle group columnId = Some figure ->
                       figure <= 0 ->
                       CourseTotals.remaining totals = 0)
    /\ (catalogPeriodsPerCycle group columnId = None ->
        CourseTotals.remaining totals = 0).
Proof.
  intros Hcols Hpost.
  exists (columnTotals rows group columnId).2.
  split; [by apply (courseTotals_lookup rows courseGroups collapsed pre group columnId post)|].
  split; [reflexivity|].
  unfold loadSum, catalogPeriodsPerCycle, columnTotals. simpl.
  destruct (CourseGroup.columnMetadata group) as [ms|]; simpl.
  - destruct (find _ ms) as [m|]; simpl.
    + split; [|split].
      * intros figure [= <-] Hpos. apply Z.ltb_lt in Hpos. by rewrite Hpos.
      * intros figure [= <-] Hneg. apply Z.ltb_ge in Hneg. by rewrite Hneg.
      * discriminate.
    + split; [discriminate|]. split; [discriminate|]. reflexivity.
  - split; [discriminate|]. split; [discriminate|]. reflexivity.
Qed.

Lemma remaining_from_positive_figure_witness :
  exists totals,
    SummaryTotals.courseTotals
      (useSummaryCalculations Scenario.pair [Scenario.ccw6_catalog] [])
      !! columnKey Scenario.ccw6_catalog "CCW6_B" = Some totals
    /\ CourseTotals.remaining totals = 9.
Proof.
  destruct (remaining_from_positive_figure Scenario.pair [Scenario.ccw6_catalog] []
              [(Scenario.ccw6_catalog, "CCW6_A")] [] Scenario.ccw6_catalog "CCW6_B")
    as (totals & Hlookup & _ & Hpos & _).
  - reflexivity.
  - constructor.
  - exists totals. split; [exact Hlookup|].
    rewrite (Hpos 9) by (reflexivity || lia). reflexivity.
Defined.

(** ** How a relocation changes what the cells show *)

Lemma find_filter_keep {A} (p q : A -> bool) (l : list A) :
  (forall a, a ∈ l -> p a = true -> q a = true) ->
  find p (List.filter q l) = find p l.
Proof.
  induction l as [|x l IH]; intros Hkeep; simpl; [reflexivity|].
  assert (IH' : find p (List.filter q l) = find p l).
  { apply IH. intros a Ha. apply Hkeep. by right. }
  destruct (p x) eqn:Hp.
  - rewrite (Hkeep x) by (left || assumption). simpl. by rewrite Hp.
  - destruct (q x); simpl; [by rewrite Hp | assumption].
Qed.

Lemma sharingCourse_single moved l :
  sharingCourse moved l = [moved] ->
  moved ∈ l
  /\ forall a, a ∈ l -> Assignment.courseId a = Assignment.courseId moved -> a = moved.
Proof.
  unfold sharingCourse. intros Hsingle. split.
  - assert (Hin : In moved (List.filter
                             (fun a => bool_decide (Assignment.courseId a
                                                    = Assignment.courseId moved)) l))
      by (rewrite Hsingle; left; reflexivity).
    apply filter_In in Hin as [Hin _]. by apply list_elem_of_In.
  - intros a Ha Hid.
    assert (Hin : In a (List.filter
                         (fun a => bool_decide (Assignment.courseId a
                                                = Assignment.courseId moved)) l)).
    { apply filter_In. split; [by apply list_elem_of_In | by apply bool_decide_eq_true]. }
    rewrite Hsingle in Hin. destruct Hin as [<-|[]]. reflexivity.
Qed.

Lemma inCell_withCourseName courseName groupId moved dropName :
  inCell courseName groupId (withCourseName moved dropName)
  = bool_decide (dropName = courseName)
    && bool_decide (Assignment.courseGroup moved = groupId).
Proof. reflexivity. Qed.

(** Removing the dragged course takes the dragged load out of its own cell
    and leaves every other cell alone, when the dragged assignment is the
    only one of its course and the only one of its cell. *)
Lemma shownLoad_withoutCourse courseName groupId moved (l : list Assignment.t) :
  sharingCourse moved l = [moved] ->
  (forall a, a ∈ l ->
             inCell (Assignment.courseName moved) (Assignment.courseGroup moved) a = true ->
             a = moved) ->
  shownLoad courseName groupId (withoutCourse moved l)
  = shownLoad courseName groupId l
    - (if inCell courseName groupId moved then Assignment.load moved else 0).
Proof.
  intros Hcourse Hcell. destruct (sharingCourse_single moved l Hcourse) as [Hin Hid].
  unfold shownLoad, shownIn. destruct (inCell courseName groupId moved) eqn:Hm.
  - assert (Hname : Assignment.courseName moved = courseName
                    /\ Assignment.courseGroup moved = groupId).
    { unfold inCell in Hm. apply andb_true_iff in Hm as [H1 H2].
      split; [by apply bool_decide_eq_true in H1 | by apply bool_decide_eq_true in H2]. }
    destruct Hname as [<- <-].
    assert (Hnone : find (inCell (Assignment.courseName moved) (Assignment.courseGroup moved))
                         (withoutCourse moved l) = None).
    { apply find_none. intros a Ha. apply elem_of_withoutCourse in Ha as [Ha Hne].
      destruct (inCell _ _ a) eqn:Hca; [|reflexivity].
      apply Hcell in Hca; [|assumption]. congruence. }
    rewrite Hnone.
    destruct (find _ l) as [a|] eqn:Hfind.
    + apply find_some in Hfind as [Ha Hca]. rewrite (Hcell a Ha Hca). lia.
    + rewrite find_none in Hfind. rewrite (Hfind moved Hin) in Hm. discriminate.
  - unfold withoutCourse. rewrite find_filter_keep; [lia|].
    intros a Ha Hca. apply negb_true_iff, bool_decide_eq_false. intros Hsame.
    rewrite (Hid a Ha Hsame) in Hca. congruence.
Qed.

(** Appending the relabelled assignment brings the dragged load to the
    destination cell, when the list holds nothing in that cell, and leaves
    every other cell alone. *)
Lemma shownLoad_append courseName groupId moved dropName (l : list Assignment.t) :
  (forall a, a ∈ l -> inCell dropName (Assignment.courseGroup moved) a = false) ->
  shownLoad courseName groupId (l ++ [withCourseName moved dropName])
  = shownLoad courseName groupId l
    + (if inCell courseName groupId (withCourseName moved dropName)
       then Assignment.load moved else 0).
Proof.
  intros Hfree. unfold shownLoad, shownIn. rewrite find_app.
  destruct (find (inCell courseName groupId) l) as [a|] eqn:Hfind.
  - apply find_some in Hfind as [Ha Hca].
    destruct (inCell courseName groupId (withCourseName moved dropName)) eqn:Hm; [|lia].
    rewrite inCell_withCourseName in Hm. apply andb_true_iff in Hm as [H1 H2].
    apply bool_decide_eq_true in H1, H2. subst.
    rewrite (Hfree a Ha) in Hca. discriminate.
  - simpl. destruct (inCell courseName groupId (withCourseName moved dropName)); simpl; lia.
Qed.

(** ** Sums over rows with unique identifiers *)

Lemma unique_by_id (l : list Teacher.t) (x y : Teacher.t) :
  NoDup (List.map Teacher.id l) -> x ∈ l -> y ∈ l -> Teacher.id x = Teacher.id y -> x = y.
Proof.
  induction l as [|z l IH]; intros Hnd Hx Hy Hid; [inversion Hx|].
  simpl in Hnd. apply NoDup_cons in Hnd as [Hz Hnd].
  assert (Hmem : forall w, w ∈ l -> Teacher.id w ∈ List.map Teacher.id l).
  { intros w Hw. apply list_elem_of_In, in_map. by apply list_elem_of_In. }
  apply elem_of_cons in Hx as [->|Hx]; apply elem_of_cons in Hy as [->|Hy].
  - reflexivity.
  - exfalso. apply Hz. rewrite Hid. by apply Hmem.
  - exfalso. apply Hz. rewrite <- Hid. by apply Hmem.
  - by apply IH.
Qed.

Lemma NoDup_map_filter {A B} (f : A -> B) (p : A -> bool) (l : list A) :
  NoDup (List.map f l) -> NoDup (List.map f (List.filter p l)).
Proof.
  induction l as [|x l IH]; simpl; intros Hnd; [constructor|].
  apply NoDup_cons in Hnd as [Hx Hnd]. destruct (p x); simpl; [|by apply IH].
  apply NoDup_cons. split; [|by apply IH].
  intros Hin. apply Hx. apply list_elem_of_In in Hin. apply list_elem_of_In.
  apply in_map_iff in Hin as (y & Hy & Hin). apply in_map_iff. exists y.
  split; [assumption|]. by apply filter_In in Hin as [Hin _].
Qed.

Lemma findTeacher_some teachers teacherId teacher :
  findTeacher teachers teacherId = Some teacher ->
  teacher ∈ teachers /\ Teacher.id teacher = teacherId.
Proof.
  unfold findTeacher. intros Hfind. apply find_some in Hfind as [Hin Hid].
  split; [assumption | by apply bool_decide_eq_true in Hid].
Qed.

Lemma sum_indicator (l : list Teacher.t) (x : Teacher.t) (c : Z) :
  NoDup (List.map Teacher.id l) -> x ∈ l ->
  sumZ (List.map (fun t => if bool_decide (Teacher.id t = Teacher.id x) then c else 0) l) = c.
Proof.
  induction l as [|z l IH]; intros Hnd Hx; [inversion Hx|].
  pose proof Hnd as Hnd'. simpl in Hnd'. apply NoDup_cons in Hnd' as [Hz Hnd'].
  assert (Hzero : forall l', (forall w, w ∈ l' -> Teacher.id w <> Teacher.id x) ->
            sumZ (List.map (fun t => if bool_decide (Teacher.id t = Teacher.id x)
                                     then c else 0) l') = 0).
  { induction l' as [|w l' IHl']; intros Hall; simpl; [reflexivity|].
    rewrite bool_decide_eq_false_2 by (apply Hall; left).
    rewrite IHl'; [reflexivity|]. intros w' Hw'. apply Hall. by right. }
  simpl. apply elem_of_cons in Hx as [->|Hx].
  - rewrite bool_decide_eq_true_2 by reflexivity. rewrite Hzero; [lia|].
    intros w Hw Hid. apply Hz. rewrite <- Hid.
    apply list_elem_of_In, in_map. by apply list_elem_of_In.
  - rewrite bool_decide_eq_false_2.
    + rewrite IH by assumption. lia.
    + intros Hid. apply Hz. rewrite Hid.
      apply list_elem_of_In, in_map. by apply list_elem_of_In.
Qed.

Lemma sumZ_map_ext {A} (f g : A -> Z) (l : list A) :
  (forall x, x ∈ l -> f x = g x) -> sumZ (List.map f l) = sumZ (List.map g l).
Proof.
  induction l as [|x l IH]; intros Hext; simpl; [reflexivity|].
  rewrite (Hext x) by left. rewrite IH; [reflexivity|].
  intros y Hy. apply Hext. by right.
Qed.

Lemma sumZ_map_add {A} (f g : A -> Z) (l : list A) :
  sumZ (List.map (fun x => f x + g x) l) = sumZ (List.map f l) + sumZ (List.map g l).
Proof. induction l as [|x l IH]; simpl; lia. Qed.

(** When the rows with the identifier of [x] gain [dx], the rows with the
    identifier of [y] gain [dy] and the others are unchanged, the sum gains
    [dx + dy]. *)
Lemma sum_two_changes (l : list Teacher.t) (x y : Teacher.t) (f f' : Teacher.t -> Z)
    (dx dy : Z) :
  NoDup (List.map Teacher.id l) -> x ∈ l -> y ∈ l ->
  (forall t, t ∈ l ->
     f' t = f t + (if bool_decide (Teacher.id t = Teacher.id x) then dx else 0)
                + (if bool_decide (Teacher.id t = Teacher.id y) then dy else 0)) ->
  sumZ (List.map f' l) = sumZ (List.map f l) + dx + dy.
Proof.
  intros Hnd Hx Hy Hchange.
  rewrite (sumZ_map_ext f' _ l Hchange), !sumZ_map_add.
  rewrite (sum_indicator l x dx Hnd Hx), (sum_indicator l y dy Hnd Hy). reflexivity.
Qed.

(** ** The page data after an update *)

Lemma handleAssignmentUpdate_one teachers sourceId newSource :
  handleAssignmentUpdate teachers sourceId newSource None
  = List.map (fun t => if bool_decide (Teacher.id t = sourceId)
                       then enhanceTeacherWithMetrics (withAssignments t newSource)
                       else t) teachers.
Proof.
  unfold handleAssignmentUpdate. apply map_ext. intros t.
  destruct (decide (Teacher.id t = sourceId)) as [->|Hne].
  - by rewrite lookup_insert_eq, bool_decide_eq_true_2.
  - rewrite lookup_insert_ne by congruence.
    by rewrite lookup_empty, bool_decide_eq_false_2.
Qed.

Lemma handleAssignmentUpdate_two teachers sourceId newSource targetId newTarget :
  sourceId <> targetId ->
  handleAssignmentUpdate teachers sourceId newSource (Some [(targetId, newTarget)])
  = List.map (fun t => if bool_decide (Teacher.id t = sourceId)
                       then enhanceTeacherWithMetrics (withAssignments t newSource)
                       else if bool_decide (Teacher.id t = targetId)
                            then enhanceTeacherWithMetrics (withAssignments t newTarget)
                            else t) teachers.
Proof.
  intros Hids. unfold handleAssignmentUpdate. apply map_ext. intros t. simpl.
  destruct (decide (Teacher.id t = sourceId)) as [->|Hsrc].
  - rewrite lookup_insert_ne by congruence.
    by rewrite lookup_insert_eq, bool_decide_eq_true_2.
  - rewrite (bool_decide_eq_false_2 _ Hsrc).
    destruct (decide (Teacher.id t = targetId)) as [->|Htgt].
    + by rewrite lookup_insert_eq, bool_decide_eq_true_2.
    + rewrite !lookup_insert_ne by congruence.
      by rewrite lookup_empty, bool_decide_eq_false_2.
Qed.

Lemma visibleTeachers_map (f : Teacher.t -> Teacher.t) teachers collapsed :
  (forall t, Teacher.division (f t) = Teacher.division t) ->
  visibleTeachers (List.map f teachers) collapsed
  = List.map f (visibleTeachers teachers collapsed).
Proof.
  intros Hdiv. induction teachers as [|t teachers IH]; [reflexivity|].
  simpl List.map. rewrite !visibleTeachers_cons, Hdiv, IH.
  by destruct (includes collapsed (Teacher.division t)).
Qed.

Lemma findTeacher_map (f : Teacher.t -> Teacher.t) teachers teacherId :
  (forall t, Teacher.id (f t) = Teacher.id t) ->
  findTeacher (List.map f teachers) teacherId = f <$> findTeacher teachers teacherId.
Proof.
  intros Hid. unfold findTeacher. induction teachers as [|t teachers IH]; [reflexivity|].
  simpl. rewrite Hid. by destruct (bool_decide (Teacher.id t = teacherId)).
Qed.

Lemma loadSum_map (f : Teacher.t -> Teacher.t) rows group columnId :
  loadSum (List.map f rows) group columnId
  = sumZ (List.map
            (fun t => shownLoad (parseCourseNameFromColumnId columnId (CourseGroup.id group))
                                (CourseGroup.id group) (Teacher.assignments (f t)))
            rows).
Proof. rewrite loadSum_shown, map_map. reflexivity. Qed.

(** The loads stored in the map depend on the rows only through the
    per-column load sums. *)
Lemma courseTotals_load_ext rows1 rows2 courseGroups collapsed :
  (forall group columnId, loadSum rows1 group columnId = loadSum rows2 group columnId) ->
  CourseTotals.load
    <$> SummaryTotals.courseTotals (useSummaryCalculations rows1 courseGroups collapsed)
  = CourseTotals.load
      <$> SummaryTotals.courseTotals (useSummaryCalculations rows2 courseGroups collapsed).
Proof.
  intros Hsame. rewrite !courseTotals_fold.
  enough (Hgen : forall cols (m1 m2 : gmap string CourseTotals.t),
             CourseTotals.load <$> m1 = CourseTotals.load <$> m2 ->
             CourseTotals.load
               <$> fold_left (fun totals (gc : CourseGroup.t * string) =>
                                <[ columnKey gc.1 gc.2 := (columnTotals rows1 gc.1 gc.2).2 ]>
                                  totals) cols m1
             = CourseTotals.load
                 <$> fold_left (fun totals (gc : CourseGroup.t * string) =>
                                  <[ columnKey gc.1 gc.2 := (columnTotals rows2 gc.1 gc.2).2 ]>
                                    totals) cols m2)
    by (by apply Hgen).
  induction cols as [|[g c] cols IH]; intros m1 m2 Hstart; simpl; [exact Hstart|].
  apply IH. rewrite !fmap_insert. rewrite Hstart. f_equal. apply Hsame.
Qed.

(** ** The range in which the sums of the code are exact *)

Lemma sumZ_map_le {A} (f g : A -> Z) (l : list A) :
  (forall x, x ∈ l -> f x <= g x) -> sumZ (List.map f l) <= sumZ (List.map g l).
Proof.
  induction l as [|x l IH]; intros Hle; simpl; [lia|].
  assert (f x <= g x) by (apply Hle; left).
  assert (sumZ (List.map f l) <= sumZ (List.map g l))
    by (apply IH; intros y Hy; apply Hle; by right).
  lia.
Qed.

Lemma sumZ_map_nonneg {A} (f : A -> Z) (l : list A) :
  (forall x, x ∈ l -> 0 <= f x) -> 0 <= sumZ (List.map f l).
Proof.
  induction l as [|x l IH]; intros Hpos; simpl; [lia|].
  assert (0 <= f x) by (apply Hpos; left).
  assert (0 <= sumZ (List.map f l)) by (apply IH; intros y Hy; apply Hpos; by right).
  lia.
Qed.

Lemma sumZ_sublist_le {A} (f : A -> Z) (l' l : list A) :
  (forall x, x ∈ l -> 0 <= f x) -> sublist l' l ->
  sumZ (List.map f l') <= sumZ (List.map f l).
Proof.
  intros Hpos Hsub. revert Hpos.
  induction Hsub as [|x l1 l2 _ IH|x l1 l2 _ IH]; intros Hpos; simpl.
  - lia.
  - assert (sumZ (List.map f l1) <= sumZ (List.map f l2))
      by (apply IH; intros y Hy; apply Hpos; by right).
    lia.
  - assert (0 <= f x) by (apply Hpos; left).
    assert (sumZ (List.map f l1) <= sumZ (List.map f l2))
      by (apply IH; intros y Hy; apply Hpos; by right).
    lia.
Qed.

Lemma elem_le_sumZ {A} (f : A -> Z) (l : list A) (a : A) :
  (forall x, x ∈ l -> 0 <= f x) -> a ∈ l -> f a <= sumZ (List.map f l).
Proof.
  induction l as [|x l IH]; intros Hpos Ha; [inversion Ha|]. simpl.
  assert (0 <= f x) by (apply Hpos; left).
  assert (0 <= sumZ (List.map f l))
    by (apply sumZ_map_nonneg; intros y Hy; apply Hpos; by right).
  apply elem_of_cons in Ha as [->|Ha]; [lia|].
  assert (f a <= sumZ (List.map f l)) by (apply IH; [intros y Hy; apply Hpos; by right | exact Ha]).
  lia.
Qed.

Lemma sumZ_filter_split {A} (f : A -> Z) (p : A -> bool) (l : list A) :
  sumZ (List.map f l)
  = sumZ (List.map f (List.filter p l))
    + sumZ (List.map f (List.filter (fun a => negb (p a)) l)).
Proof. induction l as [|x l IH]; simpl; [reflexivity|]. destruct (p x); simpl; lia. Qed.

Lemma shownLoad_bounds courseName groupId (l : list Assignment.t) :
  Forall (fun a => 0 <= Assignment.load a) l ->
  0 <= shownLoad courseName groupId l <= sumZ (List.map Assignment.load l).
Proof.
  intros Hpos. rewrite Forall_forall in Hpos. unfold shownLoad, shownIn.
  destruct (find (inCell courseName groupId) l) as [a|] eqn:Hfind.
  - apply find_some in Hfind as [Hin _]. split; [by apply Hpos | by apply elem_le_sumZ].
  - split; [lia | by apply sumZ_map_nonneg].
Qed.

(** Over rows taken in order from page data within the range, every
    per-column load sum is within the range. *)
Lemma loadSum_within_safe_range teachers rows group columnId :
  loadsWithinSafeRange teachers -> sublist rows teachers ->
  0 <= loadSum rows group columnId <= MAX_SAFE_INTEGER.
Proof.
  intros [Hpos Hsum] Hsub. rewrite Forall_forall in Hpos.
  assert (Hrows : forall t, t ∈ rows -> t ∈ teachers)
    by (intros t Ht; by apply (elem_of_sublist rows teachers)).
  rewrite loadSum_shown. split.
  - apply sumZ_map_nonneg. intros t Ht. by apply shownLoad_bounds, Hpos, Hrows.
  - etransitivity; [|exact Hsum]. etransitivity.
    + apply (sumZ_map_le _ assignedLoad). intros t Ht.
      by apply shownLoad_bounds, Hpos, Hrows.
    + apply sumZ_sublist_le; [|assumption].
      intros t Ht. apply sumZ_map_nonneg. intros a Ha.
      pose proof (Hpos t Ht) as Hload. rewrite Forall_forall in Hload. by apply Hload.
Qed.

Lemma assignedLoad_sharing (moved : Assignment.t) (l : list Assignment.t) :
  sharingCourse moved l = [moved] ->
  moved ∈ l
  /\ sumZ (List.map Assignment.load l)
     = sumZ (List.map Assignment.load (withoutCourse moved l)) + Assignment.load moved.
Proof.
  intros Hcourse. split.
  - assert (Hin : moved ∈ sharingCourse moved l) by (rewrite Hcourse; left).
    unfold sharingCourse in Hin. apply list_elem_of_In, filter_In in Hin as [Hin _].
    by apply list_elem_of_In.
  - rewrite (sumZ_filter_split Assignment.load
               (fun a => bool_decide (Assignment.courseId a = Assignment.courseId moved)) l).
    fold (sharingCourse moved l). fold (withoutCourse moved l).
    rewrite Hcourse. simpl. lia.
Qed.

(** An accepted drop of an assignment that is alone of its course in the
    source row rewrites the page data row by row: capacities and consistent
    metrics are kept, and the load leaves the source row for the destination
    row. *)
Lemma teachersAfterDrag_accepted (teachers : list Teacher.t) (event : DragEndEvent)
    (target : Over) (sourceTeacher targetTeacher : Teacher.t) :
  let dragData := active_data (active event) in
  let dropData := over_data target in
  let moved := drag_assignment dragData in
  NoDup (List.map Teacher.id teachers) ->
  over event = Some target ->
  active_id (active event) <> over_id target ->
  findTeacher teachers (drag_teacherId dragData) = Some sourceTeacher ->
  findTeacher teachers (drop_teacherId dropData) = Some targetTeacher ->
  drag_courseGroup dragData = drop_courseGroup dropData ->
  ~ (drag_teacherId dragData = drop_teacherId dropData
     /\ Assignment.courseName moved = drop_courseName dropData) ->
  sharingCourse moved (Teacher.assignments sourceTeacher) = [moved] ->
  exists upd : Teacher.t -> Teacher.t,
    teachersAfterDrag teachers event = List.map upd teachers
    /\ (forall t, Teacher.maxLoad (upd t) = Teacher.maxLoad t)
    /\ (forall t, enhanceTeacherWithMetrics t = t -> enhanceTeacherWithMetrics (upd t) = upd t)
    /\ (Forall (fun t => Forall (fun a => 0 <= Assignment.load a) (Teacher.assignments t))
               teachers ->
        forall t, t ∈ teachers ->
          Forall (fun a => 0 <= Assignment.load a) (Teacher.assignments (upd t)))
    /\ (forall t, t ∈ teachers ->
          assignedLoad (upd t)
          = assignedLoad t
            + (if bool_decide (Teacher.id t = Teacher.id sourceTeacher)
               then - Assignment.load moved else 0)
            + (if bool_decide (Teacher.id t = Teacher.id targetTeacher)
               then Assignment.load moved else 0)).
Proof.
  intros dragData dropData moved Hnd Hover Hids Hsrc Htgt Hgroup Hcell Hcourse.
  destruct (findTeacher_some _ _ _ Hsrc) as [HsrcIn HsrcId].
  destruct (findTeacher_some _ _ _ Htgt) as [HtgtIn HtgtId].
  destruct (assignedLoad_sharing _ _ Hcourse) as [Hmoved Hsplit].
  assert (Hrest : forall l, Forall (fun a => 0 <= Assignment.load a) l ->
                            Forall (fun a => 0 <= Assignment.load a) (withoutCourse moved l)).
  { intros l Hl. rewrite Forall_forall in Hl. apply Forall_forall. intros a Ha.
    apply elem_of_withoutCourse in Ha as [Ha _]. by apply Hl. }
  unfold teachersAfterDrag.
  destruct (decide (drag_teacherId dragData = drop_teacherId dropData)) as [Hsame|Hother].
  - assert (targetTeacher = sourceTeacher) as ->.
    { fold dragData dropData in Hsrc, Htgt. rewrite Hsame in Hsrc. congruence. }
    rewrite (handleDragEnd_same_teacher teachers event target sourceTeacher sourceTeacher)
      by assumption.
    rewrite handleAssignmentUpdate_one. eexists. split; [reflexivity|].
    split; [|split; [|split]].
    + intros t. cbn beta. by destruct (bool_decide _).
    + intros t Ht. cbn beta. by destruct (bool_decide _).
    + intros Hpos t Ht. cbn beta. rewrite Forall_forall in Hpos.
      destruct (bool_decide _); [|by apply Hpos]. simpl.
      pose proof (Hpos _ HsrcIn) as Hs. apply Forall_app. split; [by apply Hrest|].
      constructor; [|constructor]. simpl. rewrite Forall_forall in Hs. by apply Hs.
    + intros t Ht. cbn beta.
      destruct (decide (Teacher.id t = Teacher.id sourceTeacher)) as [Hid|Hid].
      * rewrite (unique_by_id teachers t sourceTeacher Hnd Ht HsrcIn Hid).
        rewrite !bool_decide_eq_true_2 by reflexivity.
        unfold assignedLoad. simpl. rewrite Hsplit, List.map_app, sumZ_app. simpl.
        fold dragData moved. lia.
      * rewrite !bool_decide_eq_false_2 by assumption. lia.
  - assert (HidNe : Teacher.id sourceTeacher <> Teacher.id targetTeacher)
      by (fold dragData dropData in HsrcId, HtgtId; congruence).
    rewrite (handleDragEnd_other_teacher teachers event target sourceTeacher targetTeacher)
      by assumption.
    rewrite handleAssignmentUpdate_two by assumption. eexists. split; [reflexivity|].
    split; [|split; [|split]].
    + intros t. cbn beta.
      destruct (bool_decide _); [reflexivity | by destruct (bool_decide _)].
    + intros t Ht. cbn beta.
      destruct (bool_decide _); [reflexivity | by destruct (bool_decide _)].
    + intros Hpos t Ht. cbn beta. rewrite Forall_forall in Hpos.
      pose proof (Hpos _ HsrcIn) as Hs.
      destruct (bool_decide _); [simpl; by apply Hrest|].
      destruct (bool_decide _); [|by apply Hpos]. simpl.
      apply Forall_app. split; [by apply Hpos|].
      constructor; [|constructor]. simpl. rewrite Forall_forall in Hs. by apply Hs.
    + intros t Ht. cbn beta.
      destruct (decide (Teacher.id t = Teacher.id sourceTeacher)) as [Hid|Hid].
      * rewrite (unique_by_id teachers t sourceTeacher Hnd Ht HsrcIn Hid).
        rewrite bool_decide_eq_true_2 by reflexivity.
        rewrite (bool_decide_eq_false_2 (Teacher.id sourceTeacher = Teacher.id targetTeacher))
          by assumption.
        unfold assignedLoad. simpl. rewrite Hsplit. fold dragData moved. lia.
      * rewrite (bool_decide_eq_false_2 _ Hid).
        destruct (decide (Teacher.id t = Teacher.id targetTeacher)) as [Hid'|Hid'].
        -- rewrite (unique_by_id teachers t targetTeacher Hnd Ht HtgtIn Hid').
           rewrite bool_decide_eq_true_2 by reflexivity.
           unfold assignedLoad. simpl. rewrite List.map_app, sumZ_app. simpl.
           fold dragData moved. lia.
        -- rewrite (bool_decide_eq_false_2 _ Hid'). lia.
Qed.

(** Such a drop keeps the page data within the range. *)
Lemma drag_keeps_loads_within_safe_range (teachers : list Teacher.t) (event : DragEndEvent)
    (target : Over) (sourceTeacher targetTeacher : Teacher.t) :
  let dragData := active_data (active event) in
  let dropData := over_data target in
  let moved := drag_assignment dragData in
  NoDup (List.map Teacher.id teachers) ->
  over event = Some target ->
  active_id (active event) <> over_id target ->
  findTeacher teachers (drag_teacherId dragData) = Some sourceTeacher ->
  findTeacher teachers (drop_teacherId dropData) = Some targetTeacher ->
  drag_courseGroup dragData = drop_courseGroup dropData ->
  ~ (drag_teacherId dragData = drop_teacherId dropData
     /\ Assignment.courseName moved = drop_courseName dropData) ->
  sharingCourse moved (Teacher.assignments sourceTeacher) = [moved] ->
  loadsWithinSafeRange teachers ->
  loadsWithinSafeRange (teachersAfterDrag teachers event)
  /\ sumZ (List.map assignedLoad (teachersAfterDrag teachers event))
     = sumZ (List.map assignedLoad teachers)
  /\ List.map Teacher.maxLoad (teachersAfterDrag teachers event)
     = List.map Teacher.maxLoad teachers
  /\ (Forall (fun t => enhanceTeacherWithMetrics t = t) teachers ->
      Forall (fun t => enhanceTeacherWithMetrics t = t) (teachersAfterDrag teachers event)).
Proof.
  intros dragData dropData moved Hnd Hover Hids Hsrc Htgt Hgroup Hcell Hcourse [Hpos Hsum].
  destruct (teachersAfterDrag_accepted teachers event target sourceTeacher targetTeacher
              Hnd Hover Hids Hsrc Htgt Hgroup Hcell Hcourse)
    as (upd & -> & Hmax & Henh & Hkeep & Hload).
  destruct (findTeacher_some _ _ _ Hsrc) as [HsrcIn _].
  destruct (findTeacher_some _ _ _ Htgt) as [HtgtIn _].
  assert (Htotal : sumZ (List.map assignedLoad (List.map upd teachers))
                   = sumZ (List.map assignedLoad teachers)).
  { rewrite map_map.
    rewrite (sum_two_changes teachers sourceTeacher targetTeacher assignedLoad
               (fun t => assignedLoad (upd t))
               (- Assignment.load moved) (Assignment.load moved) Hnd HsrcIn HtgtIn Hload).
    lia. }
  split; [split|split; [|split]].
  - apply Forall_forall. intros t Ht.
    apply list_elem_of_In, in_map_iff in Ht as (t0 & <- & Ht0).
    apply Hkeep; [assumption | by apply list_elem_of_In].
  - rewrite Htotal. exact Hsum.
  - exact Htotal.
  - rewrite map_map. apply map_ext. intros t. apply Hmax.
  - intros Hall. rewrite Forall_forall in Hall. apply Forall_forall. intros t Ht.
    apply list_elem_of_In, in_map_iff in Ht as (t0 & <- & Ht0).
    apply Henh, Hall. by apply list_elem_of_In.
Qed.


(** ** C1: conservation of load across a relocation *)

Lemma withCourseName_same moved :
  withCourseName moved (Assignment.courseName moved) = moved.
Proof. by destruct moved. Qed.

(** C1, as stated, fails, in two ways.

    A change of column: teacher A shows an assignment of load 6 in column A
    of group CCW6 and teacher B holds nothing.  Dropping the assignment on
    B's cell of column B of the same group is accepted; the assignment
    arrives at B relabelled for column B, so over the pair the load sum of
    column A falls from 6 to 0 while that of column B rises from 0 to 6.

    An occupied destination: teacher E already shows an assignment of load 3
    in column A.  Dropping A's assignment on E's cell of column A is accepted;
    afterwards A holds nothing and E holds both assignments, of which the
    column counts the first only, so over the pair the load sum of column A
    falls from 9 to 3 and nothing is gained elsewhere. *)
Lemma relocation_load_not_conserved_counterexample :
  (handleDragEnd Scenario.pair Scenario.otherColumnDrop
   = OnAssignmentUpdate "A" []
       (Some [("B", [Scenario.assignment "CCW6_A" "B" "CCW6" 6])])
   /\ loadSum Scenario.pair Scenario.ccw6 "CCW6_A" = 6
   /\ loadSum (teachersAfterDrag Scenario.pair Scenario.otherColumnDrop)
              Scenario.ccw6 "CCW6_A" = 0
   /\ loadSum Scenario.pair Scenario.ccw6 "CCW6_B" = 0
   /\ loadSum (teachersAfterDrag Scenario.pair Scenario.otherColumnDrop)
              Scenario.ccw6 "CCW6_B" = 6)
  /\ (handleDragEnd [Scenario.teacherA; Scenario.teacherE] Scenario.sameColumnDrop
      = OnAssignmentUpdate "A" [] (Some [("B", [Scenario.ccw6_E; Scenario.ccw6_A])])
      /\ loadSum [Scenario.teacherA; Scenario.teacherE] Scenario.ccw6 "CCW6_A" = 9
      /\ loadSum (teachersAfterDrag [Scenario.teacherA; Scenario.teacherE]
                    Scenario.sameColumnDrop) Scenario.ccw6 "CCW6_A" = 3
      /\ loadSum [Scenario.teacherA; Scenario.teacherE] Scenario.ccw6 "CCW6_B" = 0
      /\ loadSum (teachersAfterDrag [Scenario.teacherA; Scenario.teacherE]
                    Scenario.sameColumnDrop) Scenario.ccw6 "CCW6_B" = 0).
Proof. repeat split; vm_compute; reflexivity. Qed.

(** C1, amended.  Take an accepted drop (same group, another cell) between
    rows that are visible, in page data whose teacher identifiers are
    unique and whose loads are not negative and add up to at most
    [Number.MAX_SAFE_INTEGER], such that the dragged assignment is the only
    assignment of its course and the only assignment of its cell in the
    source row, and the destination row holds no assignment in the
    destination cell.  Then, recomputed over the visible rows after the
    update, the load sum of every column is the load sum before the move,
    minus the dragged load if the column is the one the assignment came
    from, plus the dragged load if the column is the one it was dropped on.
    In particular, when the drop keeps the column, every per-column load sum
    is unchanged, and so is every load stored in the totals map.  When
    moreover the source row held one assignment and the destination row
    none, the source row ends with 0 assignments and the destination row
    with 1.  Before and after the move, the running total of every column
    after any number of rows lies between 0 and [Number.MAX_SAFE_INTEGER],
    so that no addition of the aggregation rounds. *)
Theorem relocation_redistributes_load (teachers : list Teacher.t)
    (collapsedDivisions : list Division) (event : DragEndEvent) (target : Over)
    (sourceTeacher targetTeacher : Teacher.t) :
  let dragData := active_data (active event) in
  let dropData := over_data target in
  let moved := drag_assignment dragData in
  let relabelled := withCourseName moved (drop_courseName dropData) in
  let before := visibleTeachers teachers collapsedDivisions in
  let after := visibleTeachers (teachersAfterDrag teachers event) collapsedDivisions in
  NoDup (List.map Teacher.id teachers) ->
  loadsWithinSafeRange teachers ->
  over event = Some target ->
  active_id (active event) <> over_id target ->
  findTeacher teachers (drag_teacherId dragData) = Some sourceTeacher ->
  findTeacher teachers (drop_teacherId dropData) = Some targetTeacher ->
  drag_courseGroup dragData = drop_courseGroup dropData ->
  ~ (drag_teacherId dragData = drop_teacherId dropData
     /\ Assignment.courseName moved = drop_courseName dropData) ->
  includes collapsedDivisions (Teacher.division sourceTeacher) = false ->
  includes collapsedDivisions (Teacher.division targetTeacher) = false ->
  drag_courseGroup dragData = Assignment.courseGroup moved ->
  sharingCourse moved (Teacher.assignments sourceTeacher) = [moved] ->
  (forall a, a ∈ Teacher.assignments sourceTeacher ->
             inCell (Assignment.courseName moved) (Assignment.courseGroup moved) a = true ->
             a = moved) ->
  shownIn (drop_courseName dropData) (drop_courseGroup dropData)
          (Teacher.assignments targetTeacher) = None ->
  (forall group columnId,
     let courseName := parseCourseNameFromColumnId columnId (CourseGroup.id group) in
     let groupId := CourseGroup.id group in
     loadSum after group columnId
     = loadSum before group columnId
       - (if inCell courseName groupId moved then Assignment.load moved else 0)
       + (if inCell courseName groupId relabelled then Assignment.load moved else 0))
  /\ (Assignment.courseName moved = drop_courseName dropData ->
      (forall group columnId, loadSum after group columnId = loadSum before group columnId)
      /\ forall courseGroups collapsedCourseGroups,
           CourseTotals.load
             <$> SummaryTotals.courseTotals
                   (useSummaryCalculations after courseGroups collapsedCourseGroups)
           = CourseTotals.load
               <$> SummaryTotals.courseTotals
                     (useSummaryCalculations before courseGroups collapsedCourseGroups))
  /\ (List.length (Teacher.assignments sourceTeacher) = 1%nat ->
      Teacher.assignments targetTeacher = [] ->
      drag_teacherId dragData <> drop_teacherId dropData ->
      (fun t => List.length (Teacher.assignments t))
        <$> findTeacher (teachersAfterDrag teachers event) (Teacher.id sourceTeacher)
      = Some 0%nat
      /\ (fun t => List.length (Teacher.assignments t))
           <$> findTeacher (teachersAfterDrag teachers event) (Teacher.id targetTeacher)
         = Some 1%nat)
  /\ (forall group columnId (k : nat),
        0 <= loadSum (firstn k before) group columnId <= MAX_SAFE_INTEGER
        /\ 0 <= loadSum (firstn k after) group columnId <= MAX_SAFE_INTEGER).
Proof.
  intros dragData dropData moved relabelled before after
         Hnd Hsafe Hover Hids Hsrc Htgt Hgroup Hcell HsrcVis HtgtVis Hwf Hcourse Honly Hfree.
  destruct (findTeacher_some _ _ _ Hsrc) as [HsrcIn HsrcId].
  destruct (findTeacher_some _ _ _ Htgt) as [HtgtIn HtgtId].
  assert (HsrcB : sourceTeacher ∈ before)
    by (apply elem_of_visibleTeachers; split; [assumption | by apply includes_false]).
  assert (HtgtB : targetTeacher ∈ before)
    by (apply elem_of_visibleTeachers; split; [assumption | by apply includes_false]).
  assert (HndB : NoDup (List.map Teacher.id before)) by (by apply NoDup_map_filter).
  assert (Hfree' : forall a, a ∈ Teacher.assignments targetTeacher ->
                             inCell (drop_courseName dropData)
                                    (Assignment.courseGroup moved) a = false).
  { intros a Ha. unfold shownIn in Hfree. rewrite find_none in Hfree.
    rewrite <- Hwf, Hgroup. by apply Hfree. }
  assert (Hsum : forall group columnId,
             loadSum after group columnId
             = loadSum before group columnId
               - (if inCell (parseCourseNameFromColumnId columnId (CourseGroup.id group))
                            (CourseGroup.id group) moved
                  then Assignment.load moved else 0)
               + (if inCell (parseCourseNameFromColumnId columnId (CourseGroup.id group))
                            (CourseGroup.id group) relabelled
                  then Assignment.load moved else 0)).
  { intros group columnId.
    set (courseName := parseCourseNameFromColumnId columnId (CourseGroup.id group)).
    set (groupId := CourseGroup.id group).
    set (out := if inCell courseName groupId moved then Assignment.load moved else 0).
    set (inn := if inCell courseName groupId relabelled then Assignment.load moved else 0).
    subst after. unfold teachersAfterDrag.
    destruct (decide (drag_teacherId dragData = drop_teacherId dropData)) as [Hsame|Hother].
    - assert (targetTeacher = sourceTeacher) as ->.
      { fold dragData dropData in Hsrc, Htgt. rewrite Hsame in Hsrc. congruence. }
      rewrite (handleDragEnd_same_teacher teachers event target sourceTeacher sourceTeacher)
        by assumption.
      rewrite handleAssignmentUpdate_one.
      rewrite visibleTeachers_map by (intros t; by destruct (bool_decide _)).
      fold before. rewrite loadSum_map, (loadSum_shown before). fold courseName groupId.
      rewrite (sum_two_changes before sourceTeacher sourceTeacher
                 (fun t => shownLoad courseName groupId (Teacher.assignments t)) _
                 (inn - out) 0 HndB HsrcB HsrcB); [lia|].
      intros t Ht. destruct (decide (Teacher.id t = Teacher.id sourceTeacher)) as [Hid|Hid].
      + rewrite (unique_by_id before t sourceTeacher HndB Ht HsrcB Hid).
        rewrite !bool_decide_eq_true_2 by reflexivity. simpl.
        fold dragData dropData moved.
        rewrite shownLoad_append.
        * rewrite shownLoad_withoutCourse by assumption. fold relabelled. subst out inn. lia.
        * intros a Ha. apply elem_of_withoutCourse in Ha as [Ha _]. by apply Hfree'.
      + rewrite !bool_decide_eq_false_2 by assumption. lia.
    - assert (HidNe : Teacher.id sourceTeacher <> Teacher.id targetTeacher)
        by (fold dragData dropData in HsrcId, HtgtId; congruence).
      rewrite (handleDragEnd_other_teacher teachers event target sourceTeacher targetTeacher)
        by assumption.
      rewrite handleAssignmentUpdate_two by assumption.
      rewrite visibleTeachers_map
        by (intros t; destruct (bool_decide _); [reflexivity | by destruct (bool_decide _)]).
      fold before. rewrite loadSum_map, (loadSum_shown before). fold courseName groupId.
      rewrite (sum_two_changes before sourceTeacher targetTeacher
                 (fun t => shownLoad courseName groupId (Teacher.assignments t)) _
                 (- out) inn HndB HsrcB HtgtB); [lia|].
      intros t Ht. destruct (decide (Teacher.id t = Teacher.id sourceTeacher)) as [Hid|Hid].
      + rewrite (unique_by_id before t sourceTeacher HndB Ht HsrcB Hid).
        rewrite bool_decide_eq_true_2 by reflexivity.
        rewrite (bool_decide_eq_false_2 (Teacher.id sourceTeacher = Teacher.id targetTeacher))
          by assumption.
        simpl. fold dragData moved.
        rewrite shownLoad_withoutCourse by assumption. subst out. lia.
      + rewrite (bool_decide_eq_false_2 _ Hid).
        destruct (decide (Teacher.id t = Teacher.id targetTeacher)) as [Hid'|Hid'].
        * rewrite (unique_by_id before t targetTeacher HndB Ht HtgtB Hid').
          rewrite bool_decide_eq_true_2 by reflexivity. simpl.
          fold dragData dropData moved.
          rewrite shownLoad_append by assumption. fold relabelled. subst inn. lia.
        * rewrite (bool_decide_eq_false_2 _ Hid'). lia. }
  split; [exact Hsum|]. split; [|split].
  - intros Hname.
    assert (Hkeep : forall group columnId,
               loadSum after group columnId = loadSum before group columnId).
    { intros group columnId. rewrite Hsum. subst relabelled. rewrite <- Hname.
      rewrite withCourseName_same. lia. }
    split; [exact Hkeep|]. intros courseGroups collapsedCourseGroups.
    by apply courseTotals_load_ext.
  - intros Hone Hempty Hother.
    assert (HidNe : Teacher.id sourceTeacher <> Teacher.id targetTeacher)
      by (fold dragData dropData in HsrcId, HtgtId; congruence).
    unfold teachersAfterDrag.
    rewrite (handleDragEnd_other_teacher teachers event target sourceTeacher targetTeacher)
      by assumption.
    rewrite handleAssignmentUpdate_two by assumption.
    rewrite !findTeacher_map
      by (intros t; destruct (bool_decide _); [reflexivity | by destruct (bool_decide _)]).
    fold dragData dropData in HsrcId, HtgtId.
    rewrite HsrcId, HtgtId. fold dragData dropData. rewrite Hsrc, Htgt. simpl.
    rewrite <- HsrcId.
    rewrite bool_decide_eq_true_2 by reflexivity.
    rewrite <- HtgtId.
    rewrite (bool_decide_eq_false_2 (Teacher.id targetTeacher = Teacher.id sourceTeacher))
      by congruence.
    rewrite bool_decide_eq_true_2 by reflexivity. simpl.
    pose proof (withoutCourse_length moved (Teacher.assignments sourceTeacher)) as Hlen.
    rewrite Hcourse, Hone in Hlen. simpl in Hlen.
    rewrite Hempty. simpl. fold dragData moved. split; f_equal. lia.
  - intros group columnId k. split.
    + apply (loadSum_within_safe_range teachers); [exact Hsafe|].
      transitivity before; [apply sublist_take | apply visibleTeachers_sublist].
    + destruct (drag_keeps_loads_within_safe_range teachers event target
                  sourceTeacher targetTeacher
                  Hnd Hover Hids Hsrc Htgt Hgroup Hcell Hcourse Hsafe) as [HsafeAfter _].
      apply (loadSum_within_safe_range (teachersAfterDrag teachers event));
        [exact HsafeAfter|].
      transitivity after; [apply sublist_take | apply visibleTeachers_sublist].
Qed.

Lemma relocation_redistributes_load_witness :
  loadSum (visibleTeachers (teachersAfterDrag Scenario.pair Scenario.sameColumnDrop) [])
          Scenario.ccw6 "CCW6_A"
  = loadSum (visibleTeachers Scenario.pair []) Scenario.ccw6 "CCW6_A"
  /\ (fun t => List.length (Teacher.assignments t))
       <$> findTeacher (teachersAfterDrag Scenario.pair Scenario.sameColumnDrop) "A"
     = Some 0%nat
  /\ (fun t => List.length (Teacher.assignments t))
       <$> findTeacher (teachersAfterDrag Scenario.pair Scenario.sameColumnDrop) "B"
     = Some 1%nat.
Proof.
  destruct (relocation_redistributes_load Scenario.pair [] Scenario.sameColumnDrop
              {| over_id := "drop-B-CCW6-A";
                 over_data := {| drop_teacherId := "B";
                                 drop_courseGroup := "CCW6";
                                 drop_courseName := "A" |} |}
              Scenario.teacherA Scenario.teacherB)
    as (_ & Hkeep & Hcount & _).
  - repeat constructor; vm_compute; intros Hin; inversion Hin as [|? ? ? Hin']; subst;
      inversion Hin'.
  - split; [repeat constructor|]; vm_compute; discriminate.
  - reflexivity.
  - vm_compute. discriminate.
  - reflexivity.
  - reflexivity.
  - reflexivity.
  - vm_compute. intros [Hteacher _]. discriminate.
  - reflexivity.
  - reflexivity.
  - reflexivity.
  - reflexivity.
  - intros a Ha _. apply list_elem_of_singleton in Ha. exact Ha.
  - reflexivity.
  - destruct Hkeep as [Hkeep _]; [reflexivity|].
    destruct Hcount as [Hsrc Htgt]; [reflexivity | reflexivity | vm_compute; discriminate|].
    split; [apply Hkeep|]. split; [exact Hsrc | exact Htgt].
Defined.

(** ** C6: relabelling within one row *)

(** When the dragged assignment is the only one of its course in the row, a
    drop on another cell of the same row returns the row's other
    assignments, in their order, followed by the relabelled copy, and the
    consumed load of the row is unchanged. *)
Lemma same_teacher_drop_keeps_load (teacher : Teacher.t) (moved : Assignment.t)
    (dropName : string) :
  sharingCourse moved (Teacher.assignments teacher) = [moved] ->
  let updated := withoutCourse moved (Teacher.assignments teacher)
                 ++ [withCourseName moved dropName] in
  List.length updated = List.length (Teacher.assignments teacher)
  /\ consumedLoad (withAssignments teacher updated) = consumedLoad teacher.
Proof.
  intros Hsingle updated. subst updated. split.
  - pose proof (withoutCourse_length moved (Teacher.assignments teacher)) as Hlen.
    rewrite Hsingle in Hlen. rewrite length_app. simpl in *. lia.
  - unfold consumedLoad, calculateTeacherMetrics. simpl.
    rewrite List.filter_app, !fold_left_add, List.map_app, sumZ_app.
    revert Hsingle. unfold sharingCourse, withoutCourse.
    induction (Teacher.assignments teacher) as [|a l IH]; simpl; [discriminate|].
    destruct (bool_decide (Assignment.courseId a = Assignment.courseId moved)) eqn:Hid; simpl.
    + intros [= -> Hrest].
      assert (Hl : List.filter
                     (fun a => negb (bool_decide (Assignment.courseId a
                                                  = Assignment.courseId moved))) l = l).
      { clear IH Hid. induction l as [|b l IHl]; simpl in *; [reflexivity|].
        destruct (bool_decide (Assignment.courseId b = Assignment.courseId moved));
          [discriminate|]. simpl. f_equal. by apply IHl. }
      rewrite Hl. destruct (Assignment.isCPT moved); simpl; lia.
    + intros Hrest. specialize (IH Hrest).
      destruct (Assignment.isCPT a); simpl in *; lia.
Qed.

(** C6.  Teacher D holds the course ["CCW6_A"] twice (loads 3 and 4).  The
    assignment shown in column A is released over D's own cell of column B:
    the drop is accepted as a relabelling within the row, yet the returned
    list holds the relabelled copy alone; the other assignment of the course
    has been removed with it, and the consumed load of the row falls from 7
    to 3. *)
Theorem same_teacher_drop_loses_shared_course :
  dropEvent (renderCell Scenario.teacherD Scenario.ccw6 "CCW6_A")
            (renderCell Scenario.teacherD Scenario.ccw6 "CCW6_B")
  = Some Scenario.relabelDrop
  /\ handleDragEnd [Scenario.teacherD] Scenario.relabelDrop
     = OnAssignmentUpdate "D" [Scenario.assignment "CCW6_A" "B" "CCW6" 3] None
  /\ List.length (Teacher.assignments Scenario.teacherD) = 2%nat
  /\ consumedLoad Scenario.teacherD = 7
  /\ consumedLoad
       <$> findTeacher (teachersAfterDrag [Scenario.teacherD] Scenario.relabelDrop) "D"
     = Some 3.
Proof. repeat split; vm_compute; reflexivity. Qed.

(** * Further properties of the code *)

(** ** The collapse toggles *)

Lemma includes_filter_ne {A} `{EqDecision A} (l : list A) (d x : A) :
  includes (List.filter (fun y => negb (bool_decide (y = d))) l) x
  = if bool_decide (x = d) then false else includes l x.
Proof.
  unfold includes. induction l as [|y l IH]; simpl.
  - by destruct (bool_decide (x = d)).
  - destruct (decide (y = d)) as [->|Hyd].
    + rewrite bool_decide_eq_true_2 by reflexivity. simpl. rewrite IH.
      destruct (decide (x = d)) as [->|Hxd].
      * by rewrite !bool_decide_eq_true_2.
      * rewrite (bool_decide_eq_false_2 (x = d)) by assumption.
        by rewrite (bool_decide_eq_false_2 (d = x)) by congruence.
    + rewrite (bool_decide_eq_false_2 (y = d)) by assumption. simpl. rewrite IH.
      destruct (decide (x = d)) as [->|Hxd].
      * rewrite (bool_decide_eq_true_2 (d = d)) by reflexivity.
        by rewrite (bool_decide_eq_false_2 (y = d)) by assumption.
      * by rewrite (bool_decide_eq_false_2 (x = d)) by assumption.
Qed.

Lemma includes_snoc {A} `{EqDecision A} (l : list A) (d x : A) :
  includes (l ++ [d]) x = includes l x || bool_decide (x = d).
Proof.
  rewrite includes_app. f_equal. unfold includes. simpl. rewrite orb_false_r.
  destruct (decide (d = x)) as [->|Hne].
  - by rewrite !bool_decide_eq_true_2.
  - rewrite bool_decide_eq_false_2 by assumption.
    by rewrite bool_decide_eq_false_2 by congruence.
Qed.

(** Membership after a toggle of a list of collapsed items. *)
Lemma includes_toggled {A} `{EqDecision A} (l : list A) (d x : A) :
  includes (if includes l d
            then List.filter (fun y => negb (bool_decide (y = d))) l
            else l ++ [d]) x
  = if bool_decide (x = d) then negb (includes l d) else includes l x.
Proof.
  destruct (includes l d) eqn:Hd.
  - rewrite includes_filter_ne. by destruct (bool_decide (x = d)).
  - rewrite includes_snoc. destruct (decide (x = d)) as [->|Hne].
    + rewrite bool_decide_eq_true_2 by reflexivity. by rewrite Hd.
    + rewrite bool_decide_eq_false_2 by assumption. apply orb_false_r.
Qed.

Lemma NoDup_toggled {A} `{EqDecision A} (l : list A) (d : A) :
  NoDup l ->
  NoDup (if includes l d
         then List.filter (fun y => negb (bool_decide (y = d))) l
         else l ++ [d]).
Proof.
  intros Hnd. destruct (includes l d) eqn:Hd.
  - clear Hd. induction Hnd as [|y l Hy Hnd IH]; simpl; [constructor|].
    destruct (negb (bool_decide (y = d))); [|exact IH].
    constructor; [|exact IH]. intros Hin. apply Hy.
    apply list_elem_of_In in Hin. apply filter_In in Hin as [Hin _].
    by apply list_elem_of_In.
  - apply includes_false in Hd. apply NoDup_app. split; [assumption|].
    split; [|apply NoDup_singleton].
    intros x Hx Hx'. apply list_elem_of_singleton in Hx'. by subst.
Qed.

(** X1.  Toggling a division flips whether that division is collapsed and
    changes nothing else: every other division is collapsed after the toggle
    exactly when it was before, the collapsed course groups, the sort column
    and the threshold are kept, and the visible rows afterwards are the rows
    of the toggled division if it was collapsed, together with the rows of
    the other divisions that were visible, in their order. *)
Theorem toggleDivision_flips_one (now : string) (division : Division)
    (state : PersistedSchedulerState.t) (teachers : list Teacher.t) :
  let toggled := toggleDivision now division state in
  let collapsed := PersistedSchedulerState.collapsedDivisions state in
  (forall d, includes (PersistedSchedulerState.collapsedDivisions toggled) d
             = if bool_decide (d = division) then negb (includes collapsed division)
               else includes collapsed d)
  /\ PersistedSchedulerState.collapsedCourseGroups toggled
     = PersistedSchedulerState.collapsedCourseGroups state
  /\ PersistedSchedulerState.sortBy toggled = PersistedSchedulerState.sortBy state
  /\ PersistedSchedulerState.prepsThreshold toggled
     = PersistedSchedulerState.prepsThreshold state
  /\ visibleTeachers teachers (PersistedSchedulerState.collapsedDivisions toggled)
     = List.filter (fun t => if bool_decide (Teacher.division t = division)
                             then includes collapsed division
                             else negb (includes collapsed (Teacher.division t)))
                   teachers.
Proof.
  intros toggled collapsed.
  assert (Hmem : forall d, includes (PersistedSchedulerState.collapsedDivisions toggled) d
                           = if bool_decide (d = division)
                             then negb (includes collapsed division)
                             else includes collapsed d)
    by (intros d; apply includes_toggled).
  split; [exact Hmem|]. repeat (split; [reflexivity|]).
  unfold visibleTeachers. apply List.filter_ext. intros t. rewrite Hmem.
  destruct (bool_decide (Teacher.division t = division)); [apply negb_involutive | reflexivity].
Qed.

(** X2.  Toggling a course group flips whether that group is collapsed and
    changes nothing else; the course columns of the grid afterwards are the
    columns of the groups with the toggled identifier if it was collapsed,
    together with the columns of the other groups that were visible, in their
    order. *)
Theorem toggleCourseGroup_flips_one (now groupId : string)
    (state : PersistedSchedulerState.t) (courseGroups : list CourseGroup.t) :
  let toggled := toggleCourseGroup now groupId state in
  let collapsed := PersistedSchedulerState.collapsedCourseGroups state in
  (forall g, includes (PersistedSchedulerState.collapsedCourseGroups toggled) g
             = if bool_decide (g = groupId) then negb (includes collapsed groupId)
               else includes collapsed g)
  /\ PersistedSchedulerState.collapsedDivisions toggled
     = PersistedSchedulerState.collapsedDivisions state
  /\ PersistedSchedulerState.sortBy toggled = PersistedSchedulerState.sortBy state
  /\ PersistedSchedulerState.prepsThreshold toggled
     = PersistedSchedulerState.prepsThreshold state
  /\ courseColumns courseGroups (PersistedSchedulerState.collapsedCourseGroups toggled)
     = flat_map (fun group => List.map (courseColumn group) (columnList group))
         (List.filter (fun group => if bool_decide (CourseGroup.id group = groupId)
                                    then includes collapsed groupId
                                    else negb (includes collapsed (CourseGroup.id group)))
                      courseGroups).
Proof.
  intros toggled collapsed.
  assert (Hmem : forall g, includes (PersistedSchedulerState.collapsedCourseGroups toggled) g
                           = if bool_decide (g = groupId)
                             then negb (includes collapsed groupId)
                             else includes collapsed g)
    by (intros g; apply includes_toggled).
  split; [exact Hmem|]. repeat (split; [reflexivity|]).
  unfold courseColumns. f_equal. apply List.filter_ext. intros g. rewrite Hmem.
  destruct (bool_decide (CourseGroup.id g = groupId)); [apply negb_involutive | reflexivity].
Qed.

(** X3.  The toggles never introduce a duplicate: if the persisted lists of
    collapsed divisions and collapsed course groups hold no item twice, they
    still hold no item twice after a toggle of a division or of a course
    group. *)
Theorem toggles_keep_lists_duplicate_free (now groupId : string) (division : Division)
    (state : PersistedSchedulerState.t) :
  NoDup (PersistedSchedulerState.collapsedDivisions state) ->
  NoDup (PersistedSchedulerState.collapsedCourseGroups state) ->
  NoDup (PersistedSchedulerState.collapsedDivisions (toggleDivision now division state))
  /\ NoDup (PersistedSchedulerState.collapsedCourseGroups (toggleDivision now division state))
  /\ NoDup (PersistedSchedulerState.collapsedDivisions (toggleCourseGroup now groupId state))
  /\ NoDup (PersistedSchedulerState.collapsedCourseGroups
              (toggleCourseGroup now groupId state)).
Proof.
  intros Hdiv Hgroups. repeat split; simpl; try assumption; by apply NoDup_toggled.
Qed.

Lemma toggles_keep_lists_duplicate_free_witness :
  NoDup (PersistedSchedulerState.collapsedDivisions
           (toggleDivision "2025-01-01T00:00:01.000Z" HS Scenario.viewState))
  /\ NoDup (PersistedSchedulerState.collapsedCourseGroups
              (toggleCourseGroup "2025-01-01T00:00:01.000Z" "CCW6" Scenario.viewState)).
Proof.
  destruct (toggles_keep_lists_duplicate_free "2025-01-01T00:00:01.000Z" "CCW6" HS
              Scenario.viewState) as (Hd & _ & _ & Hg).
  - simpl. apply NoDup_singleton.
  - simpl. apply NoDup_nil_2.
  - split; [exact Hd | exact Hg].
Defined.

(** ** Teacher metrics and the page data *)

Lemma consumedLoad_sum (teacher : Teacher.t) :
  consumedLoad teacher
  = sumZ (List.map Assignment.load
            (List.filter (fun a => negb (Assignment.isCPT a)) (Teacher.assignments teacher))).
Proof. unfold consumedLoad, calculateTeacherMetrics. simpl. rewrite fold_left_add. lia. Qed.

Lemma enhance_enhance (teacher : Teacher.t) :
  enhanceTeacherWithMetrics (enhanceTeacherWithMetrics teacher)
  = enhanceTeacherWithMetrics teacher.
Proof. reflexivity. Qed.

Lemma Forall_enhanced_map (f : Teacher.t -> Teacher.t) (l : list Teacher.t) :
  Forall (fun t => enhanceTeacherWithMetrics t = t) l ->
  (forall t, enhanceTeacherWithMetrics t = t ->
             enhanceTeacherWithMetrics (f t) = f t) ->
  Forall (fun t => enhanceTeacherWithMetrics t = t) (List.map f l).
Proof.
  intros Hall Hf. induction Hall as [|t l Ht _ IH]; simpl; constructor; auto.
Qed.

Lemma Forall_enhanced_filter (p : Teacher.t -> bool) (l : list Teacher.t) :
  Forall (fun t => enhanceTeacherWithMetrics t = t) l ->
  Forall (fun t => enhanceTeacherWithMetrics t = t) (List.filter p l).
Proof.
  intros Hall. induction Hall as [|t l Ht _ IH]; simpl; [constructor|].
  destruct (p t); [constructor|]; assumption.
Qed.

Lemma Forall_enhanced_firstn (n : nat) (l : list Teacher.t) :
  Forall (fun t => enhanceTeacherWithMetrics t = t) l ->
  Forall (fun t => enhanceTeacherWithMetrics t = t) (firstn n l).
Proof.
  intros Hall. revert n. induction Hall as [|t l Ht _ IH]; intros [|n]; simpl;
    constructor; auto.
Qed.

(** X4.  The page data only ever holds teachers whose stored metrics agree
    with their assignments.  Such a teacher is one that
    [enhanceTeacherWithMetrics] leaves unchanged; its stored available
    periods are its capacity minus the load of its assignments that are not
    common planning time, and its stored preps are the number of its
    assignments.  The list loaded from the API has this property, and
    creating, updating or deleting a teacher, applying an assignment update,
    and ending a drag all keep it. *)
Theorem page_teachers_stay_enhanced (fetched prev : list Teacher.t)
    (newTeacher editingTeacher updated deletingTeacher : Teacher.t)
    (teacherId : string) (assignments : list Assignment.t)
    (additionalUpdates : option (list (string * list Assignment.t)))
    (event : DragEndEvent) :
  let enhanced := fun t => enhanceTeacherWithMetrics t = t in
  (forall t, enhanced t ->
     Teacher.availablePeriods t = Some (Teacher.maxLoad t - consumedLoad t)
     /\ Teacher.totalLoad t = Some (consumedLoad t)
     /\ Teacher.preps t = Z.of_nat (List.length (Teacher.assignments t)))
  /\ Forall enhanced (fetchSchedulerData fetched)
  /\ (Forall enhanced prev ->
      Forall enhanced (handleCreateTeacher newTeacher prev)
      /\ Forall enhanced (handleUpdateTeacher editingTeacher updated prev)
      /\ Forall enhanced (handleDeleteTeacher deletingTeacher prev)
      /\ Forall enhanced (handleAssignmentUpdate prev teacherId assignments additionalUpdates)
      /\ Forall enhanced (teachersAfterDrag prev event)).
Proof.
  intros enhanced. split; [|split].
  - intros t Ht. unfold enhanced in Ht. split; [|split]; rewrite <- Ht; reflexivity.
  - unfold fetchSchedulerData. apply Forall_enhanced_firstn.
    induction fetched as [|t l IH]; simpl; constructor; [reflexivity | exact IH].
  - intros Hprev.
    assert (Hupdate : forall teacherId assignments additionalUpdates,
               Forall enhanced
                 (handleAssignmentUpdate prev teacherId assignments additionalUpdates)).
    { intros tid asg add. unfold handleAssignmentUpdate.
      apply Forall_enhanced_map; [exact Hprev|].
      intros t Ht. by destruct (_ !! Teacher.id t). }
    split; [|split; [|split; [|split]]].
    + constructor; [reflexivity | exact Hprev].
    + apply Forall_enhanced_map; [exact Hprev|].
      intros t Ht. by destruct (bool_decide _).
    + by apply Forall_enhanced_filter.
    + apply Hupdate.
    + unfold teachersAfterDrag. destruct (handleDragEnd prev event); [assumption..|].
      apply Hupdate.
Qed.

Lemma page_teachers_stay_enhanced_witness :
  Forall (fun t => enhanceTeacherWithMetrics t = t)
         (teachersAfterDrag Scenario.pair Scenario.sameColumnDrop).
Proof.
  destruct (page_teachers_stay_enhanced [] Scenario.pair Scenario.teacherA Scenario.teacherA
              Scenario.teacherA Scenario.teacherA "A" [] None Scenario.sameColumnDrop)
    as (_ & _ & Hkeep).
  destruct Hkeep as (_ & _ & _ & _ & Hdrag); [|exact Hdrag].
  repeat constructor.
Defined.

(** X5.  [canTakeMoreLoad] answers yes exactly when the additional load fits
    in the remaining capacity; after a yes, appending an assignment of that
    load that is not common planning time leaves a remaining capacity that
    is not negative, and appending a common planning time assignment never
    changes the remaining capacity. *)
Theorem canTakeMoreLoad_fits (teacher : Teacher.t) (additionalLoad : Z)
    (added : Assignment.t) :
  (canTakeMoreLoad teacher additionalLoad = true <->
   additionalLoad <= remainingCapacity teacher)
  /\ (Assignment.isCPT added = false ->
      canTakeMoreLoad teacher (Assignment.load added) = true ->
      0 <= remainingCapacity
             (withAssignments teacher (Teacher.assignments teacher ++ [added])))
  /\ (Assignment.isCPT added = true ->
      remainingCapacity (withAssignments teacher (Teacher.assignments teacher ++ [added]))
      = remainingCapacity teacher).
Proof.
  assert (Hrem : forall t, remainingCapacity t = Teacher.maxLoad t - consumedLoad t)
    by reflexivity.
  assert (Hcan : forall a, canTakeMoreLoad teacher a = true <->
                           a <= remainingCapacity teacher).
  { intros a. unfold canTakeMoreLoad. rewrite Z.leb_le, Hrem.
    unfold consumedLoad. lia. }
  assert (Happ : consumedLoad (withAssignments teacher (Teacher.assignments teacher ++ [added]))
                 = consumedLoad teacher
                   + (if Assignment.isCPT added then 0 else Assignment.load added)).
  { unfold consumedLoad. rewrite consumedLoad_app. simpl.
    destruct (Assignment.isCPT added); simpl; lia. }
  split; [apply Hcan|]. split.
  - intros Hcpt Hfits. apply Hcan in Hfits. rewrite Hrem, Happ, Hcpt.
    rewrite Hrem in Hfits. simpl. lia.
  - intros Hcpt. rewrite !Hrem, Happ, Hcpt. simpl. lia.
Qed.

Lemma canTakeMoreLoad_fits_witness :
  canTakeMoreLoad Scenario.teacherB 4 = true
  /\ 0 <= remainingCapacity
            (withAssignments Scenario.teacherB
               [Scenario.assignment "CCW6_B" "B" "CCW6" 4]).
Proof.
  destruct (canTakeMoreLoad_fits Scenario.teacherB 4
              (Scenario.assignment "CCW6_B" "B" "CCW6" 4)) as (Hiff & Hfit & _).
  split; [apply Hiff; vm_compute; discriminate|].
  apply Hfit; reflexivity.
Defined.


(** ** Grouping and group totals *)

Lemma mapGet_mapSet {V} (m : list (string * V)) (key key' : string) (value : V) :
  mapGet (mapSet m key value) key'
  = if bool_decide (key' = key) then Some value else mapGet m key'.
Proof.
  unfold mapGet. induction m as [|[k v] m IH]; simpl.
  - destruct (decide (key' = key)) as [->|Hne].
    + by rewrite !bool_decide_eq_true_2.
    + rewrite (bool_decide_eq_false_2 (key = key')) by congruence.
      by rewrite (bool_decide_eq_false_2 (key' = key)).
  - destruct (decide (k = key)) as [->|Hk].
    + rewrite (bool_decide_eq_true_2 (key = key)) by reflexivity. simpl.
      destruct (decide (key' = key)) as [->|Hne].
      * by rewrite !bool_decide_eq_true_2.
      * rewrite (bool_decide_eq_false_2 (key = key')) by congruence.
        by rewrite (bool_decide_eq_false_2 (key' = key)).
    + rewrite (bool_decide_eq_false_2 (k = key)) by assumption. simpl.
      destruct (decide (k = key')) as [->|Hk'].
      * rewrite (bool_decide_eq_true_2 (key' = key')) by reflexivity.
        by rewrite (bool_decide_eq_false_2 (key' = key)).
      * rewrite (bool_decide_eq_false_2 (k = key')) by assumption. exact IH.
Qed.

Lemma mapGet_none_keys {V} (m : list (string * V)) (key : string) :
  mapGet m key = None <-> key ∉ List.map fst m.
Proof.
  unfold mapGet. induction m as [|[k v] m IH]; simpl.
  - split; [intros _ Hin; inversion Hin | reflexivity].
  - rewrite not_elem_of_cons. destruct (decide (k = key)) as [->|Hk].
    + rewrite bool_decide_eq_true_2 by reflexivity. simpl.
      split; [discriminate | intros [Hne _]; congruence].
    + rewrite bool_decide_eq_false_2 by assumption. rewrite IH.
      split; [intros Hm; split; [congruence | assumption] | intros [_ Hm]; assumption].
Qed.

Lemma mapSet_keys {V} (m : list (string * V)) (key : string) (value : V) :
  List.map fst (mapSet m key value)
  = match mapGet m key with
    | Some _ => List.map fst m
    | None => List.map fst m ++ [key]
    end.
Proof.
  unfold mapGet. induction m as [|[k v] m IH]; simpl; [reflexivity|].
  destruct (decide (k = key)) as [->|Hk].
  - by rewrite bool_decide_eq_true_2.
  - rewrite bool_decide_eq_false_2 by assumption. simpl. rewrite IH.
    by destruct (find _ m).
Qed.

Lemma grouping_invariant (l done : list Assignment.t)
    (grouped : list (string * list Assignment.t)) :
  (forall g, mapGet grouped g = groupEntry g done) ->
  NoDup (List.map fst grouped) ->
  let result :=
    fold_left
      (fun grouped assignment =>
         let existing :=
           match mapGet grouped (Assignment.courseGroup assignment) with
           | Some l => l
           | None => []
           end in
         mapSet grouped (Assignment.courseGroup assignment) (existing ++ [assignment]))
      l grouped in
  (forall g, mapGet result g = groupEntry g (done ++ l))
  /\ NoDup (List.map fst result).
Proof.
  revert done grouped. induction l as [|a l IH]; intros done grouped Hget Hnd; simpl.
  - rewrite app_nil_r. by split.
  - replace (done ++ a :: l) with ((done ++ [a]) ++ l) by (by rewrite <- app_assoc).
    apply IH.
    + intros g. rewrite mapGet_mapSet, Hget. unfold groupEntry.
      rewrite List.filter_app. simpl.
      destruct (decide (g = Assignment.courseGroup a)) as [->|Hne].
      * rewrite !bool_decide_eq_true_2 by reflexivity.
        destruct (List.filter _ done); reflexivity.
      * rewrite (bool_decide_eq_false_2 (g = _)) by assumption.
        rewrite (bool_decide_eq_false_2 (_ = g)) by congruence.
        by rewrite app_nil_r.
    + rewrite mapSet_keys.
      destruct (mapGet grouped (Assignment.courseGroup a)) eqn:Hk; [assumption|].
      apply mapGet_none_keys in Hk. apply NoDup_app. split; [assumption|].
      split; [|apply NoDup_singleton].
      intros x Hx Hx'. apply list_elem_of_singleton in Hx'. by subst.
Qed.

(** X7.  Grouping the assignments of a teacher by course group loses and
    invents nothing: under the key of a group the map holds exactly the
    assignments of that group, in their original order; it has no entry for
    a group without assignment; and no key occurs twice. *)
Theorem getAssignmentsByCourseGroup_lookup (assignments : list Assignment.t)
    (courseGroup : string) :
  mapGet (getAssignmentsByCourseGroup assignments) courseGroup
  = match List.filter (fun a => bool_decide (Assignment.courseGroup a = courseGroup))
                      assignments with
    | [] => None
    | found => Some found
    end
  /\ NoDup (List.map fst (getAssignmentsByCourseGroup assignments)).
Proof.
  destruct (grouping_invariant assignments [] []) as [Hget Hnd].
  - intros g. reflexivity.
  - constructor.
  - split; [apply Hget | exact Hnd].
Qed.

Lemma shown_le_group {A} (p q : A -> bool) (f : A -> Z) (l : list A) :
  (forall a, a ∈ l -> 0 <= f a) ->
  (forall a, p a = true -> q a = true) ->
  match find p l with Some a => f a | None => 0 end
  <= sumZ (List.map f (List.filter q l)).
Proof.
  intros Hpos Hpq.
  assert (Hnonneg : forall l', (forall a, a ∈ l' -> 0 <= f a) ->
                               0 <= sumZ (List.map f (List.filter q l'))).
  { induction l' as [|a l' IH']; intros Hall; simpl; [lia|].
    assert (0 <= sumZ (List.map f (List.filter q l')))
      by (apply IH'; intros b Hb; apply Hall; by right).
    destruct (q a); simpl; [|assumption].
    assert (0 <= f a) by (apply Hall; left). lia. }
  induction l as [|a l IH]; simpl; [lia|].
  assert (Htail : forall b, b ∈ l -> 0 <= f b) by (intros b Hb; apply Hpos; by right).
  destruct (p a) eqn:Hp.
  - rewrite (Hpq a Hp). simpl. specialize (Hnonneg l Htail). lia.
  - specialize (IH Htail). destruct (q a); simpl; [|assumption].
    assert (0 <= f a) by (apply Hpos; left). lia.
Qed.

Lemma calculateCourseGroupLoad_sum teachers courseGroup :
  calculateCourseGroupLoad teachers courseGroup
  = sumZ (List.map
            (fun t => sumZ (List.map Assignment.load
                              (List.filter
                                 (fun a => bool_decide (Assignment.courseGroup a = courseGroup))
                                 (Teacher.assignments t))))
            teachers).
Proof.
  unfold calculateCourseGroupLoad.
  rewrite (fold_left_add
             (fun t => fold_left (fun sum a => sum + Assignment.load a)
                         (List.filter
                            (fun a => bool_decide (Assignment.courseGroup a = courseGroup))
                            (Teacher.assignments t)) 0)).
  simpl. apply sumZ_map_ext. intros t _. rewrite fold_left_add. lia.
Qed.

Lemma calculateCourseGroupTotal_sum teachers courseGroup :
  calculateCourseGroupTotal teachers courseGroup
  = sumZ (List.map
            (fun t => sumZ (List.map (fun a => orZero (Assignment.students a))
                              (List.filter
                                 (fun a => bool_decide (Assignment.courseGroup a = courseGroup))
                                 (Teacher.assignments t))))
            teachers).
Proof.
  unfold calculateCourseGroupTotal.
  rewrite (fold_left_add
             (fun t => fold_left (fun sum a => sum + orZero (Assignment.students a))
                         (List.filter
                            (fun a => bool_decide (Assignment.courseGroup a = courseGroup))
                            (Teacher.assignments t)) 0)).
  simpl. apply sumZ_map_ext. intros t _. rewrite fold_left_add. lia.
Qed.

Lemma studentSum_shown rows group columnId :
  studentSum rows group columnId
  = sumZ (List.map
            (fun t => shownStudents (parseCourseNameFromColumnId columnId (CourseGroup.id group))
                                    (CourseGroup.id group) (Teacher.assignments t))
            rows).
Proof.
  unfold studentSum, columnTotals. simpl.
  destruct (fold_countTeacher (parseCourseNameFromColumnId columnId (CourseGroup.id group))
              (CourseGroup.id group) rows (mkCounters 0 0 0)) as [_ Hstudents].
  simpl in Hstudents. rewrite Hstudents. lia.
Qed.

(** X8.  When no assignment has a negative load or a negative student
    count, the load sum and the student sum that the header shows for a
    column of a group never exceed the load and the student total that
    [calculateCourseGroupLoad] and [calculateCourseGroupTotal] compute for
    that group over the same rows. *)
Theorem column_load_within_group_load (rows : list Teacher.t) (group : CourseGroup.t)
    (columnId : string) :
  Forall (fun t => Forall (fun a => 0 <= Assignment.load a
                                    /\ 0 <= orZero (Assignment.students a))
                          (Teacher.assignments t)) rows ->
  loadSum rows group columnId <= calculateCourseGroupLoad rows (CourseGroup.id group)
  /\ studentSum rows group columnId <= calculateCourseGroupTotal rows (CourseGroup.id group).
Proof.
  intros Hpos. rewrite Forall_forall in Hpos.
  assert (Hcell : forall a, inCell (parseCourseNameFromColumnId columnId (CourseGroup.id group))
                                   (CourseGroup.id group) a = true ->
                            bool_decide (Assignment.courseGroup a = CourseGroup.id group) = true).
  { intros a Ha. unfold inCell in Ha. by apply andb_true_iff in Ha as [_ Ha]. }
  split.
  - rewrite loadSum_shown, calculateCourseGroupLoad_sum.
    apply sumZ_map_le. intros t Ht. unfold shownLoad, shownIn.
    apply shown_le_group; [|exact Hcell].
    specialize (Hpos t Ht). rewrite Forall_forall in Hpos. intros a Ha. by apply Hpos.
  - rewrite studentSum_shown, calculateCourseGroupTotal_sum.
    apply sumZ_map_le. intros t Ht. unfold shownStudents, shownIn.
    apply (shown_le_group _ _ (fun a => orZero (Assignment.students a))); [|exact Hcell].
    specialize (Hpos t Ht). rewrite Forall_forall in Hpos. intros a Ha. by apply Hpos.
Qed.

Lemma column_load_within_group_load_witness :
  loadSum [Scenario.teacherD] Scenario.ccw6 "CCW6_A"
  <= calculateCourseGroupLoad [Scenario.teacherD] "CCW6".
Proof.
  apply (column_load_within_group_load [Scenario.teacherD] Scenario.ccw6 "CCW6_A").
  repeat constructor; vm_compute; discriminate.
Defined.

(** ** The totals row and the totals map *)



Lemma fold_insert_none {V} (key : CourseGroup.t * string -> string)
    (value : CourseGroup.t * string -> V) cols (m : gmap string V) (k : string) :
  fold_left (fun totals gc => <[ key gc := value gc ]> totals) cols m !! k = None
  <-> m !! k = None /\ Forall (fun gc => key gc <> k) cols.
Proof.
  revert m. induction cols as [|gc cols IH]; intros m; simpl.
  - split; [intros Hm; split; [assumption | constructor] | by intros [Hm _]].
  - rewrite IH, Forall_cons. destruct (decide (key gc = k)) as [<-|Hne].
    + rewrite lookup_insert_eq. split; [intros [Hm _]; discriminate | tauto].
    + rewrite lookup_insert_ne by assumption. tauto.
Qed.

(** X10.  The totals map has an entry under a key exactly when a column of a
    group that is not collapsed carries that key; hence no entry is computed
    for the columns of a collapsed group, unless a visible column shares
    their key. *)
Theorem courseTotals_entries (rows : list Teacher.t) (courseGroups : list CourseGroup.t)
    (collapsedCourseGroups : list string) (key : string) :
  SummaryTotals.courseTotals (useSummaryCalculations rows courseGroups collapsedCourseGroups)
    !! key = None
  <-> forall group columnId,
        group ∈ courseGroups ->
        includes collapsedCourseGroups (CourseGroup.id group) = false ->
        columnId ∈ columnList group ->
        columnKey group columnId <> key.
Proof.
  rewrite courseTotals_fold.
  rewrite (fold_insert_none (fun gc => columnKey gc.1 gc.2)
             (fun gc => (columnTotals rows gc.1 gc.2).2)).
  rewrite lookup_empty, Forall_forall. unfold visibleColumns. split.
  - intros [_ Hall] group columnId Hgroup Hvisible Hcolumn.
    apply (Hall (group, columnId)). apply list_elem_of_In, in_flat_map.
    exists group. split.
    + apply filter_In. split; [by apply list_elem_of_In | by rewrite Hvisible].
    + apply in_map. by apply list_elem_of_In.
  - intros Hall. split; [reflexivity|]. intros [group columnId] Hin.
    apply list_elem_of_In, in_flat_map in Hin as (g & Hg & Hin).
    apply filter_In in Hg as [Hg Hvisible]. apply negb_true_iff in Hvisible.
    apply in_map_iff in Hin as (c & [= <- <-] & Hc).
    apply Hall; [by apply list_elem_of_In | assumption | by apply list_elem_of_In].
Qed.

(** ** What the header rows read back *)

Lemma string_app_assoc (a b c : string) : (a +:+ b) +:+ c = a +:+ (b +:+ c).
Proof.
  induction a as [|x a IH]; [reflexivity|].
  change (String x ((a +:+ b) +:+ c) = String x (a +:+ (b +:+ c))).
  f_equal. exact IH.
Qed.

Lemma startsWith_app (p s : string) : startsWith (p +:+ s) p = true.
Proof.
  induction p as [|c p IH]; simpl; [reflexivity|].
  by rewrite bool_decide_eq_true_2.
Qed.

Lemma substringFrom_app (p s : string) : substringFrom (p +:+ s) (String.length p) = s.
Proof. induction p as [|c p IH]; simpl; [reflexivity | exact IH]. Qed.

Lemma removeFirst_unfold (pattern s : string) :
  removeFirst pattern s
  = if startsWith s pattern then substringFrom s (String.length pattern)
    else match s with
         | EmptyString => EmptyString
         | String c s' => String c (removeFirst pattern s')
         end.
Proof. by destruct s. Qed.

Lemma removeFirst_prefix (p s : string) : removeFirst p (p +:+ s) = s.
Proof. by rewrite removeFirst_unfold, startsWith_app, substringFrom_app. Qed.

Lemma removeFirst_absent (pattern s : string) :
  occursIn pattern s = false -> removeFirst pattern s = s.
Proof.
  induction s as [|c s IH]; simpl; intros Hocc;
    apply orb_false_iff in Hocc as [Hstart Hrest].
  - by rewrite Hstart.
  - rewrite Hstart. f_equal. by apply IH.
Qed.

(** The marker of the catch-all group is removed again from a label that
    does not itself contain it. *)
Lemma removeFirst_marker (s : string) :
  occursIn " (OS)" s = false -> removeFirst " (OS)" (s +:+ " (OS)") = s.
Proof.
  induction s as [|c s IH]; [reflexivity|].
  intros Hocc. simpl in Hocc. apply orb_false_iff in Hocc as [Hstart Hrest].
  rewrite removeFirst_unfold.
  assert (Hnot : startsWith (String c s +:+ " (OS)") " (OS)" = false).
  { destruct s as [|c2 [|c3 [|c4 [|c5 s]]]]; simpl in *;
      repeat (case_bool_decide; simplify_eq; try reflexivity; try discriminate). }
  rewrite Hnot. simpl. f_equal. by apply IH.
Qed.

Lemma column_id_split (groupId columnId : string) :
  "course-" +:+ groupId +:+ "-" +:+ columnId
  = ("course-" +:+ groupId +:+ "-") +:+ columnId.
Proof. by rewrite !string_app_assoc. Qed.

Lemma headerMetadata_courseColumn (group : CourseGroup.t) (columnId : string) :
  headerMetadata group (courseColumn group columnId)
  = match CourseGroup.columnMetadata group with
    | Some ms => find (fun m => bool_decide (CourseColumnMetadata.columnId m = columnId)) ms
    | None => None
    end.
Proof.
  unfold headerMetadata, courseColumn. cbn [column_id].
  by rewrite column_id_split, removeFirst_prefix.
Qed.

Lemma headerTotals_courseColumn (group : CourseGroup.t) (columnId : string)
    (summaryTotals : SummaryTotals.t) :
  occursIn " (OS)" (parseCourseNameFromColumnId columnId (CourseGroup.id group)) = false ->
  headerTotals group (courseColumn group columnId) summaryTotals
  = SummaryTotals.courseTotals summaryTotals !! columnKey group columnId.
Proof.
  intros Hclean. unfold headerTotals, courseColumn, columnKey. simpl.
  destruct (bool_decide (CourseGroup.id group = "OTHER_SUBJECTS")).
  - by rewrite removeFirst_marker.
  - by rewrite removeFirst_absent.
Qed.

(** X11.  For a visible column whose course name does not contain the marker
    [" (OS)"] and whose key is not reused by a later visible column, the
    header cells of the column read back what the aggregation computed for
    it, also when the header carries the marker of the catch-all group: the
    Total Period cell is the column's load sum, and the Remaining Period
    cell is the Periods Per Cycle cell minus the Total Period cell when the
    Periods Per Cycle cell is positive, and 0 otherwise. *)
Theorem header_cells_read_column_totals (rows : list Teacher.t)
    (courseGroups : list CourseGroup.t) (collapsed : list string)
    (pre post : list (CourseGroup.t * string)) (group : CourseGroup.t) (columnId : string) :
  visibleColumns courseGroups collapsed = pre ++ (group, columnId) :: post ->
  Forall (fun gc => columnKey gc.1 gc.2 <> columnKey group columnId) post ->
  occursIn " (OS)" (parseCourseNameFromColumnId columnId (CourseGroup.id group)) = false ->
  let header := courseColumn group columnId in
  let summary := useSummaryCalculations rows courseGroups collapsed in
  metricTotalPeriod header summary = Some (loadSum rows group columnId)
  /\ exists periods,
       metricPeriodsPerCycle header = Some periods
       /\ metricRemainingPeriod header summary
          = Some (if 0 <? periods then periods - loadSum rows group columnId else 0).
Proof.
  intros Hcols Hpost Hclean header summary.
  unfold metricTotalPeriod, metricRemainingPeriod, metricPeriodsPerCycle.
  subst header. cbn [column_courseGroup courseColumn].
  rewrite headerTotals_courseColumn by assumption.
  rewrite headerMetadata_courseColumn. subst summary.
  rewrite (courseTotals_lookup rows courseGroups collapsed pre group columnId post)
    by assumption.
  split; [reflexivity|]. eexists. split; [reflexivity|]. simpl. f_equal.
  unfold loadSum, columnTotals. simpl.
  destruct (CourseGroup.columnMetadata group) as [ms|]; simpl; [|reflexivity].
  destruct (find _ ms) as [m|]; simpl; reflexivity.
Qed.

Lemma header_cells_read_column_totals_witness :
  metricTotalPeriod (courseColumn Scenario.otherSubjects "OTHER_SUBJECTS_TOK")
    (useSummaryCalculations [Scenario.teacherT] [Scenario.otherSubjects] [])
  = Some 4
  /\ column_header (courseColumn Scenario.otherSubjects "OTHER_SUBJECTS_TOK") = "TOK (OS)".
Proof.
  destruct (header_cells_read_column_totals [Scenario.teacherT] [Scenario.otherSubjects] []
              [] [] Scenario.otherSubjects "OTHER_SUBJECTS_TOK") as [Hperiod _].
  - reflexivity.
  - constructor.
  - reflexivity.
  - split; [rewrite Hperiod|]; reflexivity.
Defined.

(** X12.  The metadata cells of a course column always show the catalog
    figures of that very column: the column identifier recovered from the
    header identifier is the column identifier the header was built from,
    so the Total Section, Periods Per Cycle and Students Per Cycle cells are
    the figures of the metadata entry of the column, or 0 when the group
    carries no entry for it. *)
Theorem header_cells_read_column_metadata (group : CourseGroup.t) (columnId : string) :
  let header := courseColumn group columnId in
  let entry :=
    match CourseGroup.columnMetadata group with
    | Some ms => find (fun m => bool_decide (CourseColumnMetadata.columnId m = columnId)) ms
    | None => None
    end in
  removeFirst ("course-" +:+ CourseGroup.id group +:+ "-") (column_id header) = columnId
  /\ metricTotalSection header = Some (orZero (CourseColumnMetadata.totalSections <$> entry))
  /\ metricPeriodsPerCycle header = Some (orZero (catalogPeriodsPerCycle group columnId))
  /\ metricStudentsPerCycle header
     = Some (orZero (CourseColumnMetadata.studentsPerSection <$> entry)).
Proof.
  intros header entry.
  unfold metricTotalSection, metricPeriodsPerCycle, metricStudentsPerCycle,
    catalogPeriodsPerCycle.
  subst header. cbn [column_courseGroup courseColumn].
  rewrite headerMetadata_courseColumn. fold entry.
  split; [|split; [reflexivity | split; [|reflexivity]]].
  - unfold courseColumn. cbn [column_id]. by rewrite column_id_split, removeFirst_prefix.
  - subst entry. by destruct (CourseGroup.columnMetadata group).
Qed.

(** ** More on the drag-and-drop handler *)

(** X13.  The handler calls the update exactly for a drop that has a target
    with another identifier, stays in the course group of the dragged cell,
    finds both teachers in the page data and is not a drop on the dragged
    cell itself; it raises the error toast exactly for a drop that has a
    target with another identifier in another course group.  In every other
    case nothing happens. *)
Theorem handleDragEnd_outcomes (teachers : list Teacher.t) (event : DragEndEvent) :
  let dragData := active_data (active event) in
  ((exists teacherId assignments additionalUpdates,
      handleDragEnd teachers event
      = OnAssignmentUpdate teacherId assignments additionalUpdates)
   <-> exists target,
         over event = Some target
         /\ active_id (active event) <> over_id target
         /\ drag_courseGroup dragData = drop_courseGroup (over_data target)
         /\ is_Some (findTeacher teachers (drag_teacherId dragData))
         /\ is_Some (findTeacher teachers (drop_teacherId (over_data target)))
         /\ ~ (drag_teacherId dragData = drop_teacherId (over_data target)
               /\ Assignment.courseName (drag_assignment dragData)
                  = drop_courseName (over_data target)))
  /\ ((exists message description,
         handleDragEnd teachers event = ToastError message description)
      <-> exists target,
            over event = Some target
            /\ active_id (active event) <> over_id target
            /\ drag_courseGroup dragData <> drop_courseGroup (over_data target)).
Proof.
  intros dragData. subst dragData. unfold handleDragEnd.
  destruct (over event) as [target|].
  2:{ split; split.
      - intros (? & ? & ? & H). discriminate.
      - intros (? & H & _). discriminate.
      - intros (? & ? & H). discriminate.
      - intros (? & H & _). discriminate. }
  destruct (decide (active_id (active event) = over_id target)) as [Hid|Hid].
  { rewrite (bool_decide_eq_true_2 _ Hid). split; split.
    - intros (? & ? & ? & H). discriminate.
    - intros (? & [= <-] & Hne & _). contradiction.
    - intros (? & ? & H). discriminate.
    - intros (? & [= <-] & Hne & _). contradiction. }
  rewrite (bool_decide_eq_false_2 _ Hid).
  destruct (decide (drag_courseGroup (active_data (active event))
                    = drop_courseGroup (over_data target))) as [Hgroup|Hgroup].
  - rewrite (bool_decide_eq_true_2 _ Hgroup). simpl. split; split.
    + intros Hupdate. exists target. split; [reflexivity|]. split; [assumption|].
      split; [assumption|].
      destruct (findTeacher teachers (drag_teacherId _)) as [src|];
        [|destruct Hupdate as (? & ? & ? & H); discriminate].
      destruct (findTeacher teachers (drop_teacherId _)) as [tgt|];
        [|destruct Hupdate as (? & ? & ? & H); discriminate].
      split; [by eexists|]. split; [by eexists|].
      intros [Hteacher Hname].
      rewrite (bool_decide_eq_true_2 _ Hteacher), (bool_decide_eq_true_2 _ Hname) in Hupdate.
      destruct Hupdate as (? & ? & ? & H). discriminate.
    + intros (target' & [= <-] & _ & _ & [src Hsrc] & [tgt Htgt] & Hcell).
      rewrite Hsrc, Htgt.
      destruct (decide (drag_teacherId (active_data (active event))
                        = drop_teacherId (over_data target))) as [Hteacher|Hteacher].
      * rewrite (bool_decide_eq_true_2 _ Hteacher). simpl.
        rewrite bool_decide_eq_false_2 by (intros Hname; apply Hcell; by split).
        eauto.
      * rewrite (bool_decide_eq_false_2 _ Hteacher). simpl. eauto.
    + intros (message & description & Htoast).
      destruct (findTeacher teachers (drag_teacherId _)); [|discriminate].
      destruct (findTeacher teachers (drop_teacherId _)); [|discriminate].
      destruct (_ && _); [discriminate|].
      destruct (bool_decide _); discriminate.
    + intros (target' & [= <-] & _ & Hne). contradiction.
  - rewrite (bool_decide_eq_false_2 _ Hgroup). simpl. split; split.
    + intros (? & ? & ? & H). discriminate.
    + intros (target' & [= <-] & _ & Heq & _). contradiction.
    + intros _. exists target. by repeat split.
    + intros _. eauto.
Qed.

Lemma consumedLoad_withoutCourse (teacher : Teacher.t) (moved : Assignment.t) :
  sharingCourse moved (Teacher.assignments teacher) = [moved] ->
  consumedLoad (withAssignments teacher (withoutCourse moved (Teacher.assignments teacher)))
  = consumedLoad teacher
    - (if Assignment.isCPT moved then 0 else Assignment.load moved).
Proof.
  intros Hsingle.
  destruct (same_teacher_drop_keeps_load teacher moved (Assignment.courseName moved) Hsingle)
    as [_ Hkeep].
  rewrite <- Hkeep. rewrite !consumedLoad_sum. simpl.
  rewrite List.filter_app, List.map_app, sumZ_app. simpl.
  destruct (Assignment.isCPT moved); simpl; lia.
Qed.

Lemma consumedLoad_snoc (teacher : Teacher.t) (l : list Assignment.t)
    (moved : Assignment.t) (dropName : string) :
  consumedLoad (withAssignments teacher (l ++ [withCourseName moved dropName]))
  = consumedLoad (withAssignments teacher l)
    + (if Assignment.isCPT moved then 0 else Assignment.load moved).
Proof.
  rewrite !consumedLoad_sum. simpl.
  rewrite List.filter_app, List.map_app, sumZ_app. simpl.
  destruct (Assignment.isCPT moved); simpl; lia.
Qed.

Lemma withAssignments_same (teacher : Teacher.t) :
  withAssignments teacher (Teacher.assignments teacher) = teacher.
Proof. by destruct teacher. Qed.

Lemma available_of_enhanced (t : Teacher.t) :
  enhanceTeacherWithMetrics t = t ->
  orZero (Teacher.availablePeriods t) = Teacher.maxLoad t - consumedLoad t.
Proof. intros Ht. rewrite <- Ht. reflexivity. Qed.

Lemma consumedLoad_bounds (teacher : Teacher.t) :
  Forall (fun a => 0 <= Assignment.load a) (Teacher.assignments teacher) ->
  0 <= consumedLoad teacher <= assignedLoad teacher.
Proof.
  intros Hpos. rewrite Forall_forall in Hpos. rewrite consumedLoad_sum. unfold assignedLoad.
  rewrite (sumZ_filter_split Assignment.load (fun a => negb (Assignment.isCPT a))
             (Teacher.assignments teacher)).
  assert (Hpart : forall p : Assignment.t -> bool,
             0 <= sumZ (List.map Assignment.load
                          (List.filter p (Teacher.assignments teacher)))).
  { intros p. apply sumZ_map_nonneg. intros a Ha.
    apply list_elem_of_In, filter_In in Ha as [Ha _]. by apply Hpos, list_elem_of_In. }
  pose proof (Hpart (fun a => negb (Assignment.isCPT a))).
  pose proof (Hpart (fun a => negb (negb (Assignment.isCPT a)))).
  lia.
Qed.

(** Over rows taken in order from page data within the range and with
    consistent metrics, the total capacity and the total of available
    periods are within the range. *)
Lemma totals_within_safe_range (teachers rows : list Teacher.t)
    (courseGroups : list CourseGroup.t) (collapsedCourseGroups : list string) :
  capacitiesWithinSafeRange teachers ->
  Forall (fun t => enhanceTeacherWithMetrics t = t) teachers ->
  sublist rows teachers ->
  let summary := useSummaryCalculations rows courseGroups collapsedCourseGroups in
  0 <= SummaryTotals.totalMaxLoad summary <= MAX_SAFE_INTEGER
  /\ - MAX_SAFE_INTEGER <= SummaryTotals.totalAvailable summary <= MAX_SAFE_INTEGER.
Proof.
  intros (Hmax & Hpos & Hsum) Henh Hsub summary. subst summary.
  rewrite Forall_forall in Hmax. rewrite Forall_forall in Hpos.
  rewrite Forall_forall in Henh.
  assert (Hrows : forall t, t ∈ rows -> t ∈ teachers)
    by (intros t Ht; by apply (elem_of_sublist rows teachers)).
  assert (Hassigned : forall t, t ∈ teachers -> 0 <= assignedLoad t).
  { intros t Ht. pose proof (consumedLoad_bounds t (Hpos t Ht)). lia. }
  pose proof (sumZ_sublist_le Teacher.maxLoad rows teachers Hmax Hsub) as HmaxLe.
  pose proof (sumZ_sublist_le assignedLoad rows teachers Hassigned Hsub) as HloadLe.
  assert (0 <= sumZ (List.map Teacher.maxLoad rows))
    by (apply sumZ_map_nonneg; intros t Ht; by apply Hmax, Hrows).
  assert (0 <= sumZ (List.map assignedLoad rows))
    by (apply sumZ_map_nonneg; intros t Ht; by apply Hassigned, Hrows).
  assert (Havail : sumZ (List.map (fun t => orZero (Teacher.availablePeriods t)) rows)
                   = sumZ (List.map (fun t => Teacher.maxLoad t - consumedLoad t) rows)).
  { apply sumZ_map_ext. intros t Ht. by apply available_of_enhanced, Henh, Hrows. }
  assert (Hupper : sumZ (List.map (fun t => Teacher.maxLoad t - consumedLoad t) rows)
                   <= sumZ (List.map Teacher.maxLoad rows)).
  { apply sumZ_map_le. intros t Ht.
    pose proof (consumedLoad_bounds t (Hpos t (Hrows t Ht))). lia. }
  assert (Hlower : 0 <= sumZ (List.map (fun t => Teacher.maxLoad t - consumedLoad t) rows)
                        + sumZ (List.map assignedLoad rows)).
  { rewrite <- sumZ_map_add. apply sumZ_map_nonneg. intros t Ht.
    pose proof (consumedLoad_bounds t (Hpos t (Hrows t Ht))).
    pose proof (Hmax t (Hrows t Ht)). lia. }
  unfold useSummaryCalculations. simpl. rewrite !fold_left_add. lia.
Qed.

(** An accepted drop of an assignment that is alone of its course in the
    source row keeps capacities and loads within the range. *)
Lemma drag_keeps_capacities_within_safe_range (teachers : list Teacher.t)
    (event : DragEndEvent) (target : Over) (sourceTeacher targetTeacher : Teacher.t) :
  let dragData := active_data (active event) in
  let dropData := over_data target in
  let moved := drag_assignment dragData in
  NoDup (List.map Teacher.id teachers) ->
  over event = Some target ->
  active_id (active event) <> over_id target ->
  findTeacher teachers (drag_teacherId dragData) = Some sourceTeacher ->
  findTeacher teachers (drop_teacherId dropData) = Some targetTeacher ->
  drag_courseGroup dragData = drop_courseGroup dropData ->
  ~ (drag_teacherId dragData = drop_teacherId dropData
     /\ Assignment.courseName moved = drop_courseName dropData) ->
  sharingCourse moved (Teacher.assignments sourceTeacher) = [moved] ->
  capacitiesWithinSafeRange teachers ->
  capacitiesWithinSafeRange (teachersAfterDrag teachers event).
Proof.
  intros dragData dropData moved Hnd Hover Hids Hsrc Htgt Hgroup Hcell Hcourse
         (Hmax & Hpos & Hsum).
  assert (0 <= sumZ (List.map Teacher.maxLoad teachers))
    by (apply sumZ_map_nonneg; intros t Ht; rewrite Forall_forall in Hmax; by apply Hmax).
  assert (Hsafe : loadsWithinSafeRange teachers) by (split; [assumption | lia]).
  destruct (drag_keeps_loads_within_safe_range teachers event target
              sourceTeacher targetTeacher
              Hnd Hover Hids Hsrc Htgt Hgroup Hcell Hcourse Hsafe)
    as ([HposAfter _] & Hload & Hcap & _).
  split; [|split].
  - apply Forall_forall. intros t Ht.
    assert (Hin : Teacher.maxLoad t ∈ List.map Teacher.maxLoad teachers).
    { rewrite <- Hcap. apply list_elem_of_In, in_map. by apply list_elem_of_In. }
    apply list_elem_of_In, in_map_iff in Hin as (t0 & <- & Ht0).
    rewrite Forall_forall in Hmax. by apply Hmax, list_elem_of_In.
  - exact HposAfter.
  - rewrite Hload, Hcap. exact Hsum.
Qed.

(** X14.  An accepted drop leaves the totals row as it was, when the page
    data holds teachers with unique identifiers and consistent metrics,
    capacities and loads that are not negative and add up to at most
    [Number.MAX_SAFE_INTEGER], both rows are visible and the dragged
    assignment is the only assignment of its course in the source row: the
    number of teachers, the total capacity and the total of available periods
    over the visible rows are the same before and after the update.  Before
    and after it, the running totals of capacity and of available periods
    after any number of rows stay within [Number.MAX_SAFE_INTEGER] in
    absolute value, so that no addition of the totals rounds. *)
Theorem drag_keeps_totals_row (teachers : list Teacher.t)
    (collapsedDivisions : list Division) (event : DragEndEvent) (target : Over)
    (sourceTeacher targetTeacher : Teacher.t)
    (courseGroups : list CourseGroup.t) (collapsedCourseGroups : list string) :
  let dragData := active_data (active event) in
  let dropData := over_data target in
  let moved := drag_assignment dragData in
  let before :=
    useSummaryCalculations (visibleTeachers teachers collapsedDivisions)
      courseGroups collapsedCourseGroups in
  let after :=
    useSummaryCalculations
      (visibleTeachers (teachersAfterDrag teachers event) collapsedDivisions)
      courseGroups collapsedCourseGroups in
  NoDup (List.map Teacher.id teachers) ->
  Forall (fun t => enhanceTeacherWithMetrics t = t) teachers ->
  capacitiesWithinSafeRange teachers ->
  over event = Some target ->
  active_id (active event) <> over_id target ->
  findTeacher teachers (drag_teacherId dragData) = Some sourceTeacher ->
  findTeacher teachers (drop_teacherId dropData) = Some targetTeacher ->
  drag_courseGroup dragData = drop_courseGroup dropData ->
  ~ (drag_teacherId dragData = drop_teacherId dropData
     /\ Assignment.courseName moved = drop_courseName dropData) ->
  includes collapsedDivisions (Teacher.division sourceTeacher) = false ->
  includes collapsedDivisions (Teacher.division targetTeacher) = false ->
  sharingCourse moved (Teacher.assignments sourceTeacher) = [moved] ->
  SummaryTotals.totalTeachers after = SummaryTotals.totalTeachers before
  /\ SummaryTotals.totalMaxLoad after = SummaryTotals.totalMaxLoad before
  /\ SummaryTotals.totalAvailable after = SummaryTotals.totalAvailable before
  /\ forall k : nat,
       let runningBefore :=
         useSummaryCalculations (firstn k (visibleTeachers teachers collapsedDivisions))
           courseGroups collapsedCourseGroups in
       let runningAfter :=
         useSummaryCalculations
           (firstn k (visibleTeachers (teachersAfterDrag teachers event) collapsedDivisions))
           courseGroups collapsedCourseGroups in
       (0 <= SummaryTotals.totalMaxLoad runningBefore <= MAX_SAFE_INTEGER
        /\ - MAX_SAFE_INTEGER <= SummaryTotals.totalAvailable runningBefore
           <= MAX_SAFE_INTEGER)
       /\ (0 <= SummaryTotals.totalMaxLoad runningAfter <= MAX_SAFE_INTEGER
           /\ - MAX_SAFE_INTEGER <= SummaryTotals.totalAvailable runningAfter
              <= MAX_SAFE_INTEGER).
Proof.
  intros dragData dropData moved before after
         Hnd Henh Hsafe Hover Hids Hsrc Htgt Hgroup Hcell HsrcVis HtgtVis Hcourse.
  assert (Hrange : forall k : nat,
             let runningBefore :=
               useSummaryCalculations (firstn k (visibleTeachers teachers collapsedDivisions))
                 courseGroups collapsedCourseGroups in
             let runningAfter :=
               useSummaryCalculations
                 (firstn k (visibleTeachers (teachersAfterDrag teachers event)
                              collapsedDivisions))
                 courseGroups collapsedCourseGroups in
             (0 <= SummaryTotals.totalMaxLoad runningBefore <= MAX_SAFE_INTEGER
              /\ - MAX_SAFE_INTEGER <= SummaryTotals.totalAvailable runningBefore
                 <= MAX_SAFE_INTEGER)
             /\ (0 <= SummaryTotals.totalMaxLoad runningAfter <= MAX_SAFE_INTEGER
                 /\ - MAX_SAFE_INTEGER <= SummaryTotals.totalAvailable runningAfter
                    <= MAX_SAFE_INTEGER)).
  { intros k runningBefore runningAfter. split.
    - apply (totals_within_safe_range teachers); [assumption..|].
      etransitivity; [apply sublist_take | apply visibleTeachers_sublist].
    - assert (HsafeLoads : loadsWithinSafeRange teachers).
      { destruct Hsafe as (Hmax & Hpos & Hsum). split; [assumption|].
        assert (0 <= sumZ (List.map Teacher.maxLoad teachers))
          by (apply sumZ_map_nonneg; intros t Ht; rewrite Forall_forall in Hmax;
              by apply Hmax).
        lia. }
      destruct (drag_keeps_loads_within_safe_range teachers event target
                  sourceTeacher targetTeacher
                  Hnd Hover Hids Hsrc Htgt Hgroup Hcell Hcourse HsafeLoads)
        as (_ & _ & _ & HenhAfter).
      apply (totals_within_safe_range (teachersAfterDrag teachers event)).
      + by apply (drag_keeps_capacities_within_safe_range teachers event target
                    sourceTeacher targetTeacher).
      + by apply HenhAfter.
      + etransitivity; [apply sublist_take | apply visibleTeachers_sublist]. }
  enough (Hmain : SummaryTotals.totalTeachers after = SummaryTotals.totalTeachers before
                  /\ SummaryTotals.totalMaxLoad after = SummaryTotals.totalMaxLoad before
                  /\ SummaryTotals.totalAvailable after
                     = SummaryTotals.totalAvailable before)
    by (destruct Hmain as (Hcount & Hcapacity & Havailable);
        split; [exact Hcount | split; [exact Hcapacity | split; [exact Havailable|]]];
        exact Hrange).
  destruct (findTeacher_some _ _ _ Hsrc) as [HsrcIn HsrcId].
  destruct (findTeacher_some _ _ _ Htgt) as [HtgtIn HtgtId].
  set (rows := visibleTeachers teachers collapsedDivisions).
  assert (HsrcB : sourceTeacher ∈ rows)
    by (apply elem_of_visibleTeachers; split; [assumption | by apply includes_false]).
  assert (HtgtB : targetTeacher ∈ rows)
    by (apply elem_of_visibleTeachers; split; [assumption | by apply includes_false]).
  assert (HndB : NoDup (List.map Teacher.id rows)) by (by apply NoDup_map_filter).
  rewrite Forall_forall in Henh.
  pose proof (available_of_enhanced _ (Henh _ HsrcIn)) as HsrcAv.
  pose proof (available_of_enhanced _ (Henh _ HtgtIn)) as HtgtAv.
  set (counted := if Assignment.isCPT moved then 0 else Assignment.load moved).
  assert (Hshape : exists upd : Teacher.t -> Teacher.t,
             visibleTeachers (teachersAfterDrag teachers event) collapsedDivisions
             = List.map upd rows
             /\ (forall t, Teacher.maxLoad (upd t) = Teacher.maxLoad t)
             /\ (forall t, t ∈ rows ->
                   orZero (Teacher.availablePeriods (upd t))
                   = orZero (Teacher.availablePeriods t)
                     + (if bool_decide (Teacher.id t = Teacher.id sourceTeacher)
                        then counted else 0)
                     + (if bool_decide (Teacher.id t = Teacher.id targetTeacher)
                        then - counted else 0))).
  { unfold teachersAfterDrag.
    destruct (decide (drag_teacherId dragData = drop_teacherId dropData)) as [Hsame|Hother].
    - assert (targetTeacher = sourceTeacher) as ->.
      { fold dragData dropData in Hsrc, Htgt. rewrite Hsame in Hsrc. congruence. }
      rewrite (handleDragEnd_same_teacher teachers event target sourceTeacher sourceTeacher)
        by assumption.
      rewrite handleAssignmentUpdate_one. eexists. split; [|split].
      + apply visibleTeachers_map. intros t. by destruct (bool_decide _).
      + intros t. cbn beta. by destruct (bool_decide _).
      + intros t Ht. cbn beta.
        destruct (decide (Teacher.id t = Teacher.id sourceTeacher)) as [Hid|Hid].
        * rewrite (unique_by_id rows t sourceTeacher HndB Ht HsrcB Hid).
          rewrite !bool_decide_eq_true_2 by reflexivity.
          fold dragData dropData moved.
          destruct (same_teacher_drop_keeps_load sourceTeacher moved
                      (drop_courseName dropData) Hcourse) as [_ Hkeep].
          cbn zeta in Hkeep. rewrite HsrcAv, <- Hkeep. simpl.
          unfold consumedLoad, calculateTeacherMetrics. simpl. lia.
        * rewrite !bool_decide_eq_false_2 by assumption. lia.
    - assert (HidNe : Teacher.id sourceTeacher <> Teacher.id targetTeacher)
        by (fold dragData dropData in HsrcId, HtgtId; congruence).
      rewrite (handleDragEnd_other_teacher teachers event target sourceTeacher targetTeacher)
        by assumption.
      rewrite handleAssignmentUpdate_two by assumption. eexists. split; [|split].
      + apply visibleTeachers_map. intros t.
        destruct (bool_decide _); [reflexivity | by destruct (bool_decide _)].
      + intros t. cbn beta.
        destruct (bool_decide _); [reflexivity | by destruct (bool_decide _)].
      + intros t Ht. cbn beta.
        destruct (decide (Teacher.id t = Teacher.id sourceTeacher)) as [Hid|Hid].
        * rewrite (unique_by_id rows t sourceTeacher HndB Ht HsrcB Hid).
          rewrite bool_decide_eq_true_2 by reflexivity.
          rewrite (bool_decide_eq_false_2
                     (Teacher.id sourceTeacher = Teacher.id targetTeacher)) by assumption.
          fold dragData moved.
          pose proof (consumedLoad_withoutCourse sourceTeacher moved Hcourse) as Hout.
          rewrite HsrcAv. fold counted in Hout. simpl.
          unfold consumedLoad, calculateTeacherMetrics in Hout |- *. simpl in Hout |- *. lia.
        * rewrite (bool_decide_eq_false_2 _ Hid).
          destruct (decide (Teacher.id t = Teacher.id targetTeacher)) as [Hid'|Hid'].
          -- rewrite (unique_by_id rows t targetTeacher HndB Ht HtgtB Hid').
             rewrite bool_decide_eq_true_2 by reflexivity.
             fold dragData dropData moved.
             pose proof (consumedLoad_snoc targetTeacher (Teacher.assignments targetTeacher)
                           moved (drop_courseName dropData)) as Hin.
             rewrite withAssignments_same in Hin. rewrite HtgtAv. fold counted in Hin. simpl.
             unfold consumedLoad, calculateTeacherMetrics in Hin |- *. simpl in Hin |- *. lia.
          -- rewrite (bool_decide_eq_false_2 _ Hid'). lia. }
  destruct Hshape as (upd & Hrows & Hmax & Havail).
  subst before after. rewrite Hrows. fold rows.
  unfold useSummaryCalculations. simpl. rewrite !fold_left_add, !map_map, length_map.
  split; [reflexivity|]. split.
  - f_equal. apply sumZ_map_ext. intros t _. apply Hmax.
  - rewrite (sum_two_changes rows sourceTeacher targetTeacher
               (fun t => orZero (Teacher.availablePeriods t))
               (fun t => orZero (Teacher.availablePeriods (upd t)))
               counted (- counted) HndB HsrcB HtgtB Havail). lia.
Qed.

Lemma drag_keeps_totals_row_witness :
  SummaryTotals.totalAvailable
    (useSummaryCalculations
       (visibleTeachers (teachersAfterDrag Scenario.pair Scenario.sameColumnDrop) [])
       [Scenario.ccw6] [])
  = SummaryTotals.totalAvailable
      (useSummaryCalculations (visibleTeachers Scenario.pair []) [Scenario.ccw6] []).
Proof.
  destruct (drag_keeps_totals_row Scenario.pair [] Scenario.sameColumnDrop
              {| over_id := "drop-B-CCW6-A";
                 over_data := {| drop_teacherId := "B";
                                 drop_courseGroup := "CCW6";
                                 drop_courseName := "A" |} |}
              Scenario.teacherA Scenario.teacherB [Scenario.ccw6] [])
    as (_ & _ & Havailable & _).
  - repeat constructor; vm_compute; intros Hin; inversion Hin as [|? ? ? Hin']; subst;
      inversion Hin'.
  - repeat constructor.
  - split; [|split]; [repeat constructor..|]; vm_compute; discriminate.
  - reflexivity.
  - vm_compute. discriminate.
  - reflexivity.
  - reflexivity.
  - reflexivity.
  - vm_compute. intros [Hteacher _]. discriminate.
  - reflexivity.
  - reflexivity.
  - reflexivity.
  - exact Havailable.
Defined.

(** X15.  After an accepted drop on a cell in which the destination row
    showed nothing, the destination cell shows the dragged assignment,
    relabelled with the name of the destination column and otherwise
    unchanged; and when the dragged assignment was the only one of its course
    and of its cell in the source row, the cell it was dragged from shows
    nothing any more. *)
Theorem drop_shows_in_destination_cell (teachers : list Teacher.t) (event : DragEndEvent)
    (target : Over) (sourceTeacher targetTeacher : Teacher.t) :
  let dragData := active_data (active event) in
  let dropData := over_data target in
  let moved := drag_assignment dragData in
  let relabelled := withCourseName moved (drop_courseName dropData) in
  over event = Some target ->
  active_id (active event) <> over_id target ->
  findTeacher teachers (drag_teacherId dragData) = Some sourceTeacher ->
  findTeacher teachers (drop_teacherId dropData) = Some targetTeacher ->
  drag_courseGroup dragData = drop_courseGroup dropData ->
  ~ (drag_teacherId dragData = drop_teacherId dropData
     /\ Assignment.courseName moved = drop_courseName dropData) ->
  drag_courseGroup dragData = Assignment.courseGroup moved ->
  shownIn (drop_courseName dropData) (drop_courseGroup dropData)
          (Teacher.assignments targetTeacher) = None ->
  exists newSource additionalUpdates,
    handleDragEnd teachers event
    = OnAssignmentUpdate (Teacher.id sourceTeacher) newSource additionalUpdates
    /\ shownIn (drop_courseName dropData) (drop_courseGroup dropData)
         (match additionalUpdates with
          | Some [(_, newTarget)] => newTarget
          | _ => newSource
          end) = Some relabelled
    /\ (sharingCourse moved (Teacher.assignments sourceTeacher) = [moved] ->
        (forall a, a ∈ Teacher.assignments sourceTeacher ->
                   inCell (Assignment.courseName moved) (Assignment.courseGroup moved) a = true ->
                   a = moved) ->
        shownIn (Assignment.courseName moved) (Assignment.courseGroup moved) newSource = None).
Proof.
  intros dragData dropData moved relabelled Hover Hids Hsrc Htgt Hgroup Hcell Hwf Hfree.
  assert (Hin : inCell (drop_courseName dropData) (drop_courseGroup dropData) relabelled = true).
  { subst relabelled. rewrite inCell_withCourseName.
    rewrite bool_decide_eq_true_2 by reflexivity.
    by rewrite bool_decide_eq_true_2 by congruence. }
  assert (Hgone : sharingCourse moved (Teacher.assignments sourceTeacher) = [moved] ->
            (forall a, a ∈ Teacher.assignments sourceTeacher ->
               inCell (Assignment.courseName moved) (Assignment.courseGroup moved) a = true ->
               a = moved) ->
            shownIn (Assignment.courseName moved) (Assignment.courseGroup moved)
                    (withoutCourse moved (Teacher.assignments sourceTeacher)) = None).
  { intros Hcourse Honly. unfold shownIn. apply find_none. intros a Ha.
    apply elem_of_withoutCourse in Ha as [Ha Hne].
    destruct (inCell _ _ a) eqn:Hca; [|reflexivity].
    apply Honly in Hca; [|assumption]. congruence. }
  destruct (decide (drag_teacherId dragData = drop_teacherId dropData)) as [Hsame|Hother].
  - assert (targetTeacher = sourceTeacher) as ->.
    { fold dragData dropData in Hsrc, Htgt. rewrite Hsame in Hsrc. congruence. }
    rewrite (handleDragEnd_same_teacher teachers event target sourceTeacher sourceTeacher)
      by assumption.
    eexists _, _. split; [reflexivity|]. fold dragData dropData moved relabelled.
    unfold shownIn in *. rewrite find_none in Hfree. split.
    + rewrite find_app.
      assert (Hnone : find (inCell (drop_courseName dropData) (drop_courseGroup dropData))
                           (withoutCourse moved (Teacher.assignments sourceTeacher)) = None).
      { apply find_none. intros a Ha. apply elem_of_withoutCourse in Ha as [Ha _].
        by apply Hfree. }
      rewrite Hnone. simpl. by rewrite Hin.
    + intros Hcourse Honly. rewrite find_app. rewrite (Hgone Hcourse Honly). simpl.
      assert (Hname : Assignment.courseName moved <> drop_courseName dropData)
        by (intros Hname; apply Hcell; by split).
      unfold inCell, relabelled, withCourseName. simpl.
      by rewrite bool_decide_eq_false_2 by congruence.
  - rewrite (handleDragEnd_other_teacher teachers event target sourceTeacher targetTeacher)
      by assumption.
    eexists _, _. split; [reflexivity|]. fold dragData dropData moved relabelled.
    split; [|exact Hgone].
    unfold shownIn in *. rewrite find_app, Hfree. simpl. by rewrite Hin.
Qed.

Lemma drop_shows_in_destination_cell_witness :
  cell_assignment
    (renderCell
       (withAssignments Scenario.teacherB [Scenario.assignment "CCW6_A" "B" "CCW6" 6])
       Scenario.ccw6 "CCW6_B")
  = Some (Scenario.assignment "CCW6_A" "B" "CCW6" 6).
Proof.
  destruct (drop_shows_in_destination_cell Scenario.pair Scenario.otherColumnDrop
              {| over_id := "drop-B-CCW6-B";
                 over_data := {| drop_teacherId := "B";
                                 drop_courseGroup := "CCW6";
                                 drop_courseName := "B" |} |}
              Scenario.teacherA Scenario.teacherB)
    as (newSource & additionalUpdates & Hout & Hshown & _).
  - reflexivity.
  - vm_compute. discriminate.
  - reflexivity.
  - reflexivity.
  - reflexivity.
  - vm_compute. intros [Hteacher _]. discriminate.
  - reflexivity.
  - reflexivity.
  - vm_compute in Hout. injection Hout as <- <-. exact Hshown.
Defined.

(** ** The updates of the page data *)

Lemma lookup_map {A B} (f : A -> B) (l : list A) (i : nat) :
  List.map f l !! i = f <$> l !! i.
Proof.
  revert i. induction l as [|x l IH]; intros [|i]; simpl; try reflexivity. apply IH.
Qed.

(** X16.  An assignment update changes the page data only where it says:
    the result holds as many teachers, with the same identifiers in the same
    order; a teacher whose identifier is neither the updated one nor named by
    an additional update is kept as it is; a teacher with the updated
    identifier that no additional update names receives exactly the given
    assignments; and every teacher keeps its identifier, division and
    capacity. *)
Theorem handleAssignmentUpdate_frame (teachers : list Teacher.t) (teacherId : string)
    (assignments : list Assignment.t)
    (additionalUpdates : option (list (string * list Assignment.t))) :
  let named := List.map fst (default [] additionalUpdates) in
  let result := handleAssignmentUpdate teachers teacherId assignments additionalUpdates in
  List.length result = List.length teachers
  /\ List.map Teacher.id result = List.map Teacher.id teachers
  /\ List.map Teacher.division result = List.map Teacher.division teachers
  /\ List.map Teacher.maxLoad result = List.map Teacher.maxLoad teachers
  /\ forall i t, teachers !! i = Some t ->
       exists t', result !! i = Some t'
         /\ (Teacher.id t <> teacherId -> Teacher.id t ∉ named -> t' = t)
         /\ (Teacher.id t = teacherId -> Teacher.id t ∉ named ->
             Teacher.assignments t' = assignments).
Proof.
  intros named result. subst result. unfold handleAssignmentUpdate.
  set (updates0 := (<[teacherId:=assignments]> ∅ : gmap string (list Assignment.t))).
  set (updates := match additionalUpdates with
                  | Some us => fold_left _ us updates0
                  | None => updates0
                  end).
  assert (Hkept : forall k, k ∉ named -> updates !! k = updates0 !! k).
  { subst updates named. destruct additionalUpdates as [us|]; [|reflexivity]. simpl.
    generalize updates0. induction us as [|[k' v'] us IH]; intros m k Hk; [reflexivity|].
    simpl in *. apply not_elem_of_cons in Hk as [Hne Hk].
    rewrite IH by assumption. by rewrite lookup_insert_ne. }
  assert (Hfield : forall (A : Type) (f : Teacher.t -> A),
             (forall t l, f (enhanceTeacherWithMetrics (withAssignments t l)) = f t) ->
             List.map f (List.map (fun teacher =>
                                     match updates !! Teacher.id teacher with
                                     | Some newAssignments =>
                                         enhanceTeacherWithMetrics
                                           (withAssignments teacher newAssignments)
                                     | None => teacher
                                     end) teachers)
             = List.map f teachers).
  { intros A f Hf. rewrite map_map. apply map_ext. intros t.
    destruct (updates !! Teacher.id t); [apply Hf | reflexivity]. }
  split; [apply length_map|].
  split; [apply Hfield; reflexivity|].
  split; [apply Hfield; reflexivity|].
  split; [apply Hfield; reflexivity|].
  intros i t Hi. eexists. split.
  - rewrite lookup_map, Hi. reflexivity.
  - split.
    + intros Hne Hnamed. rewrite (Hkept _ Hnamed). subst updates0.
      rewrite lookup_insert_ne by congruence. by rewrite lookup_empty.
    + intros Heq Hnamed. rewrite (Hkept _ Hnamed). subst updates0.
      rewrite Heq, lookup_insert_eq. reflexivity.
Qed.

(** X17.  Deleting a teacher from the page data removes every teacher with
    its identifier and nobody else: afterwards no teacher is found under the
    deleted identifier, every other identifier finds the teacher it found
    before, and the teachers kept are in their original order. *)
Theorem handleDeleteTeacher_lookup (deletingTeacher : Teacher.t) (prev : list Teacher.t) :
  findTeacher (handleDeleteTeacher deletingTeacher prev) (Teacher.id deletingTeacher) = None
  /\ (forall teacherId, teacherId <> Teacher.id deletingTeacher ->
        findTeacher (handleDeleteTeacher deletingTeacher prev) teacherId
        = findTeacher prev teacherId)
  /\ sublist (handleDeleteTeacher deletingTeacher prev) prev.
Proof.
  unfold handleDeleteTeacher, findTeacher. split; [|split].
  - apply find_none. intros t Ht.
    apply list_elem_of_In, filter_In in Ht as [_ Ht].
    apply negb_true_iff in Ht. exact Ht.
  - intros teacherId Hne. apply find_filter_keep. intros t _ Ht.
    apply bool_decide_eq_true in Ht. apply negb_true_iff, bool_decide_eq_false. congruence.
  - induction prev as [|t prev IH]; simpl; [constructor|].
    destruct (negb _); by constructor.
Qed.

(** X18.  For a teacher whose identifier is not yet in the page data,
    creating it and deleting it again gives back the page data as it was;
    before it is created, updating it or deleting it changes nothing; once
    created, it is the teacher found under its identifier, with its metrics
    computed. *)
Theorem handleCreateTeacher_round_trip (newTeacher updated : Teacher.t)
    (prev : list Teacher.t) :
  findTeacher prev (Teacher.id newTeacher) = None ->
  handleDeleteTeacher newTeacher (handleCreateTeacher newTeacher prev) = prev
  /\ handleUpdateTeacher newTeacher updated prev = prev
  /\ handleDeleteTeacher newTeacher prev = prev
  /\ findTeacher (handleCreateTeacher newTeacher prev) (Teacher.id newTeacher)
     = Some (enhanceTeacherWithMetrics newTeacher).
Proof.
  intros Hfresh. unfold findTeacher in Hfresh. rewrite find_none in Hfresh.
  assert (Hdelete : handleDeleteTeacher newTeacher prev = prev).
  { unfold handleDeleteTeacher. induction prev as [|t prev IH]; simpl; [reflexivity|].
    rewrite (Hfresh t) by left. simpl. f_equal. apply IH.
    intros x Hx. apply Hfresh. by right. }
  split; [|split; [|split]].
  - unfold handleCreateTeacher, handleDeleteTeacher in *. simpl.
    rewrite bool_decide_eq_true_2 by reflexivity. simpl. exact Hdelete.
  - unfold handleUpdateTeacher. rewrite <- (map_id prev) at 2. apply map_ext_in.
    intros t Ht. apply list_elem_of_In in Ht. by rewrite (Hfresh t Ht).
  - exact Hdelete.
  - unfold handleCreateTeacher, findTeacher. simpl.
    by rewrite bool_decide_eq_true_2.
Qed.

Lemma handleCreateTeacher_round_trip_witness :
  handleDeleteTeacher Scenario.teacherD
    (handleCreateTeacher Scenario.teacherD Scenario.pair) = Scenario.pair.
Proof.
  destruct (handleCreateTeacher_round_trip Scenario.teacherD Scenario.teacherD Scenario.pair)
    as (Hround & _); [reflexivity | exact Hround].
Defined.

(** ** The assignments editor *)

Lemma filterIndex_past {A} (index start : nat) (l : list A) :
  (index < start)%nat ->
  filterIndex (fun i => negb (i =? index)%nat) start l = l.
Proof.
  revert start. induction l as [|x l IH]; intros start Hlt; simpl; [reflexivity|].
  destruct (Nat.eqb_spec start index) as [Heq|Hne]; [lia|]. simpl.
  f_equal. apply IH. lia.
Qed.

Lemma filterIndex_ne {A} (index start : nat) (l : list A) :
  (start <= index)%nat ->
  filterIndex (fun i => negb (i =? index)%nat) start l
  = firstn (index - start) l ++ skipn (S (index - start)) l.
Proof.
  revert start. induction l as [|x l IH]; intros start Hle.
  - by rewrite firstn_nil, skipn_nil.
  - cbn [filterIndex]. destruct (Nat.eqb_spec start index) as [->|Hne]; cbn [negb].
    + rewrite filterIndex_past by lia. by rewrite Nat.sub_diag.
    + rewrite IH by lia.
      replace (index - start)%nat with (S (index - S start)) by lia. reflexivity.
Qed.

(** X19.  In the assignments editor, deleting the assignment at an index
    removes that assignment and keeps the others in order (an index past the
    end deletes nothing); adding a course appends one assignment of load 0,
    so the total load shown by the editor is unchanged; and deleting the
    assignment just added gives back the list as it was. *)
Theorem editor_add_delete (course : Course.t) (assignments : list Assignment.t)
    (index : nat) :
  handleDeleteAssignment index assignments
  = firstn index assignments ++ skipn (S index) assignments
  /\ List.length (handleAddCourse course assignments) = S (List.length assignments)
  /\ editorTotalLoad (handleAddCourse course assignments) = editorTotalLoad assignments
  /\ handleDeleteAssignment (List.length assignments) (handleAddCourse course assignments)
     = assignments.
Proof.
  assert (Hdelete : forall i l, handleDeleteAssignment i l
                                = firstn i l ++ skipn (S i) (l : list Assignment.t)).
  { intros i l. unfold handleDeleteAssignment. rewrite filterIndex_ne by lia.
    by rewrite Nat.sub_0_r. }
  split; [apply Hdelete|]. split; [|split].
  - unfold handleAddCourse. rewrite length_app. simpl. lia.
  - unfold editorTotalLoad, handleAddCourse.
    rewrite List.filter_app, !fold_left_add, List.map_app, sumZ_app. simpl.
    destruct (Course.isCPT course); simpl; lia.
  - rewrite Hdelete. unfold handleAddCourse.
    rewrite firstn_app, Nat.sub_diag, firstn_all. simpl. rewrite app_nil_r.
    rewrite skipn_all2; [apply app_nil_r|]. rewrite length_app. simpl. lia.
Qed.

(** ** The key-value store and the deletion of a course *)

Lemma filter_length_all {A} (p : A -> bool) (l : list A) :
  (List.length (List.filter p l) =? List.length l)%nat = true
  <-> forall x, x ∈ l -> p x = true.
Proof.
  rewrite Nat.eqb_eq. induction l as [|x l IH]; simpl.
  - split; [intros _ y Hy; inversion Hy | reflexivity].
  - pose proof (List.filter_length_le p l) as Hle. destruct (p x) eqn:Hp; simpl.
    + split.
      * intros Hlen y Hy. apply elem_of_cons in Hy as [->|Hy]; [assumption|].
        apply IH; [lia | assumption].
      * intros Hall. f_equal. apply IH. intros y Hy. apply Hall. by right.
    + split; [lia|]. intros Hall. rewrite (Hall x) in Hp by left. discriminate.
Qed.

Lemma filter_length_some {A} (p : A -> bool) (l : list A) :
  (List.length (List.filter p l) =? List.length l)%nat = false
  <-> exists x, x ∈ l /\ p x = false.
Proof.
  split.
  - intros Hlen. induction l as [|x l IH]; simpl in *; [discriminate|].
    destruct (p x) eqn:Hp.
    + simpl in Hlen. destruct (IH Hlen) as (y & Hy & Hpy). exists y. split; [by right | assumption].
    + exists x. split; [left | assumption].
  - intros (x & Hx & Hp). destruct (_ =? _)%nat eqn:Hlen; [|reflexivity].
    rewrite filter_length_all in Hlen. rewrite (Hlen x Hx) in Hp. discriminate.
Qed.

Lemma find_filter_removed {A} (p q : A -> bool) (l : list A) :
  (forall a, p a = true -> q a = false) -> find p (List.filter q l) = None.
Proof.
  intros Hpq. apply find_none. intros a Ha.
  apply list_elem_of_In, filter_In in Ha as [_ Ha].
  destruct (p a) eqn:Hp; [|reflexivity]. rewrite (Hpq a Hp) in Ha. discriminate.
Qed.

(** X20.  When the deletion of a course answers with success, the course was
    in the catalog and is no longer, every other course is still found as
    before, and no teacher of the store holds an assignment of the deleted
    course: either none did, or the deletion was forced and the assignments
    were removed. *)
Theorem DELETE_course_success (id : string) (force : bool) (store : Store.t) :
  (DELETE_course id force store).1 = DeleteSuccess ->
  let store' := (DELETE_course id force store).2 in
  is_Some (getCourse id store).1
  /\ (getCourse id store').1 = None
  /\ (forall id', id' <> id -> (getCourse id' store').1 = (getCourse id' store).1)
  /\ Forall (fun t => Forall (fun a => Assignment.courseId a <> id) (Teacher.assignments t))
            (getAllTeachers store').1.
Proof.
  unfold DELETE_course, deleteCourse, bind, ret, getAllTeachers, getAllCourses, getCourse,
    setCourses, setTeachers.
  destruct store as [teachers groups courses divisions]. simpl.
  set (ts := default [] teachers). set (cs := default [] courses).
  set (referencing := List.filter _ ts).
  destruct ((0 <? List.length referencing)%nat && negb force) eqn:Hconflict;
    [discriminate|].
  destruct (_ =? _)%nat eqn:Hlen; simpl; [discriminate|]. intros _.
  apply filter_length_some in Hlen as (c & Hc & Hid).
  apply negb_false_iff, bool_decide_eq_true in Hid.
  assert (Hcourses : is_Some (find (fun c0 => bool_decide (Course.id c0 = id)) cs)
            /\ find (fun c0 => bool_decide (Course.id c0 = id))
                    (List.filter (fun c0 => negb (bool_decide (Course.id c0 = id))) cs) = None
            /\ forall id', id' <> id ->
                 find (fun c0 => bool_decide (Course.id c0 = id'))
                      (List.filter (fun c0 => negb (bool_decide (Course.id c0 = id))) cs)
                 = find (fun c0 => bool_decide (Course.id c0 = id')) cs).
  { split; [|split].
    - destruct (find _ cs) eqn:Hfind; [by eexists|].
      rewrite find_none in Hfind. specialize (Hfind c Hc).
      by rewrite bool_decide_eq_true_2 in Hfind.
    - apply find_filter_removed. intros a Ha. by rewrite Ha.
    - intros id' Hne. apply find_filter_keep. intros a _ Ha.
      apply bool_decide_eq_true in Ha. apply negb_true_iff, bool_decide_eq_false. congruence. }
  destruct force; simpl.
  - destruct Hcourses as (H1 & H2 & H3). repeat split; try assumption.
    apply Forall_forall. intros t Ht.
    apply list_elem_of_In, in_map_iff in Ht as (t0 & <- & _). simpl.
    apply Forall_forall. intros a Ha.
    apply list_elem_of_In, filter_In in Ha as [_ Ha].
    by apply negb_true_iff, bool_decide_eq_false in Ha.
  - destruct Hcourses as (H1 & H2 & H3). repeat split; try assumption.
    rewrite andb_true_r in Hconflict. apply Nat.ltb_ge in Hconflict.
    assert (Hnone : referencing = []) by (destruct referencing; [reflexivity | simpl in *; lia]).
    apply Forall_forall. intros t Ht. apply Forall_forall. intros a Ha Hid'.
    assert (Hin : In t referencing).
    { apply filter_In. split; [by apply list_elem_of_In |].
      apply existsb_exists. exists a. split; [by apply list_elem_of_In |].
      by apply bool_decide_eq_true. }
    rewrite Hnone in Hin. inversion Hin.
Qed.

Lemma DELETE_course_success_witness :
  (getCourse "CCW6_A" (DELETE_course "CCW6_A" true Scenario.store).2).1 = None
  /\ Forall (fun t => Forall (fun a => Assignment.courseId a <> "CCW6_A")
                             (Teacher.assignments t))
            (getAllTeachers (DELETE_course "CCW6_A" true Scenario.store).2).1.
Proof.
  destruct (DELETE_course_success "CCW6_A" true Scenario.store) as (_ & Hgone & _ & Hfree).
  - reflexivity.
  - split; [exact Hgone | exact Hfree].
Defined.


(** X22.  In the store, deleting a teacher answers true exactly when a
    teacher with the identifier was stored, and otherwise leaves the store
    as it is; after the deletion no teacher is found under the identifier
    and every other identifier finds what it found before.  Creating a
    teacher appends it to the stored list, whatever identifiers are already
    there, so a lookup under its identifier returns an earlier teacher with
    the same identifier if there is one, and the new teacher otherwise. *)
Theorem store_teachers (id : string) (teacher : Teacher.t) (store : Store.t) :
  ((deleteTeacher id store).1 = true <-> is_Some (getTeacher id store).1)
  /\ ((deleteTeacher id store).1 = false -> (deleteTeacher id store).2 = store)
  /\ (getTeacher id (deleteTeacher id store).2).1 = None
  /\ (forall id', id' <> id ->
        (getTeacher id' (deleteTeacher id store).2).1 = (getTeacher id' store).1)
  /\ (getAllTeachers (createTeacher teacher store).2).1
     = (getAllTeachers store).1 ++ [teacher]
  /\ (getTeacher (Teacher.id teacher) (createTeacher teacher store).2).1
     = Some (default teacher (getTeacher (Teacher.id teacher) store).1).
Proof.
  unfold deleteTeacher, createTeacher, getTeacher, bind, ret, getAllTeachers, setTeachers.
  destruct store as [teachers groups courses divisions]. simpl.
  set (ts := default [] teachers).
  assert (Hlen : (List.length (List.filter
                                 (fun t => negb (bool_decide (Teacher.id t = id))) ts)
                  =? List.length ts)%nat = true
                 <-> find (fun t => bool_decide (Teacher.id t = id)) ts = None).
  { rewrite filter_length_all, find_none. split; intros Hall x Hx.
    - by apply negb_true_iff, Hall.
    - by apply negb_true_iff, Hall. }
  assert (Hgone : find (fun t => bool_decide (Teacher.id t = id))
                       (List.filter (fun t => negb (bool_decide (Teacher.id t = id))) ts)
                  = None)
    by (apply find_filter_removed; intros a Ha; by rewrite Ha).
  assert (Hothers : forall id', id' <> id ->
            find (fun t => bool_decide (Teacher.id t = id'))
                 (List.filter (fun t => negb (bool_decide (Teacher.id t = id))) ts)
            = find (fun t => bool_decide (Teacher.id t = id')) ts).
  { intros id' Hne. apply find_filter_keep. intros a _ Ha.
    apply bool_decide_eq_true in Ha. apply negb_true_iff, bool_decide_eq_false. congruence. }
  split; [|split; [|split; [|split; [|split]]]].
  - destruct (_ =? _)%nat eqn:Hl; simpl.
    + rewrite (proj1 Hlen eq_refl). split; [discriminate | intros [? H]; discriminate].
    + split; [intros _ | reflexivity].
      destruct (find _ ts) eqn:Hfind; [by eexists|].
      pose proof (proj2 Hlen eq_refl). discriminate.
  - destruct (_ =? _)%nat eqn:Hl; simpl; [reflexivity | discriminate].
  - destruct (_ =? _)%nat eqn:Hl; simpl; [exact (proj1 Hlen eq_refl) | exact Hgone].
  - intros id' Hne. destruct (_ =? _)%nat eqn:Hl; simpl; [reflexivity | by apply Hothers].
  - reflexivity.
  - rewrite find_app.
    destruct (find (fun t => bool_decide (Teacher.id t = Teacher.id teacher)) ts);
      [reflexivity|].
    simpl. by rewrite bool_decide_eq_true_2.
Qed.

(** X23.  Deleting a course group from the store answers true exactly when
    a group with the identifier was stored, and otherwise leaves the store
    as it is.  After a deletion that answered true no group is found under
    the identifier; with the cascade no course of the group is left in the
    catalog, without it the courses are kept; and in both cases the teachers
    and their assignments are not touched. *)
Theorem store_deleteCourseGroup (id : string) (cascade : bool) (store : Store.t) :
  let result := deleteCourseGroup id cascade store in
  let found := find (fun g => bool_decide (CourseGroup.id g = id)) (getAllCourseGroups store).1 in
  (result.1 = true <-> is_Some found)
  /\ (result.1 = false -> result.2 = store)
  /\ find (fun g => bool_decide (CourseGroup.id g = id)) (getAllCourseGroups result.2).1 = None
  /\ (getAllTeachers result.2).1 = (getAllTeachers store).1
  /\ (result.1 = true -> cascade = true ->
      Forall (fun c => Course.group c <> id) (getAllCourses result.2).1
      /\ forall c, c ∈ (getAllCourses store).1 -> Course.group c <> id ->
                   c ∈ (getAllCourses result.2).1)
  /\ (cascade = false -> (getAllCourses result.2).1 = (getAllCourses store).1).
Proof.
  intros result found. subst result found.
  unfold deleteCourseGroup, bind, ret, getAllTeachers, getAllCourses, getAllCourseGroups,
    setCourses, setCourseGroups.
  destruct store as [teachers groups courses divisions]. simpl.
  set (gs := default [] groups). set (cs := default [] courses).
  assert (Hlen : (List.length (List.filter
                                 (fun g => negb (bool_decide (CourseGroup.id g = id))) gs)
                  =? List.length gs)%nat = true
                 <-> find (fun g => bool_decide (CourseGroup.id g = id)) gs = None).
  { rewrite filter_length_all, find_none. split; intros Hall x Hx.
    - by apply negb_true_iff, Hall.
    - by apply negb_true_iff, Hall. }
  assert (Hgone : find (fun g => bool_decide (CourseGroup.id g = id))
                       (List.filter (fun g => negb (bool_decide (CourseGroup.id g = id))) gs)
                  = None)
    by (apply find_filter_removed; intros a Ha; by rewrite Ha).
  destruct (_ =? _)%nat eqn:Hl; simpl.
  - pose proof (proj1 Hlen eq_refl) as Hnone. rewrite Hnone.
    split; [split; [discriminate | intros [? H]; discriminate]|].
    split; [reflexivity|]. split; [assumption|]. split; [reflexivity|].
    split; [discriminate | reflexivity].
  - assert (Hsome : is_Some (find (fun g => bool_decide (CourseGroup.id g = id)) gs)).
    { destruct (find _ gs) eqn:Hfind; [by eexists|].
      pose proof (proj2 Hlen eq_refl). discriminate. }
    destruct cascade; simpl.
    + split; [by split|]. split; [discriminate|].
      split; [assumption|]. split; [reflexivity|]. split; [|discriminate].
      intros _ _. split.
      * apply Forall_forall. intros c Hc.
        apply list_elem_of_In, filter_In in Hc as [_ Hc].
        by apply negb_true_iff, bool_decide_eq_false in Hc.
      * intros c Hc Hne. apply list_elem_of_In, filter_In.
        split; [by apply list_elem_of_In|].
        by apply negb_true_iff, bool_decide_eq_false.
    + split; [by split|]. split; [discriminate|].
      split; [assumption|]. split; [reflexivity|]. split; [discriminate | reflexivity].
Qed.

(** ** Identifier slugs *)

Lemma isSlugChar_not_dash (c : ascii) : isSlugChar c = true -> c <> dash.
Proof. intros Hc ->. vm_compute in Hc. discriminate. Qed.

Lemma dashRuns_shape (inRun : bool) (s : string) :
  allChars (fun c => isSlugChar c || bool_decide (c = dash)) (dashRuns inRun s) = true
  /\ noDoubleDash (dashRuns inRun s) = true
  /\ (inRun = true -> noLeadingDash (dashRuns inRun s) = true).
Proof.
  revert inRun. induction s as [|c s IH]; intros inRun; simpl; [by repeat split|].
  destruct (isSlugChar c) eqn:Hc.
  - destruct (IH false) as (Hall & Hdd & _). simpl. rewrite Hc, Hall, Hdd. simpl.
    pose proof (isSlugChar_not_dash c Hc) as Hne.
    rewrite (bool_decide_eq_false_2 _ Hne). by repeat split.
  - destruct (IH true) as (Hall & Hdd & Hlead). specialize (Hlead eq_refl).
    destruct inRun; simpl.
    + by repeat split.
    + rewrite Hall, Hdd, Hlead. by repeat split.
Qed.

Lemma stripLeadingDashes_shape (test : ascii -> bool) (s : string) :
  allChars test s = true -> noDoubleDash s = true ->
  allChars test (stripLeadingDashes s) = true
  /\ noDoubleDash (stripLeadingDashes s) = true
  /\ noLeadingDash (stripLeadingDashes s) = true.
Proof.
  induction s as [|c s IH]; simpl; [by repeat split|].
  intros Hall Hdd. apply andb_true_iff in Hall as [Hc Hall].
  apply andb_true_iff in Hdd as [Hcd Hdd].
  destruct (bool_decide (c = dash)) eqn:Hdash; [by apply IH|].
  simpl. rewrite Hc, Hall, Hdd, Hdash. simpl. by repeat split.
Qed.

Lemma stripTrailingDashes_head (s : string) (c : ascii) (rest : string) :
  stripTrailingDashes s = String c rest -> exists rest', s = String c rest'.
Proof.
  destruct s as [|d s]; simpl; [discriminate|].
  destruct (stripTrailingDashes s).
  - destruct (bool_decide (d = dash)); [discriminate|]. intros [= -> _]. by eexists.
  - intros [= -> _]. by eexists.
Qed.

Lemma stripTrailingDashes_shape (test : ascii -> bool) (s : string) :
  allChars test s = true -> noDoubleDash s = true -> noLeadingDash s = true ->
  allChars test (stripTrailingDashes s) = true
  /\ noDoubleDash (stripTrailingDashes s) = true
  /\ noLeadingDash (stripTrailingDashes s) = true.
Proof.
  intros Hall Hdd Hlead.
  assert (Hkeep : allChars test (stripTrailingDashes s) = true
                  /\ noDoubleDash (stripTrailingDashes s) = true).
  { clear Hlead. induction s as [|c s IH]; simpl; [by split|].
    simpl in Hall, Hdd. apply andb_true_iff in Hall as [Hc Hall].
    apply andb_true_iff in Hdd as [Hcd Hdd].
    destruct (IH Hall Hdd) as [Hall' Hdd'].
    destruct (stripTrailingDashes s) as [|d rest] eqn:Hstrip.
    - destruct (bool_decide (c = dash)) eqn:Hdash; simpl; [by split|].
      rewrite Hc, Hdash. by split.
    - apply stripTrailingDashes_head in Hstrip as [rest' ->].
      simpl in Hcd |- *. simpl in Hall', Hdd'. rewrite Hc, Hcd. simpl. by split. }
  destruct Hkeep as [Hall' Hdd']. split; [assumption|]. split; [assumption|].
  destruct s as [|c s]; [reflexivity|]. simpl in *.
  destruct (stripTrailingDashes s); [|assumption].
  destruct (bool_decide (c = dash)) eqn:Hd; simpl; [reflexivity | by rewrite Hd].
Qed.

Lemma substringTo_shape (test : ascii -> bool) (n : nat) (s : string) :
  allChars test s = true -> noDoubleDash s = true -> noLeadingDash s = true ->
  allChars test (substringTo n s) = true
  /\ noDoubleDash (substringTo n s) = true
  /\ noLeadingDash (substringTo n s) = true
  /\ (String.length (substringTo n s) <= n)%nat.
Proof.
  intros Hall Hdd Hlead.
  assert (Hkeep : allChars test (substringTo n s) = true
                  /\ noDoubleDash (substringTo n s) = true
                  /\ (String.length (substringTo n s) <= n)%nat).
  { clear Hlead. revert s Hall Hdd. induction n as [|n IH]; intros [|c s] Hall Hdd;
      simpl; try (repeat split; (reflexivity || lia)).
    simpl in Hall, Hdd. apply andb_true_iff in Hall as [Hc Hall].
    apply andb_true_iff in Hdd as [Hcd Hdd].
    destruct (IH s Hall Hdd) as (Hall' & Hdd' & Hlen).
    rewrite Hc, Hall', Hdd'. simpl. split; [reflexivity|]. split; [|lia].
    rewrite andb_true_r. destruct (negb (bool_decide (c = dash))) eqn:Hdash; [reflexivity|].
    simpl in Hcd |- *. destruct n; [reflexivity|]. destruct s; [reflexivity|]. exact Hcd. }
  destruct Hkeep as (Hall' & Hdd' & Hlen). repeat split; try assumption.
  destruct n; [reflexivity|]. destruct s; [reflexivity|]. exact Hlead.
Qed.

(** X24.  Whatever the text, the slug generated from it consists of
    lower-case letters, digits and hyphens only, is at most 50 characters
    long, does not begin with a hyphen and holds no two adjacent hyphens. *)
Theorem generateSlug_shape (text : string) :
  allChars (fun c => isSlugChar c || bool_decide (c = dash)) (generateSlug text) = true
  /\ (String.length (generateSlug text) <= 50)%nat
  /\ noLeadingDash (generateSlug text) = true
  /\ noDoubleDash (generateSlug text) = true.
Proof.
  unfold generateSlug.
  destruct (dashRuns_shape false (toLowerCase text)) as (H1 & H2 & _).
  destruct (stripLeadingDashes_shape _ _ H1 H2) as (H3 & H4 & H5).
  destruct (stripTrailingDashes_shape _ _ H3 H4 H5) as (H6 & H7 & H8).
  destruct (substringTo_shape _ 50 _ H6 H7 H8) as (H9 & H10 & H11 & H12).
  by repeat split.
Qed.

(** The cut at 50 characters can leave a hyphen at the end. *)
Example generateSlug_cut_example :
  generateSlug "Advanced Placement Comparative Government Studies A and B"
  = "advanced-placement-comparative-government-studies-".
Proof. reflexivity. Qed.

(** ** Column labels and generated column identifiers *)

Lemma isAlnum_not_underscore (c : ascii) : isAlnum c = true -> c <> underscore.
Proof. intros Hc ->. vm_compute in Hc. discriminate. Qed.

Lemma replaceUnderscores_replaceNonAlnum (s : string) :
  replaceUnderscores (replaceNonAlnum s) = spaceNonAlnum s.
Proof.
  induction s as [|c s IH]; simpl; [reflexivity|]. rewrite IH. f_equal.
  destruct (isAlnum c) eqn:Hc.
  - by rewrite bool_decide_eq_false_2 by (by apply isAlnum_not_underscore).
  - by rewrite bool_decide_eq_true_2.
Qed.

Lemma spaceNonAlnum_fixed (s : string) :
  spaceNonAlnum s = s
  <-> allChars (fun c => isAlnum c || bool_decide (c = space)) s = true.
Proof.
  induction s as [|c s IH]; simpl; [by split|].
  rewrite andb_true_iff, <- IH. split.
  - intros [= Hc Hs]. split; [|assumption].
    destruct (isAlnum c); [reflexivity|]. simpl. by apply bool_decide_eq_true.
  - intros [Hc Hs]. rewrite Hs. f_equal.
    destruct (isAlnum c); [reflexivity|]. simpl in Hc. by apply bool_decide_eq_true in Hc.
Qed.

(** X25.  For a column identifier of the generated data, built from the
    group and the course name, the grid's label is the course name with a
    space in place of every character that is neither a letter nor a digit;
    so the label is the course name itself exactly when the name is made of
    letters, digits and spaces, and a cell, which looks for assignments
    carrying its label as course name, can show an assignment carrying the
    course name only in that case. *)
Theorem generated_column_label (groupId courseName : string) :
  parseCourseNameFromColumnId (generatedColumnId groupId courseName) groupId
  = spaceNonAlnum courseName
  /\ (parseCourseNameFromColumnId (generatedColumnId groupId courseName) groupId = courseName
      <-> allChars (fun c => isAlnum c || bool_decide (c = space)) courseName = true)
  /\ forall a,
       Assignment.courseName a = courseName ->
       Assignment.courseGroup a = groupId ->
       inCell (parseCourseNameFromColumnId (generatedColumnId groupId courseName) groupId)
              groupId a
       = allChars (fun c => isAlnum c || bool_decide (c = space)) courseName.
Proof.
  assert (Hlabel : parseCourseNameFromColumnId (generatedColumnId groupId courseName) groupId
                   = spaceNonAlnum courseName).
  { unfold generatedColumnId.
    by rewrite parseCourseName_prefixed, replaceUnderscores_replaceNonAlnum. }
  split; [exact Hlabel|]. rewrite Hlabel. split; [apply spaceNonAlnum_fixed|].
  intros a Hname Hgroup. unfold inCell. rewrite Hname, Hgroup.
  rewrite (bool_decide_eq_true_2 (groupId = groupId)) by reflexivity. rewrite andb_true_r.
  destruct (allChars _ courseName) eqn:Hall.
  - apply bool_decide_eq_true. symmetry. by apply spaceNonAlnum_fixed.
  - apply bool_decide_eq_false. intros Heq. symmetry in Heq.
    apply spaceNonAlnum_fixed in Heq. congruence.
Qed.

Lemma includesUnderscore_replaceUnderscores (s : string) :
  includesUnderscore (replaceUnderscores s) = false
  /\ String.length (replaceUnderscores s) = String.length s.
Proof.
  induction s as [|c s [IH1 IH2]]; simpl; [by split|]. rewrite IH1, IH2.
  split; [|reflexivity].
  destruct (bool_decide (c = underscore)) eqn:Hc; [reflexivity|]. by rewrite Hc.
Qed.

Lemma startsWith_no_underscore (s groupId : string) :
  includesUnderscore s = false -> startsWith s (groupId +:+ "_") = false.
Proof.
  revert s. induction groupId as [|c g IH]; intros [|d s]; simpl; try reflexivity.
  - intros Hs. destruct (bool_decide (d = underscore)) eqn:Hd; [discriminate|].
    rewrite bool_decide_eq_false_2; [reflexivity|].
    apply bool_decide_eq_false in Hd. intros Heq. apply Hd. by rewrite <- Heq.
  - intros Hs. destruct (bool_decide (d = underscore)); [discriminate|].
    destruct (bool_decide (c = d)); [by apply IH | reflexivity].
Qed.

(** X26.  A column identifier that contains no underscore is its own label,
    whatever the group; and the label of a column identifier made of the
    group identifier, an underscore and a remainder has the length of the
    remainder and contains no underscore. *)
Theorem parseCourseName_labels (columnId groupId rest : string) :
  (includesUnderscore columnId = false ->
   parseCourseNameFromColumnId columnId groupId = columnId)
  /\ includesUnderscore (parseCourseNameFromColumnId (groupId +:+ "_" +:+ rest) groupId)
     = false
  /\ String.length (parseCourseNameFromColumnId (groupId +:+ "_" +:+ rest) groupId)
     = String.length rest.
Proof.
  split.
  - intros Hplain. unfold parseCourseNameFromColumnId.
    by rewrite startsWith_no_underscore, Hplain.
  - rewrite parseCourseName_prefixed. apply includesUnderscore_replaceUnderscores.
Qed.

Lemma parseCourseName_labels_witness :
  parseCourseNameFromColumnId "TOK" "OTHER_SUBJECTS" = "TOK".
Proof.
  destruct (parseCourseName_labels "TOK" "OTHER_SUBJECTS" "") as [Hplain _].
  apply Hplain. reflexivity.
Defined.

(** ** The Number of CPTs column *)

Lemma cptCount_bounds (teacher : Teacher.t) :
  0 <= cptCount teacher <= Z.of_nat (List.length (Teacher.assignments teacher)).
Proof.
  unfold cptCount.
  pose proof (List.filter_length_le Assignment.isCPT (Teacher.assignments teacher)). lia.
Qed.

(** X27.  The total of the Number of CPTs column is the sum of the counts
    shown in the rows, each of which lies between 0 and the number of
    assignments of its row; over rows whose stored metrics agree with their
    assignments it therefore never exceeds the total of preps of the totals
    row, and a row with no common planning time assignment is never flagged
    as over the threshold. *)
Theorem totalCPTCount_within_preps (state : PersistedSchedulerState.t)
    (rows : list Teacher.t) (courseGroups : list CourseGroup.t)
    (collapsedCourseGroups : list string) :
  0 <= PersistedSchedulerState.prepsThreshold state ->
  Forall (fun t => enhanceTeacherWithMetrics t = t) rows ->
  totalCPTCount rows = sumZ (List.map cptCount rows)
  /\ 0 <= totalCPTCount rows
     <= SummaryTotals.totalPreps
          (useSummaryCalculations rows courseGroups collapsedCourseGroups)
  /\ forall t, List.filter Assignment.isCPT (Teacher.assignments t) = [] ->
               isOverThreshold state t = false.
Proof.
  intros Hthreshold Hall.
  assert (Htotal : totalCPTCount rows = sumZ (List.map cptCount rows))
    by (unfold totalCPTCount; rewrite fold_left_add; lia).
  split; [exact Htotal|]. split.
  - rewrite Htotal. unfold useSummaryCalculations. simpl. rewrite fold_left_add.
    induction Hall as [|t rows Ht _ IH]; simpl; [lia|].
    pose proof (cptCount_bounds t) as Hb.
    assert (Hpreps : Teacher.preps t = Z.of_nat (List.length (Teacher.assignments t)))
      by (rewrite <- Ht; reflexivity).
    assert (Hrest : totalCPTCount rows = sumZ (List.map cptCount rows))
      by (unfold totalCPTCount; rewrite fold_left_add; lia).
    specialize (IH Hrest). lia.
  - intros t Hnone. unfold isOverThreshold, cptCount. rewrite Hnone. simpl.
    apply Z.ltb_ge. destruct (PersistedSchedulerState.prepsThreshold state =? 0); lia.
Qed.

Lemma totalCPTCount_within_preps_witness :
  0 <= totalCPTCount Scenario.pair
    <= SummaryTotals.totalPreps (useSummaryCalculations Scenario.pair [Scenario.ccw6] []).
Proof.
  destruct (totalCPTCount_within_preps Scenario.viewState Scenario.pair [Scenario.ccw6] [])
    as (_ & Hbounds & _).
  - vm_compute. discriminate.
  - repeat constructor.
  - exact Hbounds.
Defined.
